(** * chickenScratch: signature feature extraction and verification scoring

    A shallow embedding of the Python modules under [ml-model/]:
    - [collect_signature_data.py]  (class [SignatureDataCollector]),
    - [verify_signature.py]        (class [SignatureVerifier]),
    - [train_model_sklearn.py]     (method [_flatten_features]),
    - [ml_api_server.py]           (route [predict]).

    Numbers.  Python [int]s and binary64 [float]s are embedded as exact
    rationals [Q]; rounding, infinities and NaN are not represented.
    Numeric comparison is [Qeq]/[Qlt] (Python compares numbers by value, so
    [0 == 0.0]); statements about numeric results therefore use [==].
    [numpy.sqrt] is the one irrational primitive the code uses; it is a
    section variable, and the two facts needed about it, [sqrt 0 = 0] and
    [0 <= sqrt q] for [0 <= q], are section hypotheses where they are
    used.  Where a statement depends on the arithmetic being exact, it
    carries the range of inputs on which the program computes exactly
    ([Spec.integer_points]) or without overflow ([Spec.points_in_range]).
    The confidence score, whose stated examples depend on rounding, is
    also modelled on binary64 numbers ([Binary64]).

    Dictionaries read back from files are modelled twice: typed, as
    extraction builds them ([Collector.Features]), and as arbitrary JSON
    values ([Raw]), where a category may be [null] and a field may hold a
    string.

    Exceptions are values of [exn]; a Python expression that can raise is a
    computation in the [result] monad.  Dictionaries are [gmap string _];
    a missing key is an absent binding, JSON [null] / Python [None] is the
    value [None] of [option Q]. *)

From Stdlib Require Import QArith Qabs Qminmax Qround Qpower Lqa.
From Stdlib Require Import Floats.
From stdpp Require Import gmap strings list fin_maps.

#[local] Set Warnings "-inexact-float,-register-all".

Local Open Scope string_scope.
Local Open Scope list_scope.
Local Open Scope Q_scope.

(** ** Exceptions and the result monad *)

Inductive exn : Type :=
  | KeyError (key : string)
  | IndexError
  | ZeroDivisionError
  | TypeError
  | ValueError
  | FloatingPointError
  | AttributeError.

Inductive result (A : Type) : Type :=
  | Ok (a : A)
  | Raise (e : exn).
Arguments Ok {A} a.
Arguments Raise {A} e.

#[global] Instance result_ret : MRet result := fun _ a => Ok a.
#[global] Instance result_bind : MBind result := fun _ _ f r =>
  match r with
  | Ok a => f a
  | Raise e => Raise e
  end.

Definition is_Ok {A} (r : result A) : Prop := exists a, r = Ok a.

(** ** Python primitives *)

Module Py.

(** [a / b] on numbers. *)
Definition div (a b : Q) : result Q :=
  if Qeq_bool b 0 then Raise ZeroDivisionError else Ok (a / b).

(** [a != b] and [a > b] on numbers. *)
Definition ne (a b : Q) : bool := negb (Qeq_bool a b).
Definition gt (a b : Q) : bool := if Qlt_le_dec b a then true else false.

(** [max(a, b)]: the first argument is kept unless the second is
    strictly greater. *)
Definition max (a b : Q) : Q := if gt b a then b else a.

(** [len(l)] as a number. *)
Definition len {A} (l : list A) : Q := inject_Z (Z.of_nat (length l)).

(** [sum(l)]: left fold starting from [0]. *)
Definition sum (l : list Q) : Q := fold_left Qplus l 0.

(** [d[k]] and [d.get(k, default)]. *)
Definition getitem {V} (d : gmap string V) (k : string) : result V :=
  match d !! k with
  | Some v => Ok v
  | None => Raise (KeyError k)
  end.

Definition get {V} (d : gmap string V) (k : string) (dflt : V) : V :=
  match d !! k with
  | Some v => v
  | None => dflt
  end.

(** [l[i]] for a non-negative index. *)
Definition index {A} (l : list A) (i : nat) : result A :=
  match l !! i with
  | Some v => Ok v
  | None => Raise IndexError
  end.

(** [{k: v for k, v in kvs}]: a later binding of a key replaces an
    earlier one. *)
Definition dict_of {V} (kvs : list (string * V)) : gmap string V :=
  fold_left (fun d kv => <[kv.1 := kv.2]> d) kvs ∅.

End Py.

(** ** [ml_api_server.py] *)

Module MlApiServer.

(** The two capabilities unpickled by [load_model]. *)
Record Model := {
  model_predict : list Q -> Z;
  model_predict_proba : list Q -> list Q
}.

Record Scaler := { scaler_transform : list Q -> list Q }.

(** The module globals [model, scaler, feature_names]; [load_model] sets
    the three together, or all three to [None] when loading fails. *)
Record Loaded := {
  model : Model;
  scaler : Scaler;
  feature_names : list string
}.

(** [request.json]. *)
Record Request := {
  stored_features : option (gmap string Q);
  current_features : option (gmap string Q)
}.

Record Prediction := {
  prediction : Z;
  confidence_score : Q;
  is_genuine : bool;
  probabilities_forgery : Q;
  probabilities_genuine : Q
}.

(** The JSON body: [success: True] with the prediction, or the
    [except] branch, [success: False] with status 500. *)
Inductive Response :=
  | Success (p : Prediction)
  | Failure (error : exn).

(** Body of the loop over [feature_names], lines 52-68. *)
Definition diff_feature (feature_name : string)
    (stored_metrics current_metrics : gmap string Q) : result Q :=
  let stored_val := Py.get stored_metrics feature_name 0 in
  let current_val := Py.get current_metrics feature_name 0 in
  let diff := Qabs (current_val - stored_val) in
  rel_diff ←
    (if Py.ne stored_val 0
     then q ← Py.div (current_val - stored_val) stored_val; mret (Qabs q)
     else mret (if Py.ne current_val 0 then 1 else 0));
  if bool_decide (feature_name ∈ ["stroke_count"; "total_points"])
  then mret diff
  else mret rel_diff.

(** The list [features] after the loop. *)
Definition diff_features (names : list string)
    (stored_metrics current_metrics : gmap string Q) : result (list Q) :=
  mapM (fun n => diff_feature n stored_metrics current_metrics) names.

(** Lines 78-84. *)
Definition confidence_of (prediction : Z) (probability : list Q) : result Q :=
  if (prediction =? 1)%Z
  then p1 ← Py.index probability 1; mret (p1 * 100)
  else p0 ← Py.index probability 0; mret ((1 - p0) * 100).

Definition predict_body (g : option Loaded) (data : Request)
    : result Prediction :=
  stored_metrics ← from_option Ok (Raise (KeyError "stored_features"))
                     (stored_features data);
  current_metrics ← from_option Ok (Raise (KeyError "current_features"))
                      (current_features data);
  ld ← from_option Ok (Raise TypeError) g;
  features ← diff_features (feature_names ld) stored_metrics current_metrics;
  let features_scaled := scaler_transform (scaler ld) features in
  let prediction := model_predict (model ld) features_scaled in
  let probability := model_predict_proba (model ld) features_scaled in
  confidence_score ← confidence_of prediction probability;
  p0 ← Py.index probability 0;
  p1 ← Py.index probability 1;
  mret {| prediction := prediction;
          confidence_score := confidence_score;
          is_genuine := (prediction =? 1)%Z;
          probabilities_forgery := p0;
          probabilities_genuine := p1 |}.

(** [predict]: every exception is caught and reported. *)
Definition predict (g : option Loaded) (data : Request) : Response :=
  match predict_body g data with
  | Ok p => Success p
  | Raise e => Failure e
  end.

End MlApiServer.

(** ** [ml_api_server.py], lines 78-101, on binary64 numbers

    [predict_proba] returns a numpy array of binary64 numbers and the
    confidence score is computed from it in binary64 arithmetic.  Here the
    numbers are the kernel's primitive floats, whose operations are the
    IEEE 754 binary64 ones (rounding to nearest, ties to even), and a
    decimal literal denotes the nearest binary64 number, as it does in
    Python. *)

Module Binary64.

Record Prediction := {
  prediction : Z;
  confidence_score : float;
  is_genuine : bool;
  probabilities_forgery : float;
  probabilities_genuine : float
}.

(** Lines 81-84. *)
Definition confidence_of (prediction : Z) (probability : list float) : result float :=
  if (prediction =? 1)%Z
  then p1 ← Py.index probability 1; mret (p1 * 100)%float
  else p0 ← Py.index probability 0; mret ((1 - p0) * 100)%float.

(** Lines 81-101: the body of the response, from the classifier's answer
    [prediction] and [probability]. *)
Definition predict_from (prediction : Z) (probability : list float)
    : result Prediction :=
  confidence_score ← confidence_of prediction probability;
  p0 ← Py.index probability 0;
  p1 ← Py.index probability 1;
  mret {| prediction := prediction;
          confidence_score := confidence_score;
          is_genuine := (prediction =? 1)%Z;
          probabilities_forgery := p0;
          probabilities_genuine := p1 |}.

End Binary64.

(** ** numpy reductions over a Python list of numbers *)

Module Np.
Section Np.

(** [numpy.sqrt]. *)
Variable sqrt : Q -> Q.

(** [np.mean(l)]: on an empty list numpy answers [nan] with a
    RuntimeWarning; the embedding has no [nan] and reports
    [FloatingPointError] there.  The code below never reaches it. *)
Definition mean (l : list Q) : result Q :=
  match l with
  | [] => Raise FloatingPointError
  | _ :: _ => Ok (Py.sum l / Py.len l)
  end.

(** [np.std(l)]: population standard deviation,
    [sqrt(mean(abs(x - mean(l)) ** 2))]. *)
Definition std (l : list Q) : result Q :=
  m ← mean l;
  v ← mean (map (fun x => Qabs (x - m) ^ 2) l);
  mret (sqrt v).

(** [np.max(l)], [np.min(l)]: [ValueError] on an empty list. *)
Definition max (l : list Q) : result Q :=
  match l with
  | [] => Raise ValueError
  | a :: l' => Ok (fold_left Qmax l' a)
  end.

Definition min (l : list Q) : result Q :=
  match l with
  | [] => Raise ValueError
  | a :: l' => Ok (fold_left Qmin l' a)
  end.

End Np.
End Np.

(** ** [collect_signature_data.py] *)

Module Collector.

(** A captured point: [x] and [y] are always present, ['time'] may be
    absent.  A point without [x] or [y], on which the code raises
    [KeyError], and a point whose ['time'] is [None] are not
    represented. *)
Record Point := {
  x : Q;
  y : Q;
  time : option Q
}.

(** A stroke dictionary; each of its three keys may be absent. *)
Record Stroke := {
  points : option (list Point);
  startTime : option Q;
  endTime : option Q
}.

(** [signature_data]; the key ['strokes'] may be absent. *)
Record SignatureData := { strokes : option (list Stroke) }.

(** A feature category such as [basic_stats]: field name to value, where
    the value [None] is Python's [None]. *)
Abbreviation Category := (gmap string (option Q)).

(** The nested feature dictionary as extraction builds it (the
    ['timestamp'] entry, a wall-clock string that no function reads back,
    is left out).  A feature dictionary from elsewhere, with a category
    that is not a dictionary or a field that holds a string, is a
    [Raw.json] value. *)
Abbreviation Features := (gmap string (gmap string (option Q))).

(** One entry of [self.signatures]. *)
Record SignatureRecord := {
  user_id : string;
  type : string;
  raw_data : SignatureData;
  features : Features
}.

(** What [analyze_consistency] returns: the message string, or the report
    dictionary. *)
Record ConsistencyReport := {
  velocity_consistency : Q;
  stroke_count_consistency : Q;
  area_consistency : Q;
  sample_count : nat
}.

Inductive Consistency :=
  | Message (msg : string)
  | Report (r : ConsistencyReport).

(** [points[i-1], points[i]] for [i] in [range(1, len(points))]. *)
Fixpoint consecutive {A} (l : list A) : list (A * A) :=
  match l with
  | p1 :: (p2 :: _) as rest => (p1, p2) :: consecutive rest
  | _ => []
  end.

(** [stroke['points']] and [stroke.get('points', [])]. *)
Definition points_item (stroke : Stroke) : result (list Point) :=
  from_option Ok (Raise (KeyError "points")) (points stroke).

Definition points_get (stroke : Stroke) : list Point :=
  default [] (points stroke).

(** Lines 69-71. *)
Definition time_diff (p1 p2 : Point) : Q :=
  match time p1, time p2 with
  | Some t1, Some t2 => Py.max (t2 - t1) 1
  | _, _ => 1
  end.

Section WithSqrt.

Variable sqrt : Q -> Q.

(** Line 66 (and 139): the root of the exact sum of squares.  That
    [numpy.sqrt] rejects a Python [int] beyond 64 bits, and that the
    square of a [float] can overflow, is not represented; neither happens
    within [Spec.points_in_range]. *)
Definition distance (p1 p2 : Point) : Q :=
  sqrt ((x p2 - x p1) ^ 2 + (y p2 - y p1) ^ 2).

(** Lines 63-73: one iteration of the inner loop. *)
Definition velocity (p1 p2 : Point) : result Q :=
  Py.div (distance p1 p2) (time_diff p1 p2).

Definition _calculate_basic_stats (strokes : list Stroke) : result Category :=
  lens ← mapM (fun stroke => pts ← points_item stroke; mret (Py.len pts)) strokes;
  let total_points := Py.sum lens in
  let total_duration :=
    match head strokes, last strokes with
    | Some first, Some final =>
        match startTime first, endTime final with
        | Some st, Some en => en - st
        | _, _ => 0
        end
    | _, _ => 0
    end in
  avg ← match strokes with
        | [] => mret 0
        | _ :: _ => Py.div total_points (Py.len strokes)
        end;
  mret ({[ "stroke_count" := Some (Py.len strokes);
           "total_points" := Some total_points;
           "total_duration_ms" := Some total_duration;
           "average_points_per_stroke" := Some avg ]} : Category).

(** The list [velocities] after the two nested loops. *)
Definition stroke_velocities (strokes : list Stroke) : result (list Q) :=
  vs ← mapM (fun stroke =>
               mapM (fun pp => velocity pp.1 pp.2)
                    (consecutive (points_get stroke))) strokes;
  mret (concat vs).

Definition _calculate_velocity_features (strokes : list Stroke) : result Category :=
  velocities ← stroke_velocities strokes;
  match velocities with
  | _ :: _ =>
      avg ← Np.mean velocities;
      hi ← Np.max velocities;
      lo ← Np.min velocities;
      sd ← Np.std sqrt velocities;
      mret ({[ "average_velocity" := Some avg;
               "max_velocity" := Some hi;
               "min_velocity" := Some lo;
               "velocity_std" := Some sd ]} : Category)
  | [] =>
      mret ({[ "average_velocity" := Some 0;
               "max_velocity" := Some 0;
               "min_velocity" := Some 0;
               "velocity_std" := Some 0 ]} : Category)
  end.

Definition _calculate_shape_features (strokes : list Stroke) : result Category :=
  let all_points := concat (map points_get strokes) in
  match all_points with
  | [] =>
      mret ({[ "width" := Some 0;
               "height" := Some 0;
               "area" := Some 0;
               "aspect_ratio" := Some 0 ]} : Category)
  | _ :: _ =>
      min_x ← Np.min (map x all_points);
      min_y ← Np.min (map y all_points);
      max_x ← Np.max (map x all_points);
      max_y ← Np.max (map y all_points);
      let width := max_x - min_x in
      let height := max_y - min_y in
      aspect ← (if Py.gt height 0 then Py.div width height else mret 0);
      mret ({[ "width" := Some width;
               "height" := Some height;
               "area" := Some (width * height);
               "aspect_ratio" := Some aspect;
               "center_x" := Some ((min_x + max_x) / 2);
               "center_y" := Some ((min_y + max_y) / 2) ]} : Category)
  end.

(** Lines 135-139: the length of one stroke. *)
Definition stroke_length (pts : list Point) : Q :=
  fold_left (fun length pp => length + distance pp.1 pp.2) (consecutive pts) 0.

(** Lines 144-146: the duration a stroke contributes, if any. *)
Definition stroke_duration (stroke : Stroke) : option Q :=
  match startTime stroke, endTime stroke with
  | Some st, Some en => Some (en - st)
  | _, _ => None
  end.

Definition _calculate_stroke_features (strokes : list Stroke) : result Category :=
  let stroke_lengths := map (fun stroke => stroke_length (points_get stroke)) strokes in
  let stroke_durations := omap stroke_duration strokes in
  avg ← match stroke_lengths with [] => mret 0 | _ :: _ => Np.mean stroke_lengths end;
  var ← match stroke_lengths with [] => mret 0 | _ :: _ => Np.std sqrt stroke_lengths end;
  let features : Category :=
    {[ "average_stroke_length" := Some avg;
       "total_length" := Some (Py.sum stroke_lengths);
       "length_variation" := Some var ]} in
  match stroke_durations with
  | [] => mret features
  | _ :: _ =>
      davg ← Np.mean stroke_durations;
      dvar ← Np.std sqrt stroke_durations;
      mret (<["duration_variation" := Some dvar]>
              (<["average_stroke_duration" := Some davg]> features))
  end.

Definition process_signature (signature_data : SignatureData) : result Features :=
  let strokes := default [] (strokes signature_data) in
  basic ← _calculate_basic_stats strokes;
  vel ← _calculate_velocity_features strokes;
  shape ← _calculate_shape_features strokes;
  stroke ← _calculate_stroke_features strokes;
  mret ({[ "basic_stats" := basic;
           "velocity_features" := vel;
           "shape_features" := shape;
           "stroke_features" := stroke ]} : Features).

(** [save_signature]: the state is the list [self.signatures]; writing the
    JSON file is not represented. *)
Definition save_signature (signatures : list SignatureRecord)
    (signature_data : SignatureData) (user_id : string) (signature_type : string)
    : result (list SignatureRecord * Features) :=
  features ← process_signature signature_data;
  let record := {| user_id := user_id; type := signature_type;
                   raw_data := signature_data; features := features |} in
  mret (signatures ++ [record], features).

(** [s['features'][category][field]] read as a number. *)
Definition feature_item (s : SignatureRecord) (category field : string) : result Q :=
  cat ← Py.getitem (features s) category;
  v ← Py.getitem cat field;
  from_option Ok (Raise TypeError) v.

(** The invariant of [self.signatures]: the three metrics that
    [analyze_consistency] reads are present and are numbers. *)
Definition has_metrics (s : SignatureRecord) : Prop :=
  (exists v, feature_item s "velocity_features" "average_velocity" = Ok v) /\
  (exists v, feature_item s "basic_stats" "stroke_count" = Ok v) /\
  (exists v, feature_item s "shape_features" "area" = Ok v).

(** [1 - (np.std(vs) / np.mean(vs) if np.mean(vs) > 0 else 0)]. *)
Definition consistency (values : list Q) : result Q :=
  m ← Np.mean values;
  cv ← (if Py.gt m 0
        then sd ← Np.std sqrt values; m' ← Np.mean values; Py.div sd m'
        else mret 0);
  mret (1 - cv).

Definition analyze_consistency (signatures : list SignatureRecord)
    (uid : string) : result Consistency :=
  let user_signatures :=
    filter (fun s => user_id s = uid /\ type s = "genuine") signatures in
  if bool_decide (length user_signatures < 2)%nat
  then mret (Message "Need at least 2 signatures to analyze consistency")
  else
    velocities ← mapM (fun s => feature_item s "velocity_features" "average_velocity")
                      user_signatures;
    stroke_counts ← mapM (fun s => feature_item s "basic_stats" "stroke_count")
                         user_signatures;
    areas ← mapM (fun s => feature_item s "shape_features" "area") user_signatures;
    vc ← consistency velocities;
    sc ← consistency stroke_counts;
    ac ← consistency areas;
    mret (Report {| velocity_consistency := vc;
                    stroke_count_consistency := sc;
                    area_consistency := ac;
                    sample_count := length user_signatures |}).

(** The values [self.signatures] can take: empty after [__init__], and
    extended by [save_signature] only. *)
Inductive reachable : list SignatureRecord -> Prop :=
  | reachable_init : reachable []
  | reachable_save signatures signature_data user_id signature_type
        signatures' features :
      reachable signatures ->
      save_signature signatures signature_data user_id signature_type
        = Ok (signatures', features) ->
      reachable signatures'.

End WithSqrt.

End Collector.

(** ** The bounding box of [_calculate_shape_features] in int64

    When every coordinate is a Python [int] that fits in 64 bits,
    [np.array(all_points)] is an int64 array: minimum and maximum are
    exact, and [width], [height] and [area] are computed in int64, where a
    result outside [[-2^63, 2^63)] wraps around.  The two quotients,
    [aspect_ratio] and the center, are binary64 numbers and are not part
    of this model. *)

Module Int64.

(** The int64 value of an exact integer result. *)
Definition wrap (z : Z) : Z := ((z + 2 ^ 63) mod 2 ^ 64 - 2 ^ 63)%Z.

(** Lines 94-97: the rows [[point['x'], point['y']]], for integer
    coordinates. *)
Definition all_points (strokes : list Collector.Stroke) : list (Z * Z) :=
  map (fun point => (Qfloor (Collector.x point), Qfloor (Collector.y point)))
      (concat (map Collector.points_get strokes)).

Record Box := {
  min_x : Z;
  min_y : Z;
  max_x : Z;
  max_y : Z;
  width : Z;
  height : Z;
  area : Z
}.

(** Lines 99-119: [None] when there is no point (the function has
    returned the four zeros), and otherwise the corners with [width],
    [height] and [area]. *)
Definition bounding_box (strokes : list Collector.Stroke) : option Box :=
  match all_points strokes with
  | [] => None
  | p :: ps =>
      let min_x := fold_left Z.min (map fst ps) p.1 in
      let min_y := fold_left Z.min (map snd ps) p.2 in
      let max_x := fold_left Z.max (map fst ps) p.1 in
      let max_y := fold_left Z.max (map snd ps) p.2 in
      let width := wrap (max_x - min_x) in
      let height := wrap (max_y - min_y) in
      Some {| min_x := min_x; min_y := min_y; max_x := max_x; max_y := max_y;
              width := width; height := height;
              area := wrap (width * height) |}
  end.

End Int64.

(** ** [train_model_sklearn.py]: [SignatureMLModel._flatten_features] *)

Module TrainModelSklearn.

(** The literal assigned to [self.feature_names] (lines 103-109). *)
Definition FEATURE_NAMES : list string :=
  [ "stroke_count"; "total_points"; "total_duration_ms"; "avg_points_per_stroke";
    "avg_velocity"; "max_velocity"; "min_velocity"; "velocity_std";
    "width"; "height"; "area"; "aspect_ratio"; "center_x"; "center_y";
    "avg_stroke_length"; "total_length"; "length_variation";
    "avg_stroke_duration"; "duration_variation" ].

(** The method reads [features_dict] and may set [self.feature_names];
    it returns the flat list together with the new value of that
    attribute ([None] or an empty list count as unset). *)
Definition _flatten_features (feature_names : option (list string))
    (features_dict : Collector.Features) : list Q * option (list string) :=
  let basic := Py.get features_dict "basic_stats" ∅ in
  let flat_features : list (option Q) :=
    [ Py.get basic "stroke_count" (Some 0);
      Py.get basic "total_points" (Some 0);
      Py.get basic "total_duration_ms" (Some 0);
      Py.get basic "average_points_per_stroke" (Some 0) ] in
  let velocity := Py.get features_dict "velocity_features" ∅ in
  let flat_features :=
    flat_features ++
    [ Py.get velocity "average_velocity" (Some 0);
      Py.get velocity "max_velocity" (Some 0);
      Py.get velocity "min_velocity" (Some 0);
      Py.get velocity "velocity_std" (Some 0) ] in
  let shape := Py.get features_dict "shape_features" ∅ in
  let flat_features :=
    flat_features ++
    [ Py.get shape "width" (Some 0);
      Py.get shape "height" (Some 0);
      Py.get shape "area" (Some 0);
      Py.get shape "aspect_ratio" (Some 0);
      Py.get shape "center_x" (Some 0);
      Py.get shape "center_y" (Some 0) ] in
  let stroke := Py.get features_dict "stroke_features" ∅ in
  let flat_features :=
    flat_features ++
    [ Py.get stroke "average_stroke_length" (Some 0);
      Py.get stroke "total_length" (Some 0);
      Py.get stroke "length_variation" (Some 0);
      Py.get stroke "average_stroke_duration" (Some 0);
      Py.get stroke "duration_variation" (Some 0) ] in
  let feature_names' :=
    match feature_names with
    | None | Some [] => Some FEATURE_NAMES
    | Some (_ :: _) => feature_names
    end in
  (map (fun v => match v with None => 0 | Some q => q end) flat_features,
   feature_names').

End TrainModelSklearn.

(** ** [verify_signature.py] *)

Module VerifySignature.

(** [_flatten_features], lines 50-99. *)
Definition _flatten_features (features_dict : Collector.Features) : list Q :=
  let basic := Py.get features_dict "basic_stats" ∅ in
  let flat_features : list (option Q) :=
    [ Py.get basic "stroke_count" (Some 0);
      Py.get basic "total_points" (Some 0);
      Py.get basic "total_duration_ms" (Some 0);
      Py.get basic "average_points_per_stroke" (Some 0) ] in
  let velocity := Py.get features_dict "velocity_features" ∅ in
  let flat_features :=
    flat_features ++
    [ Py.get velocity "average_velocity" (Some 0);
      Py.get velocity "max_velocity" (Some 0);
      Py.get velocity "min_velocity" (Some 0);
      Py.get velocity "velocity_std" (Some 0) ] in
  let shape := Py.get features_dict "shape_features" ∅ in
  let flat_features :=
    flat_features ++
    [ Py.get shape "width" (Some 0);
      Py.get shape "height" (Some 0);
      Py.get shape "area" (Some 0);
      Py.get shape "aspect_ratio" (Some 0);
      Py.get shape "center_x" (Some 0);
      Py.get shape "center_y" (Some 0) ] in
  let stroke := Py.get features_dict "stroke_features" ∅ in
  let flat_features :=
    flat_features ++
    [ Py.get stroke "average_stroke_length" (Some 0);
      Py.get stroke "total_length" (Some 0);
      Py.get stroke "length_variation" (Some 0);
      Py.get stroke "average_stroke_duration" (Some 0);
      Py.get stroke "duration_variation" (Some 0) ] in
  map (fun v => match v with None => 0 | Some q => q end) flat_features.

(** The attributes set by [load_latest_model]: the Keras model (its
    [predict(X)[0][0]], one score per input row), the fitted scaler and
    the feature names read from [models/features_*.json]. *)
Record Verifier := {
  model_predict : list Q -> Q;
  scaler_transform : list Q -> list Q;
  feature_names : list string
}.

(** The dictionary [analysis]. *)
Record Analysis := {
  is_genuine : bool;
  confidence : Q;
  threshold : Q;
  features : gmap string Q;
  verdict : string
}.

(** Lines 113-119. *)
Definition fit_length (flat_features : list Q) (n : nat) : list Q :=
  if bool_decide (length flat_features ≠ n) then
    if bool_decide (length flat_features < n)%nat
    then flat_features ++ replicate (n - length flat_features) 0
    else take n flat_features
  else flat_features.

Section WithSqrt.

Variable sqrt : Q -> Q.

(** Everything [verify_signature] computes: the vector handed to the
    scaler, the scaled vector handed to the model, and the returned
    triple. *)
Record Trace := {
  X : list Q;
  X_scaled : list Q;
  returned : bool * Q * Analysis
}.

Definition verify_signature_trace (self : Verifier)
    (signature_data : Collector.SignatureData) : result Trace :=
  features ← Collector.process_signature sqrt signature_data;
  let flat_features := _flatten_features features in
  let flat_features := fit_length flat_features (length (feature_names self)) in
  let X := flat_features in
  let X_scaled := scaler_transform self X in
  let prediction := model_predict self X_scaled in
  let confidence := prediction * 100 in
  let is_genuine := Py.gt prediction 0.5 in
  let analysis :=
    {| is_genuine := is_genuine;
       confidence := confidence;
       threshold := 50.0;
       features :=
         Py.dict_of (zip (take (length flat_features) (feature_names self))
                         flat_features);
       verdict := if is_genuine then "GENUINE" else "FORGERY DETECTED" |} in
  mret {| X := X; X_scaled := X_scaled;
          returned := (is_genuine, confidence, analysis) |}.

Definition verify_signature (self : Verifier)
    (signature_data : Collector.SignatureData) : result (bool * Q * Analysis) :=
  t ← verify_signature_trace self signature_data;
  mret (returned t).

End WithSqrt.

End VerifySignature.

(** ** Feature dictionaries as [json.load] returns them

    A feature dictionary read back from a file, or handed over by a
    caller, is an arbitrary JSON value: a category may be [null] or not a
    dictionary at all, and a field may hold a string ([save_signature]
    writes with [json.dump(..., default=str)], which turns the numpy
    integers of the shape features into strings). *)

Module Raw.

Inductive json :=
  | JNull
  | JBool (b : bool)
  | JNum (q : Q)
  | JStr (s : string)
  | JList (l : list json)
  | JObj (o : gmap string json).

(** [d.get(key, dflt)]: only a dictionary has the method. *)
Definition get (d : json) (key : string) (dflt : json) : result json :=
  match d with
  | JObj o => mret (default dflt (o !! key))
  | _ => Raise AttributeError
  end.

(** [d[key]] for a string [key]: a [KeyError] on a dictionary without the
    key, a [TypeError] on anything that is not a dictionary. *)
Definition getitem (d : json) (key : string) : result json :=
  match d with
  | JObj o => from_option Ok (Raise (KeyError key)) (o !! key)
  | _ => Raise TypeError
  end.

(** [0 if x is None else x]. *)
Definition none_to_zero (x : json) : json :=
  match x with
  | JNull => JNum 0
  | _ => x
  end.

Definition is_dict (v : json) : bool :=
  match v with
  | JObj _ => true
  | _ => false
  end.

Definition is_number (v : json) : bool :=
  match v with
  | JNum _ => true
  | _ => false
  end.

(** The typed feature dictionary of [Collector] as a JSON value. *)
Definition of_value (v : option Q) : json :=
  match v with
  | Some q => JNum q
  | None => JNull
  end.

Definition of_features (features_dict : Collector.Features) : json :=
  JObj ((fun category : gmap string (option Q) => JObj (of_value <$> category))
          <$> features_dict).

(** [verify_signature.py], [_flatten_features], lines 50-99. *)
Module VerifySignature.

Definition _flatten_features (features_dict : json) : result (list json) :=
  basic ← get features_dict "basic_stats" (JObj ∅);
  flat_basic ←
    mapM (fun field => get basic field (JNum 0))
         [ "stroke_count"; "total_points"; "total_duration_ms";
           "average_points_per_stroke" ];
  velocity ← get features_dict "velocity_features" (JObj ∅);
  flat_velocity ←
    mapM (fun field => get velocity field (JNum 0))
         [ "average_velocity"; "max_velocity"; "min_velocity"; "velocity_std" ];
  shape ← get features_dict "shape_features" (JObj ∅);
  flat_shape ←
    mapM (fun field => get shape field (JNum 0))
         [ "width"; "height"; "area"; "aspect_ratio"; "center_x"; "center_y" ];
  stroke ← get features_dict "stroke_features" (JObj ∅);
  flat_stroke ←
    mapM (fun field => get stroke field (JNum 0))
         [ "average_stroke_length"; "total_length"; "length_variation";
           "average_stroke_duration"; "duration_variation" ];
  let flat_features := flat_basic ++ flat_velocity ++ flat_shape ++ flat_stroke in
  mret (map none_to_zero flat_features).

End VerifySignature.

(** [train_model_sklearn.py]: [_flatten_features], lines 56-112, and the
    loop of [load_training_data], lines 40-52. *)
Module TrainModelSklearn.

(** The flat list together with the new value of [self.feature_names]. *)
Definition _flatten_features (feature_names : option (list string))
    (features_dict : json) : result (list json * option (list string)) :=
  basic ← get features_dict "basic_stats" (JObj ∅);
  flat_basic ←
    mapM (fun field => get basic field (JNum 0))
         [ "stroke_count"; "total_points"; "total_duration_ms";
           "average_points_per_stroke" ];
  velocity ← get features_dict "velocity_features" (JObj ∅);
  flat_velocity ←
    mapM (fun field => get velocity field (JNum 0))
         [ "average_velocity"; "max_velocity"; "min_velocity"; "velocity_std" ];
  shape ← get features_dict "shape_features" (JObj ∅);
  flat_shape ←
    mapM (fun field => get shape field (JNum 0))
         [ "width"; "height"; "area"; "aspect_ratio"; "center_x"; "center_y" ];
  stroke ← get features_dict "stroke_features" (JObj ∅);
  flat_stroke ←
    mapM (fun field => get stroke field (JNum 0))
         [ "average_stroke_length"; "total_length"; "length_variation";
           "average_stroke_duration"; "duration_variation" ];
  let flat_features := flat_basic ++ flat_velocity ++ flat_shape ++ flat_stroke in
  let feature_names' :=
    match feature_names with
    | None | Some [] => Some TrainModelSklearn.FEATURE_NAMES
    | Some (_ :: _) => feature_names
    end in
  mret (map none_to_zero flat_features, feature_names').

(** What the loop of [load_training_data] has accumulated, and the
    attribute [self.feature_names]. *)
Record Loaded := {
  all_features : list (list json);
  all_labels : list Z;
  all_users : list json;
  feature_names : option (list string)
}.

(** [1 if ty == 'genuine' else 0]. *)
Definition label_of (ty : json) : Z :=
  match ty with
  | JStr s => if String.eqb s "genuine" then 1%Z else 0%Z
  | _ => 0%Z
  end.

(** One iteration, lines 40-52.  The file's content is the value that
    [json.load] returns, or [None] when the file does not parse
    ([json.JSONDecodeError], a [ValueError]). *)
Definition load_file (acc : Loaded) (file : option json) : result Loaded :=
  data ← from_option Ok (Raise ValueError) file;
  features_dict ← getitem data "features";
  flat ← _flatten_features (feature_names acc) features_dict;
  ty ← getitem data "type";
  let label := label_of ty in
  user ← getitem data "user_id";
  mret {| all_features := all_features acc ++ [flat.1];
          all_labels := all_labels acc ++ [label];
          all_users := all_users acc ++ [user];
          feature_names := flat.2 |}.

(** The loop over [data_files], on a freshly constructed
    [SignatureMLModel] ([self.feature_names = []]); the conversion of the
    three lists to numpy arrays that follows it is not represented. *)
Fixpoint load_files (acc : Loaded) (files : list (option json)) : result Loaded :=
  match files with
  | [] => mret acc
  | file :: rest => acc' ← load_file acc file; load_files acc' rest
  end.

Definition load_loop (files : list (option json)) : result Loaded :=
  load_files {| all_features := []; all_labels := []; all_users := [];
                feature_names := Some [] |} files.

End TrainModelSklearn.

End Raw.

(** ** Concrete data for running the model *)

Module Examples.

(** A computable stand-in for [numpy.sqrt] on concrete inputs: the square
    root rounded down to six decimals (exact at [0]). *)
Definition sqrt6 (q : Q) : Q :=
  Z.sqrt (Qfloor (q * 1000000000000)) # 1000000.

(** [example_signature] of [collect_signature_data.py], lines 223-235. *)
Definition example_signature : Collector.SignatureData :=
  {| Collector.strokes := Some
       [ {| Collector.points := Some
              [ {| Collector.x := 100; Collector.y := 100; Collector.time := Some 0 |};
                {| Collector.x := 150; Collector.y := 120; Collector.time := Some 50 |};
                {| Collector.x := 200; Collector.y := 130; Collector.time := Some 100 |} ];
            Collector.startTime := Some 0;
            Collector.endTime := Some 100 |} ] |}.

(** A capture with one stroke that has no points and no timing. *)
Definition degenerate_signature : Collector.SignatureData :=
  {| Collector.strokes := Some
       [ {| Collector.points := Some [];
            Collector.startTime := None;
            Collector.endTime := None |} ] |}.

Definition empty_signature : Collector.SignatureData :=
  {| Collector.strokes := Some [] |}.

(** A loaded classifier that answers every vector with the given label and
    probabilities, behind an identity scaler, for the 19 training names. *)
Definition constant_server (label : Z) (probability : list Q) : MlApiServer.Loaded :=
  {| MlApiServer.model :=
       {| MlApiServer.model_predict := fun _ => label;
          MlApiServer.model_predict_proba := fun _ => probability |};
     MlApiServer.scaler := {| MlApiServer.scaler_transform := fun v => v |};
     MlApiServer.feature_names := TrainModelSklearn.FEATURE_NAMES |}.

(** Stored and current metrics of two captures, by flat feature name. *)
Definition stored_metrics : gmap string Q :=
  {[ "stroke_count" := 2; "total_points" := 40; "width" := 100; "center_x" := -2 ]}.

Definition current_metrics : gmap string Q :=
  {[ "stroke_count" := 3; "total_points" := 36; "width" := 150; "center_x" := 2;
     "height" := 30 ]}.


(** A verifier whose model answers every vector with the given score,
    behind a scaler that doubles every entry, for the given names. *)
Definition constant_verifier (score : Q) (names : list string)
    : VerifySignature.Verifier :=
  {| VerifySignature.model_predict := fun _ => score;
     VerifySignature.scaler_transform := map (Qmult 2);
     VerifySignature.feature_names := names |}.

(** Expected names that are two more, and sixteen fewer, than the 19
    flattened features. *)
Definition names_21 : list string :=
  TrainModelSklearn.FEATURE_NAMES ++ ["pressure_mean"; "pressure_std"].

Definition names_3 : list string := take 3 TrainModelSklearn.FEATURE_NAMES.

(** A verifier for the 19 training names whose model scores 0.3, and what
    [verify_signature] returns for [example_signature] under it. *)
Definition forgery_verifier : VerifySignature.Verifier :=
  constant_verifier 0.3 TrainModelSklearn.FEATURE_NAMES.

Definition forgery_outcome : result (bool * Q * VerifySignature.Analysis) :=
  Eval vm_compute in
    VerifySignature.verify_signature sqrt6 forgery_verifier example_signature.

(** A request against a classifier that answers label 0 with
    probabilities [0.7, 0.3], and the response of [predict]. *)
Definition forgery_request : MlApiServer.Request :=
  {| MlApiServer.stored_features := Some stored_metrics;
     MlApiServer.current_features := Some current_metrics |}.

Definition forgery_response : MlApiServer.Response :=
  Eval vm_compute in
    MlApiServer.predict (Some (constant_server 0 [0.7; 0.3])) forgery_request.

End Examples.

(** ** The specification's formulas *)

Module Spec.

(** The features the specification calls pure counts. *)
Definition COUNT_FEATURES : list string := ["stroke_count"; "total_points"].

(** The diff feature in the specification's words: the absolute
    difference for a count, otherwise [|attempt - reference| / reference]
    when [reference] is not [0], else [1.0] when [attempt] is not [0],
    else [0.0]. *)
Definition diff_as_specified (name : string) (reference attempt : Q) : Q :=
  if bool_decide (name ∈ COUNT_FEATURES) then Qabs (attempt - reference)
  else if Py.ne reference 0 then Qabs (attempt - reference) / reference
  else if Py.ne attempt 0 then 1
  else 0.

(** The same rule with the quotient taken against [|reference|]. *)
Definition diff_by_magnitude (name : string) (reference attempt : Q) : Q :=
  if bool_decide (name ∈ COUNT_FEATURES) then Qabs (attempt - reference)
  else if Py.ne reference 0 then Qabs (attempt - reference) / Qabs reference
  else if Py.ne attempt 0 then 1
  else 0.

(** Where each of the 19 flat positions comes from: category and field of
    the nested feature dictionary, in the fixed order. *)
Definition FEATURE_FIELDS : list (string * string) :=
  [ ("basic_stats", "stroke_count");
    ("basic_stats", "total_points");
    ("basic_stats", "total_duration_ms");
    ("basic_stats", "average_points_per_stroke");
    ("velocity_features", "average_velocity");
    ("velocity_features", "max_velocity");
    ("velocity_features", "min_velocity");
    ("velocity_features", "velocity_std");
    ("shape_features", "width");
    ("shape_features", "height");
    ("shape_features", "area");
    ("shape_features", "aspect_ratio");
    ("shape_features", "center_x");
    ("shape_features", "center_y");
    ("stroke_features", "average_stroke_length");
    ("stroke_features", "total_length");
    ("stroke_features", "length_variation");
    ("stroke_features", "average_stroke_duration");
    ("stroke_features", "duration_variation") ].

(** The number stored at a position, [0] when the category is missing,
    the field is missing, or the field holds [None]. *)
Definition field_or_zero (features_dict : Collector.Features)
    (field : string * string) : Q :=
  match features_dict !! field.1 with
  | Some category =>
      match category !! field.2 with
      | Some (Some q) => q
      | Some None | None => 0
      end
  | None => 0
  end.

(** The consistency score in the specification's words: [1 - cv] with
    [cv = std(values) / mean(values)], and [cv = 0] if the mean is 0; the
    standard deviation is the population one, as numpy computes it. *)
Definition mean (values : list Q) : Q := Py.sum values / Py.len values.

Definition std (sqrt : Q -> Q) (values : list Q) : Q :=
  sqrt (mean (map (fun v => Qabs (v - mean values) ^ 2) values)).

Definition consistency_as_specified (sqrt : Q -> Q) (values : list Q) : Q :=
  1 - (if Qeq_bool (mean values) 0 then 0 else std sqrt values / mean values).

(** A capture as the data model has it: every stroke carries its list of
    points (possibly empty). *)
Definition well_formed (signature_data : Collector.SignatureData) : Prop :=
  Forall (fun stroke => is_Some (Collector.points stroke))
         (default [] (Collector.strokes signature_data)).

(** The report of the verification engine as the specification describes
    it: [feature_diffs] holds, under each name, the diff of the attempt
    against the reference, and the verdict is GENUINE or FORGERY. *)
Definition report_as_specified (names : list string)
    (reference attempt : gmap string Q) (a : VerifySignature.Analysis) : Prop :=
  (forall name, name ∈ names ->
     exists d v, MlApiServer.diff_feature name reference attempt = Ok d /\
                 VerifySignature.features a !! name = Some v /\ v == d) /\
  (VerifySignature.verdict a = "GENUINE" \/ VerifySignature.verdict a = "FORGERY").

(** The four categories that flattening reads. *)
Definition CATEGORIES : list string :=
  ["basic_stats"; "velocity_features"; "shape_features"; "stroke_features"].

(** A category as flattening sees it: the empty dictionary when the key
    is missing. *)
Definition category_of (o : gmap string Raw.json) (category : string) : Raw.json :=
  default (Raw.JObj ∅) (o !! category).

(** A feature dictionary whose categories, where present, are
    dictionaries. *)
Definition categories_are_dicts (features_dict : Raw.json) : bool :=
  match features_dict with
  | Raw.JObj o =>
      forallb (fun category => Raw.is_dict (category_of o category)) CATEGORIES
  | _ => false
  end.

(** What the loop of [load_training_data] raises on a file, if
    anything: a file that does not parse, a content that is not a
    dictionary, a missing ['features'], a feature dictionary that cannot
    be flattened, a missing ['type'], a missing ['user_id']. *)
Definition file_error (file : option Raw.json) : option exn :=
  match file with
  | None => Some ValueError
  | Some (Raw.JObj data) =>
      match data !! "features", data !! "type", data !! "user_id" with
      | None, _, _ => Some (KeyError "features")
      | Some features_dict, ty, user =>
          if negb (categories_are_dicts features_dict) then Some AttributeError
          else match ty, user with
               | None, _ => Some (KeyError "type")
               | Some _, None => Some (KeyError "user_id")
               | Some _, Some _ => None
               end
      end
  | Some _ => Some TypeError
  end.

(** The entry at a position: the value stored in the field, or the
    number 0 when the category is missing, the field is missing or the
    field holds [None]. *)
Definition entry (features_dict : Raw.json) (field : string * string) : Raw.json :=
  match features_dict with
  | Raw.JObj o =>
      match category_of o field.1 with
      | Raw.JObj category =>
          match category !! field.2 with
          | Some Raw.JNull | None => Raw.JNum 0
          | Some v => v
          end
      | _ => Raw.JNum 0
      end
  | _ => Raw.JNum 0
  end.

(** The coordinates on which numpy computes a bounding box exactly:
    integers of magnitude at most [2^25].  Whether the array of points is
    an int64 or a binary64 array, no difference, sum or product of two
    such coordinates is rounded or leaves the int64 range, and half of a
    sum is a binary64 number. *)
Definition small_int (v : Q) : Prop :=
  exists z : Z, v = inject_Z z /\ (Z.abs z <= 2 ^ 25)%Z.

Definition integer_points (strokes : list Collector.Stroke) : Prop :=
  Forall (fun p => small_int (Collector.x p) /\ small_int (Collector.y p))
         (concat (map Collector.points_get strokes)).

(** Coordinates of magnitude at most [2^25] and timestamps of magnitude
    at most [2^52]: the squared distance of two points does not exceed
    [2^53], so [numpy.sqrt] accepts it whether it is an [int] or a
    [float], and no difference or quotient overflows in binary64. *)
Definition in_range (bound : Z) (v : Q) : Prop := Qabs v <= inject_Z bound.

Definition points_in_range (strokes : list Collector.Stroke) : Prop :=
  Forall (fun p => in_range (2 ^ 25) (Collector.x p) /\
                   in_range (2 ^ 25) (Collector.y p) /\
                   match Collector.time p with
                   | Some t => in_range (2 ^ 52) t
                   | None => True
                   end)
         (concat (map Collector.points_get strokes)).

(** The consistency score with the guard of the code: [1 - cv] with
    [cv = std(values) / mean(values)] when the mean is positive, and
    [cv = 0] otherwise. *)
Definition consistency_when_positive (sqrt : Q -> Q) (values : list Q) : Q :=
  1 - (if Py.gt (mean values) 0 then std sqrt values / mean values else 0).

End Spec.

(** ** [api_server.py] *)

Module ApiServer.

(** What the frontend posts: every key of a point, of a stroke and of the
    request body may be absent. *)
Record PadPoint := {
  x : option Q;
  y : option Q;
  time : option Q
}.

Record PadStroke := {
  points : option (list PadPoint);
  startTime : option Q;
  endTime : option Q
}.

Record CollectRequest := {
  userId : option string;
  type : option string;
  signaturePadData : option (list PadStroke)
}.

(** Lines 40-44: the point appended for index [i] of [enumerate]. *)
Definition convert_point (i : nat) (point : PadPoint) : Collector.Point :=
  {| Collector.x := default 0 (x point);
     Collector.y := default 0 (y point);
     Collector.time := Some (default (inject_Z (Z.of_nat i) * 10) (time point)) |}.

(** Lines 32-46: [stroke_data]. *)
Definition convert_stroke (stroke : PadStroke) : Collector.Stroke :=
  {| Collector.points := Some (imap convert_point (default [] (points stroke)));
     Collector.startTime := Some (default 0 (startTime stroke));
     Collector.endTime := Some (default 0 (endTime stroke)) |}.

(** Lines 25-46: [signature_data]. *)
Definition convert (data : CollectRequest) : Collector.SignatureData :=
  {| Collector.strokes :=
       Some (match signaturePadData data with
             | Some pad => map convert_stroke pad
             | None => []
             end) |}.

Section WithSqrt.

Variable sqrt : Q -> Q.

(** [collect_signature], lines 20-49: the module-level [collector] is the
    state; the result is its new value and the [features] handed to
    [jsonify].  Building the JSON response is not represented. *)
Definition collect_signature (collector : list Collector.SignatureRecord)
    (data : CollectRequest)
    : result (list Collector.SignatureRecord * Collector.Features) :=
  let user_id := default "unknown" (userId data) in
  let signature_type := default "genuine" (type data) in
  let signature_data := convert data in
  Collector.save_signature sqrt collector signature_data user_id signature_type.

(** What [analyze_user] hands to [jsonify]: the 400 body, or the
    analysis. *)
Inductive AnalyzeResponse :=
  | BadRequest
  | Analysis (analysis : Collector.Consistency).

(** [analyze_user]: [not user_id] holds for a missing parameter and for
    the empty string; there is no [try], so an exception propagates. *)
Definition analyze_user (collector : list Collector.SignatureRecord)
    (user_id : option string) : result AnalyzeResponse :=
  match user_id with
  | None | Some "" => mret BadRequest
  | Some uid =>
      analysis ← Collector.analyze_consistency sqrt collector uid;
      mret (Analysis analysis)
  end.

(** The values the module-level [collector] can take while the server
    runs: only [collect_signature] changes it. *)
Inductive served : list Collector.SignatureRecord -> Prop :=
  | served_start : served []
  | served_collect collector data collector' features :
      served collector ->
      collect_signature collector data = Ok (collector', features) ->
      served collector'.

End WithSqrt.

End ApiServer.

(** ** [Redundant/ml-model/api_server.py]: [get_user_metrics] *)

Module RedundantApiServer.

(** The exceptions of [get_user_metrics]: one raised by the collector, or
    the [AttributeError] of calling [.get] on a string. *)
Inductive error :=
  | Collector_raised (e : exn)
  | AttributeError.

(** The dictionary literal returned by [analyze_consistency]
    ([collect_signature_data.py], lines 207-212). *)
Definition report_dict (r : Collector.ConsistencyReport) : gmap string Q :=
  {[ "velocity_consistency" := Collector.velocity_consistency r;
     "stroke_count_consistency" := Collector.stroke_count_consistency r;
     "area_consistency" := Collector.area_consistency r;
     "sample_count" := inject_Z (Z.of_nat (Collector.sample_count r)) ]}.

(** [metrics] (the wall-clock entry ['lastSeen'] is left out). *)
Record UserMetrics := {
  userId : string;
  sampleCount : Q;
  consistency : Q;
  avgDuration : Q;
  avgStrokes : Q;
  variability_duration : Q;
  variability_strokes : Q;
  variability_velocity : Q;
  status : string
}.

(** The response: the metrics, or the [except] branch (status 500). *)
Inductive MetricsResponse :=
  | Metrics (m : UserMetrics)
  | MetricsError (e : error) (userId : string).

Section WithSqrt.

Variable sqrt : Q -> Q.

Definition get_user_metrics (collector : list Collector.SignatureRecord)
    (user_id : string) : MetricsResponse :=
  match Collector.analyze_consistency sqrt collector user_id with
  | Raise e => MetricsError (Collector_raised e) user_id
  | Ok (Collector.Message _) => MetricsError AttributeError user_id
  | Ok (Collector.Report r) =>
      let analysis := report_dict r in
      Metrics
        {| userId := user_id;
           sampleCount := Py.get analysis "sample_count" 0;
           consistency := Py.get analysis "consistency_score" 0;
           avgDuration := Py.get analysis "avg_duration" 0;
           avgStrokes := Py.get analysis "avg_strokes" 0;
           variability_duration := Py.get analysis "duration_std" 0;
           variability_strokes := Py.get analysis "stroke_count_std" 0;
           variability_velocity := Py.get analysis "velocity_std" 0;
           status := if Qle_bool 3 (Py.get analysis "sample_count" 0)
                     then "active" else "needs_training" |}
  end.

End WithSqrt.

End RedundantApiServer.

(** ** Python string methods used on file names (ASCII strings) *)

Module PyStr.

(** [s.split(sep)] for a one-character separator: the pieces between the
    separators, empty pieces included. *)
Fixpoint split (sep : Ascii.ascii) (s : string) : list string :=
  match s with
  | EmptyString => [EmptyString]
  | String c s' =>
      if Ascii.eqb c sep then EmptyString :: split sep s'
      else match split sep s' with
           | piece :: pieces => String c piece :: pieces
           | [] => [String c EmptyString]
           end
  end.

(** [c in s] for a character [c]. *)
Fixpoint contains (c : Ascii.ascii) (s : string) : bool :=
  match s with
  | EmptyString => false
  | String c' s' => Ascii.eqb c' c || contains c s'
  end.

(** [sep.join(pieces)]. *)
Fixpoint join (sep : string) (pieces : list string) : string :=
  match pieces with
  | [] => EmptyString
  | [piece] => piece
  | piece :: rest => piece +:+ sep +:+ join sep rest
  end.

(** [l[-n:]] for [n > 0]: the last [n] elements, all of them when there
    are fewer. *)
Definition last_n {A} (n : nat) (l : list A) : list A :=
  drop (length l - n) l.

(** [s[:-n]] for [n > 0]: all but the last [n] characters. *)
Definition drop_last (n : nat) (s : string) : string :=
  String.substring 0 (String.length s - n) s.

End PyStr.

(** ** Model artifacts: the paths written by training and read back by
    [SignatureVerifier.load_latest_model] *)

Module Artifacts.

(** [Redundant/ml-model/train_model.py], [save_model], lines 214-226: the
    three paths written for one [timestamp]. *)
Definition model_path (timestamp : string) : string :=
  "models/signature_model_" +:+ timestamp +:+ ".h5".

Definition scaler_path (timestamp : string) : string :=
  "models/scaler_" +:+ timestamp +:+ ".pkl".

Definition feature_path (timestamp : string) : string :=
  "models/features_" +:+ timestamp +:+ ".json".

(** The character ['_'] (code 95). *)
Definition underscore : Ascii.ascii := Ascii.ascii_of_nat 95.

(** [verify_signature.py], line 31:
    ['_'.join(latest_model.split('_')[-2:])[:-3]]. *)
Definition timestamp_of (latest_model : string) : string :=
  PyStr.drop_last 3
    (PyStr.join "_" (PyStr.last_n 2 (PyStr.split underscore latest_model))).

(** Lines 39 and 44: the scaler and feature-name files opened for
    [latest_model]. *)
Definition loaded_scaler_path (latest_model : string) : string :=
  "models/scaler_" +:+ timestamp_of latest_model +:+ ".pkl".

Definition loaded_features_path (latest_model : string) : string :=
  "models/features_" +:+ timestamp_of latest_model +:+ ".json".

End Artifacts.

(** ** [train_model_sklearn.py]: [load_training_data] *)

Module Training.

(** One parsed [data/signature_data_*.json] file as [save_signature]
    writes it; each top-level key may be absent.  Files that do not parse,
    or whose ['features'] is not a dictionary of dictionaries, are covered
    by [Raw.TrainModelSklearn.load_file]. *)
Record DataFile := {
  features : option Collector.Features;
  type : option string;
  user_id : option string
}.

(** What the loop has accumulated, and the attribute
    [self.feature_names]. *)
Record Loaded := {
  all_features : list (list Q);
  all_labels : list Z;
  all_users : list string;
  feature_names : option (list string)
}.

(** One iteration of the loop over [data_files], lines 40-52. *)
Definition load_file (acc : Loaded) (data : DataFile) : result Loaded :=
  features_dict ← from_option Ok (Raise (KeyError "features")) (features data);
  let flat := TrainModelSklearn._flatten_features (feature_names acc) features_dict in
  ty ← from_option Ok (Raise (KeyError "type")) (type data);
  let label := if String.eqb ty "genuine" then 1%Z else 0%Z in
  user ← from_option Ok (Raise (KeyError "user_id")) (user_id data);
  mret {| all_features := all_features acc ++ [flat.1];
          all_labels := all_labels acc ++ [label];
          all_users := all_users acc ++ [user];
          feature_names := flat.2 |}.

(** The loop. *)
Fixpoint load_files (acc : Loaded) (files : list DataFile) : result Loaded :=
  match files with
  | [] => mret acc
  | data :: rest => acc' ← load_file acc data; load_files acc' rest
  end.

(** [load_training_data] on a freshly constructed [SignatureMLModel]
    ([self.feature_names = []]), given the parsed files in the order
    [glob] lists them. *)
Definition load_training_data (files : list DataFile) : result Loaded :=
  load_files {| all_features := []; all_labels := []; all_users := [];
                feature_names := Some [] |} files.

End Training.

(** ** [verify_signature.py]: [test_all_signatures] *)

Module TestAll.

(** One parsed [data/signature_data_*.json] file as the loop reads it;
    each key may be absent. *)
Record SavedFile := {
  user_id : option string;
  type : option string;
  raw_data : option Collector.SignatureData
}.

Section WithSqrt.

Variable sqrt : Q -> Q.

(** The body of the [try] up to [is_correct], lines 194-204: a file that
    cannot be read or parsed is [None] (an error raised by [open] or
    [json.load], here [ValueError]). *)
Definition check_file (verifier : VerifySignature.Verifier)
    (file : option SavedFile) : result bool :=
  data ← from_option Ok (Raise ValueError) file;
  _ ← from_option Ok (Raise (KeyError "user_id")) (user_id data);
  actual_type ← from_option Ok (Raise (KeyError "type")) (type data);
  raw ← from_option Ok (Raise (KeyError "raw_data")) (raw_data data);
  verdict ← VerifySignature.verify_signature sqrt verifier raw;
  let is_genuine : bool := fst (fst verdict) in
  let predicted_type := if is_genuine then "genuine" else "forgery" in
  mret (String.eqb actual_type predicted_type).

(** One iteration: the counters [(correct, total)] after the [try] or
    the [except]. *)
Definition count_file (verifier : VerifySignature.Verifier)
    (counts : nat * nat) (file : option SavedFile) : nat * nat :=
  match check_file verifier file with
  | Ok is_correct =>
      ((if is_correct then S counts.1 else counts.1), S counts.2)
  | Raise _ => counts
  end.

(** [test_all_signatures] for an already constructed verifier: the final
    [correct], [total] and [accuracy]. *)
Definition test_all_signatures (verifier : VerifySignature.Verifier)
    (files : list (option SavedFile)) : nat * nat * Q :=
  let counts := fold_left (count_file verifier) files (0%nat, 0%nat) in
  let correct := inject_Z (Z.of_nat counts.1) in
  let total := inject_Z (Z.of_nat counts.2) in
  (counts.1, counts.2,
   if Py.gt total 0 then correct / total * 100 else 0).

End WithSqrt.

End TestAll.

(** ** Moving a capture on the canvas *)

Module Geometry.

(** The point, stroke and stroke list shifted by [(dx, dy)]. *)
Definition translate_point (dx dy : Q) (p : Collector.Point) : Collector.Point :=
  {| Collector.x := Collector.x p + dx;
     Collector.y := Collector.y p + dy;
     Collector.time := Collector.time p |}.

Definition translate_stroke (dx dy : Q) (stroke : Collector.Stroke) : Collector.Stroke :=
  {| Collector.points := map (translate_point dx dy) <$> Collector.points stroke;
     Collector.startTime := Collector.startTime stroke;
     Collector.endTime := Collector.endTime stroke |}.

End Geometry.

(** ** More concrete data *)

Module MoreExamples.

(** A posted stroke of three points without timestamps. *)
Definition untimed_stroke : ApiServer.PadStroke :=
  {| ApiServer.points := Some
       [ {| ApiServer.x := Some 0; ApiServer.y := Some 0; ApiServer.time := None |};
         {| ApiServer.x := Some 3; ApiServer.y := Some 4; ApiServer.time := None |};
         {| ApiServer.x := Some 6; ApiServer.y := Some 8; ApiServer.time := None |} ];
     ApiServer.startTime := None;
     ApiServer.endTime := None |}.

(** The second point of [example_signature]. *)
Definition middle_point : Collector.Point :=
  {| Collector.x := 150; Collector.y := 120; Collector.time := Some 50 |}.

(** Two parsed data files: a genuine record with a partial feature
    dictionary and a forgery with an empty one. *)
Definition data_files : list Training.DataFile :=
  [ {| Training.features := Some {[ "basic_stats" := {[ "stroke_count" := Some 2 ]} ]};
       Training.type := Some "genuine";
       Training.user_id := Some "alice" |};
    {| Training.features := Some ∅;
       Training.type := Some "forgery";
       Training.user_id := Some "forger_x_copying_alice" |} ].

(** A saved capture labelled as a forgery. *)
Definition saved_forgery : TestAll.SavedFile :=
  {| TestAll.user_id := Some "forger_x_copying_alice";
     TestAll.type := Some "forgery";
     TestAll.raw_data := Some Examples.example_signature |}.

(** A capture of one stroke that carries its two timestamps but no
    ['points'] key. *)
Definition pointless_capture : Collector.SignatureData :=
  {| Collector.strokes :=
       Some [ {| Collector.points := None;
                 Collector.startTime := Some 0;
                 Collector.endTime := Some 10 |} ] |}.

(** A feature dictionary whose [basic_stats] category is [null], and one
    whose area was written as a string. *)
Definition none_category : Raw.json :=
  Raw.JObj {[ "basic_stats" := Raw.JNull ]}.

Definition string_area : Raw.json :=
  Raw.JObj {[ "shape_features" :=
                Raw.JObj {[ "width" := Raw.JStr "100";
                            "height" := Raw.JStr "30";
                            "area" := Raw.JStr "3000";
                            "aspect_ratio" := Raw.JNum (100 / 30) ]} ]}.

(** Two files of [data/]: one whose shape features were written as
    strings, and one whose [basic_stats] category is [null]. *)
Definition string_area_file : Raw.json :=
  Raw.JObj {[ "user_id" := Raw.JStr "alice";
              "type" := Raw.JStr "genuine";
              "features" := string_area ]}.

Definition none_category_file : Raw.json :=
  Raw.JObj {[ "user_id" := Raw.JStr "bob";
              "type" := Raw.JStr "forgery";
              "features" := none_category ]}.

(** Two genuine records of one user as [save_signature] appends them.
    The first capture has two one-point strokes, at (0, 0) and at
    (4000000000, 4000000000): numpy computes the width and the height
    4000000000 in int64, and their product 16 * 10^18 wraps to
    -2446744073709551616.  The second capture is a single point. *)
Definition far_apart : Collector.SignatureData :=
  {| Collector.strokes :=
       Some [ {| Collector.points :=
                   Some [ {| Collector.x := 0; Collector.y := 0;
                             Collector.time := Some 0 |} ];
                 Collector.startTime := Some 0; Collector.endTime := Some 0 |};
              {| Collector.points :=
                   Some [ {| Collector.x := 4000000000; Collector.y := 4000000000;
                             Collector.time := Some 10 |} ];
                 Collector.startTime := Some 10; Collector.endTime := Some 10 |} ] |}.

Definition wrapped_area : Q := -2446744073709551616.

Definition wrapped_record : Collector.SignatureRecord :=
  {| Collector.user_id := "user123";
     Collector.type := "genuine";
     Collector.raw_data := far_apart;
     Collector.features :=
       {[ "basic_stats" :=
            {[ "stroke_count" := Some 2; "total_points" := Some 2;
               "total_duration_ms" := Some 10;
               "average_points_per_stroke" := Some 1 ]};
          "velocity_features" :=
            {[ "average_velocity" := Some 0; "max_velocity" := Some 0;
               "min_velocity" := Some 0; "velocity_std" := Some 0 ]};
          "shape_features" :=
            {[ "width" := Some 4000000000; "height" := Some 4000000000;
               "area" := Some wrapped_area; "aspect_ratio" := Some 1;
               "center_x" := Some 2000000000; "center_y" := Some 2000000000 ]};
          "stroke_features" :=
            {[ "average_stroke_length" := Some 0; "total_length" := Some 0;
               "length_variation" := Some 0;
               "average_stroke_duration" := Some 0;
               "duration_variation" := Some 0 ]} ]} |}.

Definition point_record : Collector.SignatureRecord :=
  {| Collector.user_id := "user123";
     Collector.type := "genuine";
     Collector.raw_data :=
       {| Collector.strokes :=
            Some [ {| Collector.points :=
                        Some [ {| Collector.x := 0; Collector.y := 0;
                                  Collector.time := Some 0 |} ];
                      Collector.startTime := Some 0;
                      Collector.endTime := Some 0 |} ] |};
     Collector.features :=
       {[ "basic_stats" :=
            {[ "stroke_count" := Some 1; "total_points" := Some 1;
               "total_duration_ms" := Some 0;
               "average_points_per_stroke" := Some 1 ]};
          "velocity_features" :=
            {[ "average_velocity" := Some 0; "max_velocity" := Some 0;
               "min_velocity" := Some 0; "velocity_std" := Some 0 ]};
          "shape_features" :=
            {[ "width" := Some 0; "height" := Some 0; "area" := Some 0;
               "aspect_ratio" := Some 0;
               "center_x" := Some 0; "center_y" := Some 0 ]};
          "stroke_features" :=
            {[ "average_stroke_length" := Some 0; "total_length" := Some 0;
               "length_variation" := Some 0;
               "average_stroke_duration" := Some 0;
               "duration_variation" := Some 0 ]} ]} |}.

Definition wrapped_history : list Collector.SignatureRecord :=
  [wrapped_record; point_record].

End MoreExamples.

(** * Proofs *)

(** ** The result monad *)

(** Reduce the binds and returns of [result], and nothing else. *)
Ltac run := cbn [mbind mret result_bind result_ret from_option default].
Ltac run_in H := cbn [mbind mret result_bind result_ret from_option default] in H.

Lemma bind_Ok {A B} (a : A) (f : A -> result B) : (Ok a ≫= f) = f a.
Proof. reflexivity. Qed.

Lemma bind_Ok_inv {A B} (r : result A) (f : A -> result B) (b : B) :
  (r ≫= f) = Ok b -> exists a, r = Ok a /\ f a = Ok b.
Proof. destruct r as [a|e]; [eauto | discriminate]. Qed.

Lemma mapM_Ok {A B} (f : A -> result B) (l : list A) (k : list B) :
  Forall2 (fun a b => f a = Ok b) l k -> mapM f l = Ok k.
Proof.
  induction 1 as [|a b l k Hab _ IH]; [reflexivity|].
  cbn. rewrite Hab. cbn. rewrite IH. reflexivity.
Qed.

Lemma mapM_Ok_inv {A B} (f : A -> result B) (l : list A) (k : list B) :
  mapM f l = Ok k -> Forall2 (fun a b => f a = Ok b) l k.
Proof.
  revert k. induction l as [|a l IH]; intros k H; cbn in H.
  - injection H as <-. constructor.
  - apply bind_Ok_inv in H as (b & Hb & H).
    apply bind_Ok_inv in H as (k' & Hk' & H).
    injection H as <-. constructor; auto.
Qed.

Lemma mapM_total {A B} (f : A -> result B) (l : list A) :
  Forall (fun a => exists b, f a = Ok b) l -> exists k, mapM f l = Ok k.
Proof.
  induction 1 as [|a l [b Hb] _ [k Hk]]; [by exists []|].
  exists (b :: k). cbn. rewrite Hb. cbn. rewrite Hk. reflexivity.
Qed.

Lemma mapM_pure {A B} (f : A -> result B) (g : A -> B) (l : list A) :
  (forall a, f a = Ok (g a)) -> mapM f l = Ok (map g l).
Proof.
  intros Hfg. apply mapM_Ok. induction l as [|a l IH]; constructor; auto.
Qed.

(** ** Python arithmetic *)

Lemma ne_true (a b : Q) : Py.ne a b = true <-> ~ a == b.
Proof.
  unfold Py.ne. rewrite negb_true_iff, <- not_true_iff_false, Qeq_bool_iff.
  reflexivity.
Qed.

Lemma ne_false (a b : Q) : Py.ne a b = false <-> a == b.
Proof.
  unfold Py.ne. rewrite negb_false_iff, Qeq_bool_iff. reflexivity.
Qed.

Lemma gt_true (a b : Q) : Py.gt a b = true <-> b < a.
Proof.
  unfold Py.gt. destruct (Qlt_le_dec b a) as [H|H]; split; intros; try done.
  exfalso. lra.
Qed.

Lemma gt_false (a b : Q) : Py.gt a b = false <-> a <= b.
Proof.
  unfold Py.gt. destruct (Qlt_le_dec b a) as [H|H]; split; intros; try done.
  exfalso. lra.
Qed.

Lemma div_Ok (a b : Q) : ~ b == 0 -> Py.div a b = Ok (a / b).
Proof.
  intros H. unfold Py.div.
  destruct (Qeq_bool b 0) eqn:E; [|reflexivity].
  apply Qeq_bool_iff in E. contradiction.
Qed.

Lemma max_ge_r (a b : Q) : b <= Py.max a b.
Proof.
  unfold Py.max. destruct (Py.gt b a) eqn:E.
  - lra.
  - apply gt_false in E. exact E.
Qed.

Lemma max_Qmax (a b : Q) : Py.max a b == Qmax a b.
Proof.
  unfold Py.max. destruct (Py.gt b a) eqn:E.
  - apply gt_true in E. rewrite Q.max_r; lra.
  - apply gt_false in E. rewrite Q.max_l; lra.
Qed.

(** ** [ml_api_server.py]: the diff vector and the confidence score *)

Section MlApiServerProofs.

Import MlApiServer.

Lemma Qabs_div (a b : Q) : Qabs (a / b) == Qabs a / Qabs b.
Proof. unfold Qdiv. rewrite Qabs_Qmult, Qabs_Qinv. reflexivity. Qed.

(** One iteration of the loop never raises, and yields the count or the
    relative difference. *)
Lemma diff_feature_Ok (name : string) (stored current : gmap string Q) :
  exists d, diff_feature name stored current = Ok d /\
    d == Spec.diff_by_magnitude name (Py.get stored name 0) (Py.get current name 0).
Proof.
  unfold diff_feature, Spec.diff_by_magnitude, Spec.COUNT_FEATURES.
  set (s := Py.get stored name 0). set (c := Py.get current name 0).
  destruct (Py.ne s 0) eqn:Hs.
  - apply ne_true in Hs. rewrite (div_Ok _ _ Hs). run.
    destruct (bool_decide _); eexists; (split; [reflexivity|]).
    + reflexivity.
    + apply Qabs_div.
  - run. destruct (bool_decide _); eexists; (split; [reflexivity|]); reflexivity.
Qed.

Lemma diff_magnitude_specified (name : string) (r a : Q) :
  0 <= r -> Spec.diff_by_magnitude name r a == Spec.diff_as_specified name r a.
Proof.
  intros Hr. unfold Spec.diff_by_magnitude, Spec.diff_as_specified.
  destruct (bool_decide _); [reflexivity|].
  destruct (Py.ne r 0); [|reflexivity].
  rewrite (Qabs_pos r Hr). reflexivity.
Qed.

Lemma diff_features_Ok (names : list string) (stored current : gmap string Q) :
  exists fs, diff_features names stored current = Ok fs /\
    Forall2 (fun name d => diff_feature name stored current = Ok d) names fs.
Proof.
  destruct (mapM_total (fun n => diff_feature n stored current) names) as [fs Hfs].
  - apply Forall_forall. intros n _.
    destruct (diff_feature_Ok n stored current) as (d & Hd & _). eauto.
  - exists fs. split; [exact Hfs|]. apply mapM_Ok_inv. exact Hfs.
Qed.

(** C1 (as amended).  From the classifier's answer, a label and the
    binary64 probabilities [p0, p1, ...], the response reports the label,
    [is_genuine = (label == 1)] and the confidence [p1 * 100] when the
    label is 1, [(1 - p0) * 100] otherwise, both computed in binary64.
    Label 1 with [0.12, 0.88] gives exactly 88.0; label 0 with [0.7, 0.3]
    gives 30.000000000000004, the binary64 value of [(1 - 0.7) * 100]. *)
Theorem confidence_score_binary64 (label : Z) (p0 p1 : float) (rest : list float) :
  Binary64.predict_from label (p0 :: p1 :: rest)
  = Ok {| Binary64.prediction := label;
          Binary64.confidence_score :=
            if (label =? 1)%Z then (p1 * 100)%float else ((1 - p0) * 100)%float;
          Binary64.is_genuine := (label =? 1)%Z;
          Binary64.probabilities_forgery := p0;
          Binary64.probabilities_genuine := p1 |} /\
  Binary64.confidence_of 1 [0.12%float; 0.88%float] = Ok 88%float /\
  Binary64.confidence_of 0 [0.7%float; 0.3%float] = Ok 30.000000000000004%float.
Proof.
  split; [|split].
  - unfold Binary64.predict_from, Binary64.confidence_of.
    destruct (label =? 1)%Z; reflexivity.
  - reflexivity.
  - reflexivity.
Qed.

End MlApiServerProofs.

(** The specification's second example fails by one unit in the last
    place: label 0 with [0.7, 0.3] does not give 30.0 but a confidence
    strictly above it. *)
Lemma confidence_of_forgery_is_not_30 :
  Binary64.confidence_of 0 [0.7%float; 0.3%float] <> Ok 30%float /\
  exists c, Binary64.confidence_of 0 [0.7%float; 0.3%float] = Ok c /\
            PrimFloat.ltb 30 c = true.
Proof.
  split.
  - intros H.
    assert (match Binary64.confidence_of 0 [0.7%float; 0.3%float] with
            | Ok c => PrimFloat.eqb c 30
            | Raise _ => false
            end = true) as E by (rewrite H; reflexivity).
    vm_compute in E. discriminate.
  - eexists. split; reflexivity.
Qed.

Section DiffRule.

Import MlApiServer.

(** C2 (as amended).  The list handed to the scaler has one entry per
    feature name, in order; the entry is [|attempt - reference|] for
    [stroke_count] and [total_points], and otherwise
    [|attempt - reference| / |reference|] when the reference is not 0,
    else 1 when the attempt is not 0, else 0.  For a non-negative
    reference this is the quotient by [reference] itself. *)
Theorem diff_features_rule (names : list string) (reference attempt : gmap string Q) :
  exists fs, diff_features names reference attempt = Ok fs /\
    length fs = length names /\
    forall (i : nat) (name : string), names !! i = Some name ->
      exists d, fs !! i = Some d /\
        let r := Py.get reference name 0 in
        let a := Py.get attempt name 0 in
        d == Spec.diff_by_magnitude name r a /\
        (0 <= r -> d == Spec.diff_as_specified name r a).
Proof.
  destruct (diff_features_Ok names reference attempt) as (fs & Hfs & Hall).
  exists fs. split; [exact Hfs|]. split.
  - symmetry. eapply Forall2_length, Hall.
  - intros i name Hi.
    destruct (Forall2_lookup_l _ _ _ _ _ Hall Hi) as (d & Hd & Hdiff).
    exists d. split; [exact Hd|].
    destruct (diff_feature_Ok name reference attempt) as (d' & Hd' & Heq).
    rewrite Hd' in Hdiff. injection Hdiff as ->. cbn zeta. split; [exact Heq|].
    intros Hr. rewrite Heq. apply diff_magnitude_specified, Hr.
Qed.

(** C2, the claim as worded fails for a negative reference: for
    [center_x] with reference [-2] and attempt [2] the code yields [2],
    the worded formula [|2 - (-2)| / (-2) = -2]. *)
Lemma diff_negative_reference :
  exists d, diff_feature "center_x" {[ "center_x" := -2 ]} {[ "center_x" := 2 ]} = Ok d /\
    "center_x" ∈ TrainModelSklearn.FEATURE_NAMES /\
    d == 2 /\
    Spec.diff_as_specified "center_x" (-2) 2 == -2 /\
    ~ d == Spec.diff_as_specified "center_x" (-2) 2.
Proof.
  eexists. split; [vm_compute; reflexivity|].
  split; [unfold TrainModelSklearn.FEATURE_NAMES; set_solver|].
  split; [reflexivity|]. split; [reflexivity|]. discriminate.
Qed.

End DiffRule.

(** ** numpy reductions *)

Lemma len_cons_nonzero {A} (a : A) (l : list A) : ~ Py.len (a :: l) == 0.
Proof.
  unfold Py.len, Qeq. cbn [length Qnum Qden inject_Z]. lia.
Qed.

Lemma len_cons_pos {A} (a : A) (l : list A) : 0 < Py.len (a :: l).
Proof.
  unfold Py.len, Qlt. cbn [length Qnum Qden inject_Z]. lia.
Qed.

Lemma mean_cons (a : Q) (l : list Q) :
  Np.mean (a :: l) = Ok (Py.sum (a :: l) / Py.len (a :: l)).
Proof. reflexivity. Qed.

Lemma std_cons (sqrt : Q -> Q) (a : Q) (l : list Q) :
  exists sd, Np.std sqrt (a :: l) = Ok sd.
Proof. unfold Np.std. rewrite mean_cons. run. cbn [map]. rewrite mean_cons. run. eauto. Qed.

Lemma len_nonneg {A} (l : list A) : 0 <= Py.len l.
Proof. unfold Py.len, Qle. cbn [Qnum Qden inject_Z]. lia. Qed.

Lemma fold_plus_nonneg (l : list Q) (acc : Q) :
  0 <= acc -> Forall (Qle 0) l -> 0 <= fold_left Qplus l acc.
Proof.
  intros Hacc Hl. revert acc Hacc.
  induction Hl as [|a l Ha _ IH]; intros acc Hacc; [exact Hacc|].
  cbn [fold_left]. apply IH. lra.
Qed.

Lemma mean_nonneg (a : Q) (l : list Q) :
  Forall (Qle 0) (a :: l) -> 0 <= Py.sum (a :: l) / Py.len (a :: l).
Proof.
  intros Hl. apply Qle_shift_div_l; [apply len_cons_pos|].
  rewrite Qmult_0_l. apply fold_plus_nonneg; [lra | exact Hl].
Qed.

Lemma fold_max_ge (l : list Q) (a : Q) : a <= fold_left Qmax l a.
Proof.
  revert a. induction l as [|b l IH]; intros a; cbn [fold_left]; [lra|].
  pose proof (IH (Qmax a b)). pose proof (Q.le_max_l a b). lra.
Qed.

Lemma fold_min_le (l : list Q) (a : Q) : fold_left Qmin l a <= a.
Proof.
  revert a. induction l as [|b l IH]; intros a; cbn [fold_left]; [lra|].
  pose proof (IH (Qmin a b)). pose proof (Q.le_min_l a b). lra.
Qed.

Lemma fold_min_le_max (l : list Q) (a : Q) :
  fold_left Qmin l a <= fold_left Qmax l a.
Proof. pose proof (fold_max_ge l a). pose proof (fold_min_le l a). lra. Qed.

(** ** [collect_signature_data.py]: extraction of a well-formed capture *)

Section CollectorProofs.

Import Collector.

Variable sqrt : Q -> Q.

Lemma time_diff_ge_1 (p1 p2 : Point) : 1 <= time_diff p1 p2.
Proof.
  unfold time_diff. destruct (time p1) as [t1|], (time p2) as [t2|]; try lra.
  apply max_ge_r.
Qed.

Lemma velocity_Ok (p1 p2 : Point) :
  velocity sqrt p1 p2 = Ok (distance sqrt p1 p2 / time_diff p1 p2).
Proof.
  unfold velocity. apply div_Ok.
  pose proof (time_diff_ge_1 p1 p2). lra.
Qed.

(** The velocity pool: [distance / time_diff] over the consecutive pairs
    of every stroke, in order. *)
Lemma stroke_velocities_eq (strokes : list Stroke) :
  stroke_velocities sqrt strokes
  = Ok (concat
          (map (fun stroke =>
                  map (fun pp => distance sqrt pp.1 pp.2 / time_diff pp.1 pp.2)
                      (consecutive (points_get stroke)))
               strokes)).
Proof.
  unfold stroke_velocities.
  rewrite (mapM_pure _
             (fun stroke =>
                map (fun pp => distance sqrt pp.1 pp.2 / time_diff pp.1 pp.2)
                    (consecutive (points_get stroke)))).
  - reflexivity.
  - intros stroke. apply mapM_pure. intros [a b]. apply velocity_Ok.
Qed.

Lemma distance_nonneg (p1 p2 : Point) :
  (forall q, 0 <= q -> 0 <= sqrt q) -> 0 <= distance sqrt p1 p2.
Proof.
  intros Hsqrt. apply Hsqrt.
  pose proof (Qsqr_nonneg (x p2 - x p1)). pose proof (Qsqr_nonneg (y p2 - y p1)).
  lra.
Qed.

Lemma stroke_velocities_nonneg (strokes : list Stroke) (vs : list Q) :
  (forall q, 0 <= q -> 0 <= sqrt q) ->
  stroke_velocities sqrt strokes = Ok vs -> Forall (Qle 0) vs.
Proof.
  intros Hsqrt. rewrite stroke_velocities_eq. intros [= <-].
  apply Forall_concat, Forall_fmap, Forall_forall. intros stroke _.
  apply Forall_fmap, Forall_forall. intros [p1 p2] _. cbn [compose fst snd].
  apply Qle_shift_div_l.
  - pose proof (time_diff_ge_1 p1 p2). lra.
  - rewrite Qmult_0_l. apply distance_nonneg, Hsqrt.
Qed.

Lemma basic_stats_Ok (strokes : list Stroke) :
  Forall (fun stroke => is_Some (points stroke)) strokes ->
  exists c, _calculate_basic_stats strokes = Ok c /\
    c !! "stroke_count" = Some (Some (Py.len strokes)).
Proof.
  intros Hwf. unfold _calculate_basic_stats.
  destruct (mapM_total
              (fun stroke => pts ← points_item stroke; mret (Py.len pts)) strokes)
    as [lens Hlens].
  - eapply Forall_impl; [exact Hwf|]. intros stroke [pts Hpts].
    unfold points_item. rewrite Hpts. run. eauto.
  - rewrite Hlens. run. destruct strokes as [|s strokes].
    + run. eexists. split; reflexivity.
    + rewrite (div_Ok _ _ (len_cons_nonzero s strokes)). run.
      eexists. split; reflexivity.
Qed.

Lemma velocity_features_Ok (strokes : list Stroke) :
  exists c v, _calculate_velocity_features sqrt strokes = Ok c /\
    c !! "average_velocity" = Some (Some v) /\
    ((forall q, 0 <= q -> 0 <= sqrt q) -> 0 <= v).
Proof.
  unfold _calculate_velocity_features.
  pose proof (stroke_velocities_nonneg strokes) as Hnonneg.
  rewrite stroke_velocities_eq in *. run.
  destruct (concat _) as [|v vs].
  - run. do 2 eexists. split; [reflexivity|]. split; [reflexivity|]. intros _. lra.
  - rewrite mean_cons. run. cbn [Np.max Np.min]. run.
    destruct (std_cons sqrt v vs) as [sd ->]. run.
    do 2 eexists. split; [reflexivity|]. split; [reflexivity|].
    intros Hsqrt. apply mean_nonneg. eapply Hnonneg; [exact Hsqrt | reflexivity].
Qed.

Lemma shape_features_Ok (strokes : list Stroke) :
  exists c v, _calculate_shape_features strokes = Ok c /\
    c !! "area" = Some (Some v) /\ 0 <= v.
Proof.
  unfold _calculate_shape_features.
  destruct (concat (map points_get strokes)) as [|p ps].
  - run. do 2 eexists. split; [reflexivity|]. split; [reflexivity|]. lra.
  - cbn [map Np.max Np.min]. run.
    set (width := _ - _). set (height := _ - _).
    assert (0 <= width * height) as Harea.
    { apply Qmult_le_0_compat; unfold width, height.
      - pose proof (fold_min_le_max (map x ps) (x p)). lra.
      - pose proof (fold_min_le_max (map y ps) (y p)). lra. }
    destruct (Py.gt height 0) eqn:Hh.
    + apply gt_true in Hh. rewrite div_Ok by lra. run.
      do 2 eexists. split; [reflexivity|]. split; [reflexivity|]. exact Harea.
    + run. do 2 eexists. split; [reflexivity|]. split; [reflexivity|]. exact Harea.
Qed.

Lemma stroke_features_Ok (strokes : list Stroke) :
  exists c, _calculate_stroke_features sqrt strokes = Ok c.
Proof.
  unfold _calculate_stroke_features.
  set (lengths := map _ strokes).
  assert (exists avg var,
    match lengths with [] => mret 0 | _ :: _ => Np.mean lengths end = Ok avg /\
    match lengths with [] => mret 0 | _ :: _ => Np.std sqrt lengths end = Ok var)
    as (avg & var & -> & ->).
  { destruct lengths as [|a l]; [by do 2 eexists|].
    destruct (std_cons sqrt a l) as [sd ->]. rewrite mean_cons. eauto. }
  run. destruct (omap stroke_duration strokes) as [|d ds].
  - run. eauto.
  - rewrite mean_cons. run. destruct (std_cons sqrt d ds) as [sd ->]. run. eauto.
Qed.

(** Extraction succeeds on every well-formed capture, and its result
    carries the three metrics that [analyze_consistency] reads, none of
    them negative. *)
Lemma process_signature_Ok (signature_data : SignatureData) :
  Spec.well_formed signature_data ->
  exists f, process_signature sqrt signature_data = Ok f /\
    (exists v, (f !! "velocity_features") ≫= (.!! "average_velocity") = Some (Some v) /\
       ((forall q, 0 <= q -> 0 <= sqrt q) -> 0 <= v)) /\
    (exists v, (f !! "basic_stats") ≫= (.!! "stroke_count") = Some (Some v) /\ 0 <= v) /\
    (exists v, (f !! "shape_features") ≫= (.!! "area") = Some (Some v) /\ 0 <= v).
Proof.
  intros Hwf. unfold process_signature.
  destruct (basic_stats_Ok _ Hwf) as (basic & -> & Hcount). run.
  destruct (velocity_features_Ok (default [] (strokes signature_data)))
    as (vel & v & -> & Hvel & Hv). run.
  destruct (shape_features_Ok (default [] (strokes signature_data)))
    as (shape & ar & -> & Har & Harea). run.
  destruct (stroke_features_Ok (default [] (strokes signature_data)))
    as (stroke & ->). run.
  eexists. split; [reflexivity|].
  split; [|split]; eexists.
  - change ((_ : Features) !! "velocity_features") with (Some vel).
    cbn [mbind option_bind]. split; [exact Hvel | exact Hv].
  - change ((_ : Features) !! "basic_stats") with (Some basic).
    cbn [mbind option_bind]. split; [exact Hcount | apply len_nonneg].
  - change ((_ : Features) !! "shape_features") with (Some shape).
    cbn [mbind option_bind]. split; [exact Har | exact Harea].
Qed.

End CollectorProofs.

(** ** Extraction of an empty capture *)

Section EmptyCapture.

Import Collector.

Variable sqrt : Q -> Q.

Lemma process_signature_empty (signature_data : SignatureData) :
  default [] (strokes signature_data) = [] ->
  exists f, process_signature sqrt signature_data = Ok f /\
    VerifySignature._flatten_features f = replicate 19 0 /\
    forall names, (TrainModelSklearn._flatten_features names f).1 = replicate 19 0.
Proof.
  intros Hempty. unfold process_signature. rewrite Hempty.
  eexists. split; [reflexivity|]. split.
  - vm_compute. reflexivity.
  - intros names. vm_compute. reflexivity.
Qed.

(** C4.  For every capture whose stroke sequence is empty or absent,
    extraction returns and flattening gives the vector of 19 zeros.  On
    another degenerate capture extraction raises: a stroke without the
    ['points'] key makes [_calculate_basic_stats] raise
    [KeyError('points')], although the three other feature functions read
    the key with a default and return on the same strokes. *)
Theorem empty_capture_zeros_missing_points_raises :
  (forall signature_data : SignatureData,
     default [] (strokes signature_data) = [] ->
     exists f, process_signature sqrt signature_data = Ok f /\
       VerifySignature._flatten_features f = replicate 19 0 /\
       forall names, (TrainModelSklearn._flatten_features names f).1 = replicate 19 0) /\
  process_signature sqrt MoreExamples.pointless_capture = Raise (KeyError "points") /\
  let strokes := default [] (strokes MoreExamples.pointless_capture) in
  _calculate_basic_stats strokes = Raise (KeyError "points") /\
  (exists velocity, _calculate_velocity_features sqrt strokes = Ok velocity) /\
  (exists shape, _calculate_shape_features strokes = Ok shape) /\
  (exists stroke, _calculate_stroke_features sqrt strokes = Ok stroke).
Proof.
  split; [exact process_signature_empty|].
  split; [reflexivity|]. cbn zeta.
  split; [reflexivity|].
  split; [eexists; reflexivity|].
  split; eexists; reflexivity.
Qed.

End EmptyCapture.

(** ** [_flatten_features] *)

Lemma flatten_slot (fd : Collector.Features) (category field : string) :
  match Py.get (Py.get fd category ∅) field (Some 0) with
  | None => 0
  | Some q => q
  end = Spec.field_or_zero fd (category, field).
Proof.
  unfold Py.get, Spec.field_or_zero. cbn [fst snd].
  destruct (fd !! category) as [c|].
  - destruct (c !! field) as [[q|]|]; reflexivity.
  - rewrite lookup_empty. reflexivity.
Qed.

Lemma flatten_as_fields (features_dict : Collector.Features) :
  VerifySignature._flatten_features features_dict
  = map (Spec.field_or_zero features_dict) Spec.FEATURE_FIELDS.
Proof.
  unfold VerifySignature._flatten_features, Spec.FEATURE_FIELDS.
  cbn [app map]. rewrite !flatten_slot. reflexivity.
Qed.

Lemma entry_slot (o category : gmap string Raw.json) (name field : string) :
  Spec.category_of o name = Raw.JObj category ->
  Raw.none_to_zero (default (Raw.JNum 0) (category !! field))
  = Spec.entry (Raw.JObj o) (name, field).
Proof.
  intros Hc. unfold Spec.entry. cbn [fst snd]. rewrite Hc.
  destruct (category !! field) as [[]|]; reflexivity.
Qed.

Lemma entry_not_null (features_dict : Raw.json) (field : string * string) :
  Spec.entry features_dict field <> Raw.JNull.
Proof.
  unfold Spec.entry. destruct features_dict as [| | | | |o]; try discriminate.
  destruct (Spec.category_of o field.1) as [| | | | |category]; try discriminate.
  destruct (category !! field.2) as [[]|]; discriminate.
Qed.

Lemma categories_are_dicts_inv (features_dict : Raw.json) :
  Spec.categories_are_dicts features_dict = true ->
  exists o basic velocity shape stroke,
    features_dict = Raw.JObj o /\
    Spec.category_of o "basic_stats" = Raw.JObj basic /\
    Spec.category_of o "velocity_features" = Raw.JObj velocity /\
    Spec.category_of o "shape_features" = Raw.JObj shape /\
    Spec.category_of o "stroke_features" = Raw.JObj stroke.
Proof.
  destruct features_dict as [| | | | |o]; try discriminate.
  unfold Spec.categories_are_dicts, Spec.CATEGORIES. cbn [forallb].
  rewrite !andb_true_iff. intros (H1 & H2 & H3 & H4 & _).
  destruct (Spec.category_of o "basic_stats") as [| | | | |basic] eqn:Eb;
    try discriminate.
  destruct (Spec.category_of o "velocity_features") as [| | | | |velocity] eqn:Ev;
    try discriminate.
  destruct (Spec.category_of o "shape_features") as [| | | | |shape] eqn:Esh;
    try discriminate.
  destruct (Spec.category_of o "stroke_features") as [| | | | |stroke] eqn:Est;
    try discriminate.
  exists o, basic, velocity, shape, stroke. repeat split; assumption.
Qed.

Lemma flatten_dictionaries (features_dict : Raw.json) :
  Spec.categories_are_dicts features_dict = true ->
  Raw.VerifySignature._flatten_features features_dict
  = Ok (map (Spec.entry features_dict) Spec.FEATURE_FIELDS) /\
  forall names, exists names',
    Raw.TrainModelSklearn._flatten_features names features_dict
    = Ok (map (Spec.entry features_dict) Spec.FEATURE_FIELDS, names').
Proof.
  intros H.
  destruct (categories_are_dicts_inv _ H)
    as (o & basic & velocity & shape & stroke & -> & Hb & Hv & Hsh & Hst).
  assert (forall name,
            Raw.get (Raw.JObj o) name (Raw.JObj ∅) = Ok (Spec.category_of o name))
    as Hcat by reflexivity.
  split; [|intros names; eexists];
    unfold Raw.VerifySignature._flatten_features,
           Raw.TrainModelSklearn._flatten_features;
    rewrite !Hcat, Hb, Hv, Hsh, Hst;
    cbn [mapM Raw.get mbind mret result_bind result_ret app map];
    rewrite !(entry_slot o basic "basic_stats") by exact Hb;
    rewrite !(entry_slot o velocity "velocity_features") by exact Hv;
    rewrite !(entry_slot o shape "shape_features") by exact Hsh;
    rewrite !(entry_slot o stroke "stroke_features") by exact Hst;
    reflexivity.
Qed.

Lemma flatten_raises (features_dict : Raw.json) :
  Spec.categories_are_dicts features_dict = false ->
  Raw.VerifySignature._flatten_features features_dict = Raise AttributeError /\
  forall names,
    Raw.TrainModelSklearn._flatten_features names features_dict = Raise AttributeError.
Proof.
  intros H.
  destruct features_dict as [| | | | |o]; try (split; [|intros names]; reflexivity).
  assert (forall name,
            Raw.get (Raw.JObj o) name (Raw.JObj ∅) = Ok (Spec.category_of o name))
    as Hcat by reflexivity.
  unfold Spec.categories_are_dicts, Spec.CATEGORIES in H. cbn [forallb] in H.
  split; [|intros names];
    unfold Raw.VerifySignature._flatten_features,
           Raw.TrainModelSklearn._flatten_features;
    rewrite !Hcat;
    (destruct (Spec.category_of o "basic_stats") as [| | | | |basic];
       try reflexivity;
     destruct (Spec.category_of o "velocity_features") as [| | | | |velocity];
       try reflexivity;
     destruct (Spec.category_of o "shape_features") as [| | | | |shape];
       try reflexivity;
     destruct (Spec.category_of o "stroke_features") as [| | | | |stroke];
       try reflexivity;
     discriminate H).
Qed.

Lemma of_features_entry (typed : Collector.Features) (field : string * string) :
  Spec.entry (Raw.of_features typed) field
  = Raw.JNum (Spec.field_or_zero typed field).
Proof.
  unfold Spec.entry, Raw.of_features, Spec.category_of, Spec.field_or_zero.
  rewrite lookup_fmap. destruct (typed !! field.1) as [category|]; cbn.
  - rewrite lookup_fmap. destruct (category !! field.2) as [[q|]|]; reflexivity.
  - rewrite lookup_empty. reflexivity.
Qed.

Lemma of_features_dicts (typed : Collector.Features) :
  Spec.categories_are_dicts (Raw.of_features typed) = true.
Proof.
  unfold Spec.categories_are_dicts, Raw.of_features, Spec.CATEGORIES, Spec.category_of.
  cbn [forallb]. rewrite !lookup_fmap.
  destruct (typed !! "basic_stats"), (typed !! "velocity_features"),
    (typed !! "shape_features"), (typed !! "stroke_features"); reflexivity.
Qed.

(** C5 (as amended).  A feature dictionary whose categories, where
    present, are dictionaries is flattened by both copies of
    [_flatten_features] to the same 19 entries, one per (category, field)
    position in the fixed order: the value stored in the field, or the
    number 0 when the category is missing, the field is missing or the
    field holds [None]; no entry is [None].  An entry is therefore a
    number unless its field stores something else, a string for instance,
    and on the dictionaries that extraction builds all 19 are numbers.
    Any other feature dictionary, one with a category that is [None] for
    instance, makes both copies raise [AttributeError]. *)
Theorem flatten_features_of_dictionaries (features_dict : Raw.json) :
  (Spec.categories_are_dicts features_dict = true ->
   Raw.VerifySignature._flatten_features features_dict
   = Ok (map (Spec.entry features_dict) Spec.FEATURE_FIELDS) /\
   (forall names, exists names',
      Raw.TrainModelSklearn._flatten_features names features_dict
      = Ok (map (Spec.entry features_dict) Spec.FEATURE_FIELDS, names')) /\
   length (map (Spec.entry features_dict) Spec.FEATURE_FIELDS) = 19%nat /\
   Forall (fun v => v <> Raw.JNull)
          (map (Spec.entry features_dict) Spec.FEATURE_FIELDS)) /\
  (Spec.categories_are_dicts features_dict = false ->
   Raw.VerifySignature._flatten_features features_dict = Raise AttributeError /\
   forall names,
     Raw.TrainModelSklearn._flatten_features names features_dict
     = Raise AttributeError) /\
  (forall typed : Collector.Features,
     Raw.VerifySignature._flatten_features (Raw.of_features typed)
     = Ok (map Raw.JNum (VerifySignature._flatten_features typed)) /\
     forall names,
       (TrainModelSklearn._flatten_features names typed).1
       = VerifySignature._flatten_features typed).
Proof.
  split; [|split].
  - intros H. destruct (flatten_dictionaries _ H) as [Hv Ht].
    split; [exact Hv|]. split; [exact Ht|]. split; [reflexivity|].
    apply Forall_fmap, Forall_forall. intros field _. apply entry_not_null.
  - apply flatten_raises.
  - intros typed. split; [|intros names; reflexivity].
    destruct (flatten_dictionaries _ (of_features_dicts typed)) as [-> _].
    rewrite flatten_as_fields, map_map. f_equal.
    apply map_ext. intros field. apply of_features_entry.
Qed.

(** A feature dictionary with a [None] category is not flattened at all,
    and a field that stores a string is flattened to that string: the
    result is then not a vector of 19 numbers. *)
Lemma flatten_none_category_raises :
  Raw.VerifySignature._flatten_features MoreExamples.none_category
  = Raise AttributeError /\
  exists flat,
    Raw.VerifySignature._flatten_features MoreExamples.string_area = Ok flat /\
    flat !! 10%nat = Some (Raw.JStr "3000") /\
    forallb Raw.is_number flat = false.
Proof.
  split; [reflexivity|].
  eexists. split; [reflexivity|]. split; reflexivity.
Qed.

(** ** [verify_signature]: length repair, verdict and report *)

Lemma fit_length_length (flat : list Q) (n : nat) :
  length (VerifySignature.fit_length flat n) = n.
Proof.
  unfold VerifySignature.fit_length.
  repeat case_bool_decide.
  - rewrite length_app, length_replicate. lia.
  - rewrite length_take. lia.
  - lia.
Qed.

Lemma fit_length_pad (flat : list Q) (n : nat) :
  (length flat < n)%nat ->
  VerifySignature.fit_length flat n = flat ++ replicate (n - length flat) 0.
Proof.
  intros H. unfold VerifySignature.fit_length.
  repeat case_bool_decide; (reflexivity || lia).
Qed.

Lemma fit_length_truncate (flat : list Q) (n : nat) :
  (n < length flat)%nat -> VerifySignature.fit_length flat n = take n flat.
Proof.
  intros H. unfold VerifySignature.fit_length.
  repeat case_bool_decide; (reflexivity || lia).
Qed.

Lemma fit_length_same (flat : list Q) (n : nat) :
  length flat = n -> VerifySignature.fit_length flat n = flat.
Proof.
  intros H. unfold VerifySignature.fit_length.
  repeat case_bool_decide; (reflexivity || lia).
Qed.

(** A dictionary comprehension over distinct keys binds each key to the
    value at the same position. *)
Lemma dict_of_notin {V} (kvs : list (string * V)) (m : gmap string V) (k : string) :
  k ∉ kvs.*1 ->
  fold_left (fun d kv => <[kv.1 := kv.2]> d) kvs m !! k = m !! k.
Proof.
  revert m. induction kvs as [|[k' v'] kvs IH]; intros m Hk; [reflexivity|].
  rewrite fmap_cons, elem_of_cons in Hk. cbn [fold_left fst snd]. rewrite IH.
  - apply lookup_insert_ne. intros ->. apply Hk. left. reflexivity.
  - intros Hin. apply Hk. right. exact Hin.
Qed.

Lemma dict_of_lookup {V} (kvs : list (string * V)) (i : nat) (k : string) (v : V) :
  NoDup kvs.*1 -> kvs !! i = Some (k, v) -> Py.dict_of kvs !! k = Some v.
Proof.
  unfold Py.dict_of. generalize (∅ : gmap string V) as m.
  revert i. induction kvs as [|[k' v'] kvs IH]; intros i m Hnd Hi; [done|].
  apply NoDup_cons in Hnd as [Hnotin Hnd]. destruct i as [|i].
  - injection Hi as -> ->. cbn [fold_left fst snd].
    rewrite dict_of_notin by exact Hnotin. apply lookup_insert_eq.
  - cbn [fold_left]. eapply IH; eassumption.
Qed.

Section VerifyProofs.

Import VerifySignature.

Variable sqrt : Q -> Q.

(** The steps of [verify_signature] after a successful extraction. *)
Lemma verify_signature_trace_Ok (self : Verifier)
    (signature_data : Collector.SignatureData) (f : Collector.Features) :
  Collector.process_signature sqrt signature_data = Ok f ->
  let flat := fit_length (_flatten_features f) (length (feature_names self)) in
  let score := model_predict self (scaler_transform self flat) in
  verify_signature_trace sqrt self signature_data
  = Ok {| X := flat;
          X_scaled := scaler_transform self flat;
          returned :=
            (Py.gt score 0.5, score * 100,
             {| is_genuine := Py.gt score 0.5;
                confidence := score * 100;
                threshold := 50.0;
                features := Py.dict_of (zip (feature_names self) flat);
                verdict := if Py.gt score 0.5 then "GENUINE"
                           else "FORGERY DETECTED" |}) |}.
Proof.
  intros Hf flat score. unfold verify_signature_trace. rewrite Hf. run.
  fold flat. fold score.
  rewrite (take_ge (feature_names self)).
  - reflexivity.
  - unfold flat. rewrite fit_length_length. lia.
Qed.

(** C6.  On a well-formed capture [verify_signature] returns whatever the
    number of expected feature names is: the flattened vector is padded
    with zeros up to that number when shorter, cut to it when longer, left
    alone when equal, and the repaired vector is the one scaled and
    scored. *)
Theorem verify_repairs_length (self : Verifier)
    (signature_data : Collector.SignatureData) :
  Spec.well_formed signature_data ->
  exists f t,
    Collector.process_signature sqrt signature_data = Ok f /\
    verify_signature_trace sqrt self signature_data = Ok t /\
    verify_signature sqrt self signature_data = Ok (returned t) /\
    let flat := _flatten_features f in
    let n := length (feature_names self) in
    length (X t) = n /\
    ((length flat < n)%nat -> X t = flat ++ replicate (n - length flat) 0) /\
    ((n < length flat)%nat -> X t = take n flat) /\
    (length flat = n -> X t = flat) /\
    X_scaled t = scaler_transform self (X t) /\
    (returned t).1.2 = model_predict self (X_scaled t) * 100.
Proof.
  intros Hwf.
  destruct (process_signature_Ok sqrt signature_data Hwf) as (f & Hf & _).
  pose proof (verify_signature_trace_Ok self signature_data f Hf) as Ht.
  cbv zeta in Ht. eexists f, _. split; [exact Hf|]. split; [exact Ht|].
  split; [unfold verify_signature; rewrite Ht; reflexivity|].
  cbn [X X_scaled returned fst snd]. split; [apply fit_length_length|].
  split; [apply fit_length_pad|]. split; [apply fit_length_truncate|].
  split; [apply fit_length_same|]. split; reflexivity.
Qed.

(** C9 (as amended).  With pairwise distinct expected feature names the
    [features] entry of the analysis binds every name to the entry, at
    the same position, of the attempt's own flattened vector as it is
    before scaling (for the 19 training names: the 19 flattened features);
    no diff against a reference is taken.  The verdict is ['GENUINE'] when
    [is_genuine] holds and ['FORGERY DETECTED'] otherwise. *)
Theorem report_carries_unscaled_features (self : Verifier)
    (signature_data : Collector.SignatureData) :
  Spec.well_formed signature_data ->
  NoDup (feature_names self) ->
  exists f t,
    Collector.process_signature sqrt signature_data = Ok f /\
    verify_signature_trace sqrt self signature_data = Ok t /\
    verify_signature sqrt self signature_data = Ok (returned t) /\
    let analysis := (returned t).2 in
    (forall (i : nat) (name : string), feature_names self !! i = Some name ->
       exists v, X t !! i = Some v /\ features analysis !! name = Some v) /\
    (feature_names self = TrainModelSklearn.FEATURE_NAMES ->
       X t = map (Spec.field_or_zero f) Spec.FEATURE_FIELDS) /\
    is_genuine analysis = (returned t).1.1 /\
    verdict analysis = (if is_genuine analysis then "GENUINE" else "FORGERY DETECTED").
Proof.
  intros Hwf Hnd.
  destruct (process_signature_Ok sqrt signature_data Hwf) as (f & Hf & _).
  pose proof (verify_signature_trace_Ok self signature_data f Hf) as Ht.
  cbv zeta in Ht. eexists f, _. split; [exact Hf|]. split; [exact Ht|].
  split; [unfold verify_signature; rewrite Ht; reflexivity|].
  cbn [X returned fst snd features is_genuine verdict].
  set (flat := fit_length _ _).
  assert (length flat = length (feature_names self)) as Hlen
    by apply fit_length_length.
  split; [|split; [|split; reflexivity]].
  - intros i name Hi.
    destruct (lookup_lt_is_Some_2 flat i) as [v Hv].
    { rewrite Hlen. eapply lookup_lt_Some, Hi. }
    exists v. split; [exact Hv|].
    apply (dict_of_lookup _ i).
    + rewrite fst_zip by lia. exact Hnd.
    + apply lookup_zip_with_Some. eauto.
  - intros Hnames. unfold flat. rewrite Hnames.
    rewrite fit_length_same; [apply flatten_as_fields|].
    rewrite flatten_as_fields, length_map. reflexivity.
Qed.

End VerifyProofs.

(** ** The verdict *)

Section VerdictProofs.

Variable sqrt : Q -> Q.

(** What a successful [predict] went through. *)
Lemma predict_Success_inv (g : option MlApiServer.Loaded)
    (data : MlApiServer.Request) (p : MlApiServer.Prediction) :
  MlApiServer.predict g data = MlApiServer.Success p ->
  exists ld stored current fs p0 p1,
    g = Some ld /\
    MlApiServer.stored_features data = Some stored /\
    MlApiServer.current_features data = Some current /\
    MlApiServer.diff_features (MlApiServer.feature_names ld) stored current = Ok fs /\
    let scaled := MlApiServer.scaler_transform (MlApiServer.scaler ld) fs in
    let label := MlApiServer.model_predict (MlApiServer.model ld) scaled in
    let proba := MlApiServer.model_predict_proba (MlApiServer.model ld) scaled in
    proba !! 0%nat = Some p0 /\ proba !! 1%nat = Some p1 /\
    p = {| MlApiServer.prediction := label;
           MlApiServer.confidence_score :=
             if (label =? 1)%Z then p1 * 100 else (1 - p0) * 100;
           MlApiServer.is_genuine := (label =? 1)%Z;
           MlApiServer.probabilities_forgery := p0;
           MlApiServer.probabilities_genuine := p1 |}.
Proof.
  unfold MlApiServer.predict, MlApiServer.predict_body. intros H.
  destruct (MlApiServer.stored_features data) as [stored|]; [|discriminate].
  destruct (MlApiServer.current_features data) as [current|]; [|discriminate].
  destruct g as [ld|]; [|discriminate]. run_in H.
  destruct (MlApiServer.diff_features _ stored current) as [fs|] eqn:Hfs;
    [|discriminate]. run_in H.
  exists ld, stored, current, fs.
  set (scaled := MlApiServer.scaler_transform _ fs) in *.
  set (label := MlApiServer.model_predict _ scaled) in *.
  set (proba := MlApiServer.model_predict_proba _ scaled) in *.
  unfold MlApiServer.confidence_of, Py.index in H.
  destruct (proba !! 0%nat) as [p0|] eqn:H0.
  - destruct (proba !! 1%nat) as [p1|] eqn:H1.
    + exists p0, p1. do 3 (split; [reflexivity|]). split; [exact Hfs|].
      cbv zeta. fold scaled label proba. do 2 (split; [reflexivity|]).
      destruct (label =? 1)%Z; run_in H; injection H as <-; reflexivity.
    + destruct (label =? 1)%Z; discriminate.
  - destruct (proba !! 1%nat) as [p1|]; destruct (label =? 1)%Z; discriminate.
Qed.

(** C3.  The verdict is the classifier's own answer.  In [predict],
    [is_genuine] is exactly [label == 1] for the label the model gave on
    the scaled diff vector, whatever the probabilities are; when that
    label agrees with the model's genuine-class probability this is the
    same as confidence above 50.  In [verify_signature], where the model
    gives one genuine-class score, [is_genuine] holds exactly when the
    score exceeds 0.5, that is when the confidence exceeds the reported
    threshold 50.0, and the verdict string follows [is_genuine]. *)
Theorem verdict_is_classifier_answer :
  (forall (g : option MlApiServer.Loaded) (data : MlApiServer.Request)
          (p : MlApiServer.Prediction),
     MlApiServer.predict g data = MlApiServer.Success p ->
     exists ld stored current fs,
       g = Some ld /\
       MlApiServer.stored_features data = Some stored /\
       MlApiServer.current_features data = Some current /\
       MlApiServer.diff_features (MlApiServer.feature_names ld) stored current = Ok fs /\
       let scaled := MlApiServer.scaler_transform (MlApiServer.scaler ld) fs in
       let proba := MlApiServer.model_predict_proba (MlApiServer.model ld) scaled in
       MlApiServer.prediction p = MlApiServer.model_predict (MlApiServer.model ld) scaled /\
       MlApiServer.is_genuine p = (MlApiServer.prediction p =? 1)%Z /\
       forall p0 p1, proba !! 0%nat = Some p0 -> proba !! 1%nat = Some p1 ->
         (MlApiServer.prediction p = 1%Z <-> 0.5 < p1) -> p0 + p1 == 1 ->
         (MlApiServer.is_genuine p = true <-> 50.0 < MlApiServer.confidence_score p)) /\
  (forall (self : VerifySignature.Verifier) (signature_data : Collector.SignatureData)
          (b : bool) (c : Q) (a : VerifySignature.Analysis),
     VerifySignature.verify_signature sqrt self signature_data = Ok (b, c, a) ->
     exists t score,
       VerifySignature.verify_signature_trace sqrt self signature_data = Ok t /\
       score = VerifySignature.model_predict self (VerifySignature.X_scaled t) /\
       c = score * 100 /\
       (b = true <-> 0.5 < score) /\
       VerifySignature.threshold a == 50.0 /\
       (b = true <-> VerifySignature.threshold a < c) /\
       VerifySignature.is_genuine a = b /\
       VerifySignature.confidence a = c /\
       (VerifySignature.verdict a = "GENUINE" <-> b = true)).
Proof.
  split.
  - intros g data p Hp.
    destruct (predict_Success_inv g data p Hp)
      as (ld & stored & current & fs & q0 & q1 & -> & Hs & Hc & Hfs & H0 & H1 & ->).
    exists ld, stored, current, fs. repeat (split; [assumption || reflexivity|]).
    cbn [MlApiServer.prediction MlApiServer.is_genuine MlApiServer.confidence_score].
    intros p0 p1 Hp0 Hp1 Hlabel Hsum.
    rewrite H0 in Hp0. rewrite H1 in Hp1. injection Hp0 as ->. injection Hp1 as ->.
    destruct (Z.eqb_spec
                (MlApiServer.model_predict (MlApiServer.model ld)
                   (MlApiServer.scaler_transform (MlApiServer.scaler ld) fs)) 1)
      as [Heq|Hne].
    + apply Hlabel in Heq. split; [intros _; lra | reflexivity].
    + split; [discriminate|]. intros Hconf. exfalso. apply Hne, Hlabel. lra.
  - intros self signature_data b c a Hv.
    unfold VerifySignature.verify_signature in Hv.
    apply bind_Ok_inv in Hv as (t & Ht & Hret). injection Hret as Hret.
    unfold VerifySignature.verify_signature_trace in Ht.
    apply bind_Ok_inv in Ht as (f & Hf & Ht). injection Ht as <-.
    cbn [VerifySignature.returned] in Hret. injection Hret as <- <- <-.
    eexists _, _.
    split; [unfold VerifySignature.verify_signature_trace; rewrite Hf;
            reflexivity|].
    cbn [VerifySignature.X_scaled VerifySignature.threshold VerifySignature.is_genuine
         VerifySignature.confidence VerifySignature.verdict].
    split; [reflexivity|]. split; [reflexivity|].
    split; [apply gt_true|]. split; [reflexivity|].
    split; [rewrite gt_true; split; intros; lra|].
    split; [reflexivity|]. split; [reflexivity|].
    destruct (Py.gt _ 0.5); split; (reflexivity || discriminate).
Qed.

End VerdictProofs.

(** ** The theorems on concrete runs *)

Lemma example_signature_well_formed : Spec.well_formed Examples.example_signature.
Proof. repeat constructor. eexists. reflexivity. Qed.

Lemma forgery_outcome_eq :
  VerifySignature.verify_signature Examples.sqrt6 Examples.forgery_verifier
    Examples.example_signature = Examples.forgery_outcome.
Proof. vm_compute. reflexivity. Qed.

Lemma forgery_response_eq :
  MlApiServer.predict (Some (Examples.constant_server 0 [0.7; 0.3]))
    Examples.forgery_request = Examples.forgery_response.
Proof. vm_compute. reflexivity. Qed.

Lemma verdict_is_classifier_answer_witness :
  (exists p, MlApiServer.predict (Some (Examples.constant_server 0 [0.7; 0.3]))
               Examples.forgery_request = MlApiServer.Success p /\
             MlApiServer.prediction p = 0%Z /\ MlApiServer.is_genuine p = false) /\
  (exists b c a,
     VerifySignature.verify_signature Examples.sqrt6 Examples.forgery_verifier
       Examples.example_signature = Ok (b, c, a) /\
     b = false /\ c == 30.0 /\ VerifySignature.verdict a = "FORGERY DETECTED").
Proof.
  split.
  - pose proof forgery_response_eq as Hrun. unfold Examples.forgery_response in Hrun.
    match type of Hrun with _ = MlApiServer.Success ?p =>
      exists p; split; [exact Hrun|];
      destruct (proj1 (verdict_is_classifier_answer Examples.sqrt6) _ _ p Hrun)
        as (ld & st & cu & fs & Hld & _ & _ & _ & Hlabel & Hgen & _)
    end.
    split; [reflexivity|]. rewrite Hgen. reflexivity.
  - destruct (process_signature_Ok Examples.sqrt6 Examples.example_signature
                example_signature_well_formed) as (f & Hf & _).
    pose proof (verify_signature_trace_Ok Examples.sqrt6 Examples.forgery_verifier
                  Examples.example_signature f Hf) as Ht.
    cbv zeta in Ht.
    assert (exists r, VerifySignature.verify_signature Examples.sqrt6
                        Examples.forgery_verifier Examples.example_signature = Ok r /\
                      r.1.1 = false /\ r.1.2 == 30.0 /\
                      VerifySignature.verdict r.2 = "FORGERY DETECTED")
      as ([[b c] a] & Hrun & Hb & Hc & Hverdict).
    { unfold VerifySignature.verify_signature. rewrite Ht. run.
      eexists. split; [reflexivity|]. repeat split. }
    destruct (proj2 (verdict_is_classifier_answer Examples.sqrt6) _ _ b c a Hrun)
      as (t & score & _ & _ & _ & Hscore & _).
    exists b, c, a. repeat split; assumption.
Defined.

Lemma verify_repairs_length_witness :
  (exists t, VerifySignature.verify_signature_trace Examples.sqrt6
               (Examples.constant_verifier 0.3 Examples.names_21)
               Examples.example_signature = Ok t /\
             length (VerifySignature.X t) = 21%nat /\
             drop 19 (VerifySignature.X t) = [0; 0]) /\
  (exists t, VerifySignature.verify_signature_trace Examples.sqrt6
               (Examples.constant_verifier 0.3 Examples.names_3)
               Examples.example_signature = Ok t /\
             length (VerifySignature.X t) = 3%nat).
Proof.
  pose proof example_signature_well_formed as Hwf.
  split.
  - destruct (verify_repairs_length Examples.sqrt6
                (Examples.constant_verifier 0.3 Examples.names_21)
                Examples.example_signature Hwf)
      as (f & t & Hf & Ht & _ & Hlen & Hpad & _).
    exists t. split; [exact Ht|]. split; [exact Hlen|].
    rewrite Hpad.
    + rewrite flatten_as_fields, drop_app_length'; [reflexivity|].
      rewrite length_map. reflexivity.
    + rewrite flatten_as_fields, length_map. cbn. lia.
  - destruct (verify_repairs_length Examples.sqrt6
                (Examples.constant_verifier 0.3 Examples.names_3)
                Examples.example_signature Hwf)
      as (f & t & Hf & Ht & _ & Hlen & _).
    exists t. split; [exact Ht|]. exact Hlen.
Defined.

Lemma names_NoDup : NoDup TrainModelSklearn.FEATURE_NAMES.
Proof.
  apply (bool_decide_unpack (NoDup TrainModelSklearn.FEATURE_NAMES)).
  vm_compute. exact I.
Qed.

Lemma report_carries_unscaled_features_witness :
  exists t, VerifySignature.verify_signature_trace Examples.sqrt6
              Examples.forgery_verifier Examples.example_signature = Ok t /\
    (exists v, VerifySignature.X t !! 8%nat = Some v /\
       VerifySignature.features (VerifySignature.returned t).2 !! "width" = Some v) /\
    VerifySignature.verdict (VerifySignature.returned t).2
    = (if VerifySignature.is_genuine (VerifySignature.returned t).2
       then "GENUINE" else "FORGERY DETECTED").
Proof.
  destruct (report_carries_unscaled_features Examples.sqrt6
              Examples.forgery_verifier Examples.example_signature)
    as (f & t & Hf & Ht & _ & Hfeat & _ & Hgen & Hverdict).
  - exact example_signature_well_formed.
  - exact names_NoDup.
  - exists t. split; [exact Ht|]. split; [|exact Hverdict].
    apply (Hfeat 8%nat "width"). reflexivity.
Defined.

(** C9, the claim as worded fails: verifying the example capture with a
    forgery score, the report binds [stroke_count] to the attempt's own
    count 1, whereas its diff against an identical reference is 0, and
    the verdict string is ['FORGERY DETECTED']. *)
Lemma report_is_not_diffs :
  exists b c a,
    VerifySignature.verify_signature Examples.sqrt6 Examples.forgery_verifier
      Examples.example_signature = Ok (b, c, a) /\
    VerifySignature.features a !! "stroke_count" = Some 1 /\
    MlApiServer.diff_feature "stroke_count"
      (VerifySignature.features a) (VerifySignature.features a) = Ok 0 /\
    VerifySignature.verdict a = "FORGERY DETECTED" /\
    ~ Spec.report_as_specified TrainModelSklearn.FEATURE_NAMES
        (VerifySignature.features a) (VerifySignature.features a) a.
Proof.
  pose proof forgery_outcome_eq as Hrun. unfold Examples.forgery_outcome in Hrun.
  match type of Hrun with _ = Ok (?b, ?c, ?a) =>
    set (analysis := a) in Hrun; exists b, c, analysis
  end.
  split; [exact Hrun|].
  split; [vm_compute; reflexivity|]. split; [vm_compute; reflexivity|].
  split; [reflexivity|].
  intros [_ [Hv|Hv]]; discriminate Hv.
Qed.

(** ** Velocities *)

Section VelocityProofs.

Import Collector.

Variable sqrt : Q -> Q.

(** C10.  For any two consecutive points the time difference is at least
    1: it is [max(p2.t - p1.t, 1)] when both points carry a time and 1
    when either lacks one.  Hence the division never fails, and the
    velocity pool of any strokes is the list of [distance / time_diff]
    over all consecutive pairs, stroke by stroke. *)
Theorem time_diff_floor (p1 p2 : Point) :
  1 <= time_diff p1 p2 /\
  (forall t1 t2, time p1 = Some t1 -> time p2 = Some t2 ->
     time_diff p1 p2 == Qmax (t2 - t1) 1) /\
  (time p1 = None \/ time p2 = None -> time_diff p1 p2 = 1) /\
  velocity sqrt p1 p2 = Ok (distance sqrt p1 p2 / time_diff p1 p2) /\
  forall strokes : list Stroke,
    stroke_velocities sqrt strokes
    = Ok (concat
            (map (fun stroke =>
                    map (fun pp => distance sqrt pp.1 pp.2 / time_diff pp.1 pp.2)
                        (consecutive (points_get stroke)))
                 strokes)).
Proof.
  split; [apply time_diff_ge_1|]. split; [|split; [|split]].
  - intros t1 t2 H1 H2. unfold time_diff. rewrite H1, H2. apply max_Qmax.
  - unfold time_diff. intros [H|H]; rewrite H; [|destruct (time p1)]; reflexivity.
  - apply velocity_Ok.
  - apply stroke_velocities_eq.
Qed.

End VelocityProofs.

(** ** [analyze_consistency] *)

Section ConsistencyProofs.

Import Collector.

Variable sqrt : Q -> Q.

Lemma feature_item_lookup (s : SignatureRecord) (category field : string) (v : Q) :
  (features s !! category) ≫= (.!! field) = Some (Some v) ->
  feature_item s category field = Ok v.
Proof.
  unfold feature_item, Py.getitem. intros H.
  destruct (features s !! category) as [c|]; [|discriminate].
  cbn [mbind option_bind] in H. run. rewrite H. reflexivity.
Qed.

(** A capture on which extraction succeeds is well formed. *)
Lemma process_signature_well_formed (signature_data : SignatureData) (f : Features) :
  process_signature sqrt signature_data = Ok f -> Spec.well_formed signature_data.
Proof.
  unfold process_signature, Spec.well_formed. intros H.
  apply bind_Ok_inv in H as (basic & Hbasic & _).
  unfold _calculate_basic_stats in Hbasic.
  apply bind_Ok_inv in Hbasic as (lens & Hlens & _).
  apply mapM_Ok_inv in Hlens.
  induction Hlens as [|stroke n strokes lens Hstroke _ IH]; constructor.
  - unfold points_item in Hstroke.
    destruct (points stroke) as [pts|]; [eauto | discriminate].
  - exact IH.
Qed.

Lemma reachable_has_metrics (signatures : list SignatureRecord) :
  reachable sqrt signatures -> Forall has_metrics signatures.
Proof.
  induction 1 as [|signatures sd uid ty signatures' f _ IH Hsave].
  - constructor.
  - unfold save_signature in Hsave.
    apply bind_Ok_inv in Hsave as (f' & Hf' & Hret). injection Hret as <- <-.
    apply Forall_app. split; [exact IH|]. constructor; [|constructor].
    pose proof (process_signature_well_formed _ _ Hf') as Hwf.
    destruct (process_signature_Ok sqrt sd Hwf)
      as (f'' & Hf'' & (v & Hv & _) & (n & Hn & _) & (a & Ha & _)).
    rewrite Hf' in Hf''. injection Hf'' as <-.
    repeat split; eexists; apply feature_item_lookup; eassumption.
Qed.

Lemma consistency_Ok (v : Q) (values : list Q) :
  exists c, consistency sqrt (v :: values) = Ok c.
Proof.
  unfold consistency. rewrite mean_cons. run.
  destruct (Py.gt _ 0) eqn:Hm; run; [|eauto].
  apply gt_true in Hm.
  destruct (std_cons sqrt v values) as [sd ->]. run.
  rewrite div_Ok by lra. run. eauto.
Qed.

Lemma metrics_total (history : list SignatureRecord) (category field : string) :
  Forall (fun s => exists v, feature_item s category field = Ok v) history ->
  exists vs, mapM (fun s => feature_item s category field) history = Ok vs /\
    length vs = length history.
Proof.
  intros H. destruct (mapM_total _ _ H) as [vs Hvs].
  exists vs. split; [exact Hvs|].
  symmetry. eapply Forall2_length, mapM_Ok_inv, Hvs.
Qed.

(** C7.  In any state of the collector reached through
    [save_signature], analysing an identity with fewer than 2 genuine
    records returns the message string, and with 2 or more it returns a
    report whose sample count is the number of those records; neither
    case raises. *)
Theorem analyze_consistency_needs_two (signatures : list SignatureRecord)
    (uid : string) :
  reachable sqrt signatures ->
  let history :=
    filter (fun s => user_id s = uid /\ type s = "genuine") signatures in
  ((length history < 2)%nat ->
     analyze_consistency sqrt signatures uid
     = Ok (Message "Need at least 2 signatures to analyze consistency")) /\
  ((2 <= length history)%nat ->
     exists r, analyze_consistency sqrt signatures uid = Ok (Report r) /\
       sample_count r = length history).
Proof.
  intros Hreach history. unfold analyze_consistency. fold history.
  split; intros Hlen.
  - rewrite bool_decide_eq_true_2 by exact Hlen. reflexivity.
  - rewrite bool_decide_eq_false_2 by lia.
    assert (Forall has_metrics history) as Hmetrics.
    { apply Forall_forall. intros s Hs. apply list_elem_of_filter in Hs as [_ Hs].
      pose proof (reachable_has_metrics _ Hreach) as Hall.
      rewrite Forall_forall in Hall. apply Hall, Hs. }
    destruct (metrics_total history "velocity_features" "average_velocity")
      as (vs & -> & Hvs).
    { eapply Forall_impl; [exact Hmetrics|]. intros s (H & _ & _). exact H. }
    destruct (metrics_total history "basic_stats" "stroke_count")
      as (ns & -> & Hns).
    { eapply Forall_impl; [exact Hmetrics|]. intros s (_ & H & _). exact H. }
    destruct (metrics_total history "shape_features" "area") as (ars & -> & Hars).
    { eapply Forall_impl; [exact Hmetrics|]. intros s (_ & _ & H). exact H. }
    run.
    destruct vs as [|v vs]; [cbn in Hvs; lia|].
    destruct ns as [|n ns]; [cbn in Hns; lia|].
    destruct ars as [|a ars]; [cbn in Hars; lia|].
    destruct (consistency_Ok v vs) as [vc ->].
    destruct (consistency_Ok n ns) as [nc ->].
    destruct (consistency_Ok a ars) as [ac ->]. run.
    eexists. split; reflexivity.
Qed.

End ConsistencyProofs.

(** ** Consistency scores *)

Section ConsistencyScores.

Import Collector.

Variable sqrt : Q -> Q.

(** What the code needs of [numpy.sqrt]. *)
Hypothesis sqrt_0 : forall q, q == 0 -> sqrt q == 0.
Hypothesis sqrt_nonneg : forall q, 0 <= q -> 0 <= sqrt q.



(** On every non-empty list the code computes the score with the guard
    [mean > 0]. *)
Lemma consistency_when_positive_Ok (v : Q) (values : list Q) :
  consistency sqrt (v :: values)
  = Ok (Spec.consistency_when_positive sqrt (v :: values)).
Proof.
  unfold consistency, Spec.consistency_when_positive, Spec.std, Spec.mean.
  rewrite mean_cons. run.
  destruct (Py.gt _ 0) eqn:Hm; run; [|reflexivity].
  apply gt_true in Hm. unfold Np.std. rewrite mean_cons. run.
  cbn [map]. rewrite mean_cons. run. rewrite div_Ok by lra. reflexivity.
Qed.



(** X23.  Whatever records the history holds, with at least two genuine
    records of the user that carry the three metrics, each score of the
    report is [1 - cv] with [cv = std / mean] of the corresponding metric
    when the mean is positive, and [cv = 0] otherwise.  On metrics that
    are not negative this is the rule with [cv = 0] when the mean is 0;
    with a negative mean the score stays 1. *)
Theorem consistency_rule_has_guard :
  (forall (signatures : list SignatureRecord) (uid : string),
     let history :=
       filter (fun s => user_id s = uid /\ type s = "genuine") signatures in
     Forall has_metrics history ->
     (2 <= length history)%nat ->
     exists rep vs ns ars,
       analyze_consistency sqrt signatures uid = Ok (Report rep) /\
       mapM (fun s => feature_item s "velocity_features" "average_velocity") history
         = Ok vs /\
       mapM (fun s => feature_item s "basic_stats" "stroke_count") history = Ok ns /\
       mapM (fun s => feature_item s "shape_features" "area") history = Ok ars /\
       velocity_consistency rep = Spec.consistency_when_positive sqrt vs /\
       stroke_count_consistency rep = Spec.consistency_when_positive sqrt ns /\
       area_consistency rep = Spec.consistency_when_positive sqrt ars) /\
  (forall (v : Q) (values : list Q),
     Forall (Qle 0) (v :: values) ->
     Spec.consistency_when_positive sqrt (v :: values)
     = Spec.consistency_as_specified sqrt (v :: values)) /\
  (forall values : list Q,
     Spec.mean values < 0 -> Spec.consistency_when_positive sqrt values == 1).
Proof.
  split; [|split].
  - intros signatures uid history Hmetrics Hlen.
    unfold analyze_consistency. fold history.
    rewrite bool_decide_eq_false_2 by lia.
    destruct (metrics_total history "velocity_features" "average_velocity")
      as (vs & Hvs & Hlvs).
    { eapply Forall_impl; [exact Hmetrics|]. intros s (H & _ & _). exact H. }
    destruct (metrics_total history "basic_stats" "stroke_count")
      as (ns & Hns & Hlns).
    { eapply Forall_impl; [exact Hmetrics|]. intros s (_ & H & _). exact H. }
    destruct (metrics_total history "shape_features" "area") as (ars & Hars & Hlars).
    { eapply Forall_impl; [exact Hmetrics|]. intros s (_ & _ & H). exact H. }
    rewrite Hvs, Hns, Hars. run.
    destruct vs as [|v vs]; [cbn in Hlvs; lia|].
    destruct ns as [|n ns]; [cbn in Hlns; lia|].
    destruct ars as [|a ars]; [cbn in Hlars; lia|].
    rewrite !consistency_when_positive_Ok. run.
    eexists _, _, _, _. repeat (split; [reflexivity|]). reflexivity.
  - intros v values Hnonneg. pose proof (mean_nonneg v values Hnonneg) as Hmean.
    unfold Spec.consistency_when_positive, Spec.consistency_as_specified.
    change (Py.sum (v :: values) / Py.len (v :: values))
      with (Spec.mean (v :: values)) in Hmean.
    destruct (Py.gt (Spec.mean (v :: values)) 0) eqn:Hm;
      destruct (Qeq_bool (Spec.mean (v :: values)) 0) eqn:Hz; try reflexivity.
    + apply gt_true in Hm. apply Qeq_bool_iff in Hz. lra.
    + apply gt_false in Hm. apply Qeq_bool_neq in Hz. lra.
  - intros values Hneg. unfold Spec.consistency_when_positive.
    rewrite (proj2 (gt_false _ _)) by lra. ring.
Qed.

End ConsistencyScores.

(** ** The collector on concrete captures *)


Lemma sqrt6_nonneg (q : Q) : 0 <= q -> 0 <= Examples.sqrt6 q.
Proof.
  intros _. unfold Examples.sqrt6, Qle. cbn [Qnum Qden].
  pose proof (Z.sqrt_nonneg (Qfloor (q * 1000000000000))). lia.
Qed.

(** The state after [save_signature(example_signature, 'user123')] has
    been called once and twice on a fresh collector. *)
Lemma example_saves :
  exists f,
    let r := {| Collector.user_id := "user123"; Collector.type := "genuine";
                Collector.raw_data := Examples.example_signature;
                Collector.features := f |} in
    Collector.save_signature Examples.sqrt6 [] Examples.example_signature
      "user123" "genuine" = Ok ([r], f) /\
    Collector.save_signature Examples.sqrt6 [r] Examples.example_signature
      "user123" "genuine" = Ok ([r; r], f) /\
    Collector.reachable Examples.sqrt6 [r] /\
    Collector.reachable Examples.sqrt6 [r; r].
Proof.
  destruct (process_signature_Ok Examples.sqrt6 Examples.example_signature
              example_signature_well_formed) as (f & Hf & _).
  exists f. cbv zeta.
  assert (forall st,
            Collector.save_signature Examples.sqrt6 st Examples.example_signature
              "user123" "genuine"
            = Ok (st ++ [{| Collector.user_id := "user123";
                            Collector.type := "genuine";
                            Collector.raw_data := Examples.example_signature;
                            Collector.features := f |}], f)) as Hsave.
  { intros st. unfold Collector.save_signature. rewrite Hf. reflexivity. }
  pose proof (Hsave []) as H1. cbn [app] in H1.
  pose proof (Hsave [{| Collector.user_id := "user123"; Collector.type := "genuine";
                        Collector.raw_data := Examples.example_signature;
                        Collector.features := f |}]) as H2. cbn [app] in H2.
  split; [exact H1|]. split; [exact H2|].
  assert (Collector.reachable Examples.sqrt6
            [{| Collector.user_id := "user123"; Collector.type := "genuine";
                Collector.raw_data := Examples.example_signature;
                Collector.features := f |}]) as Hr1.
  { eapply Collector.reachable_save; [apply Collector.reachable_init | exact H1]. }
  split; [exact Hr1|].
  eapply Collector.reachable_save; [exact Hr1 | exact H2].
Qed.

Lemma analyze_consistency_needs_two_witness :
  exists st1 st2,
    Collector.reachable Examples.sqrt6 st1 /\
    Collector.reachable Examples.sqrt6 st2 /\
    Collector.analyze_consistency Examples.sqrt6 st1 "user123"
    = Ok (Collector.Message "Need at least 2 signatures to analyze consistency") /\
    exists r, Collector.analyze_consistency Examples.sqrt6 st2 "user123"
              = Ok (Collector.Report r) /\
              Collector.sample_count r = 2%nat.
Proof.
  destruct example_saves as (f & _ & _ & Hr1 & Hr2).
  eexists _, _. split; [exact Hr1|]. split; [exact Hr2|]. split.
  - apply (analyze_consistency_needs_two Examples.sqrt6 _ "user123" Hr1).
    vm_compute. lia.
  - destruct (proj2 (analyze_consistency_needs_two Examples.sqrt6 _ "user123" Hr2))
      as (r & Hr & Hcount).
    + vm_compute. lia.
    + exists r. split; [exact Hr | exact Hcount].
Defined.


(** The area of the far-apart capture in int64: the product
    [4000000000 * 4000000000] wraps to a negative number. *)
Lemma far_apart_area_wraps :
  Int64.area <$> Int64.bounding_box
                   (default [] (Collector.strokes MoreExamples.far_apart))
  = Some (-2446744073709551616)%Z /\
  inject_Z (-2446744073709551616) = MoreExamples.wrapped_area.
Proof. split; vm_compute; reflexivity. Qed.

(** With a negative mean the code keeps [cv = 0]: the area consistency of
    the two records is 1, where [1 - std / mean] is 2. *)
Lemma consistency_rule_has_guard_witness :
  exists rep,
    Collector.analyze_consistency Examples.sqrt6 MoreExamples.wrapped_history "user123"
    = Ok (Collector.Report rep) /\
    Collector.area_consistency rep == 1 /\
    Spec.consistency_as_specified Examples.sqrt6 [MoreExamples.wrapped_area; 0] == 2.
Proof.
  destruct (proj1 (consistency_rule_has_guard Examples.sqrt6)
              MoreExamples.wrapped_history "user123")
    as (rep & vs & ns & ars & Hrep & _ & _ & Hars & _ & _ & Harea).
  - repeat constructor; eexists; vm_compute; reflexivity.
  - vm_compute. lia.
  - exists rep. split; [exact Hrep|]. split.
    + rewrite Harea.
      assert (ars = [MoreExamples.wrapped_area; 0]) as ->.
      { vm_compute in Hars. injection Hars as <-. reflexivity. }
      apply (proj2 (proj2 (consistency_rule_has_guard Examples.sqrt6))).
      vm_compute. reflexivity.
    + vm_compute. reflexivity.
Defined.

(** The bounding box of the example capture: 100 wide, 30 high, area
    3000, aspect ratio 100/30 and centre (300/2, 230/2). *)
Lemma example_shape :
  Collector._calculate_shape_features
    (default [] (Collector.strokes Examples.example_signature))
  = Ok {[ "width" := Some 100;
          "height" := Some 30;
          "area" := Some 3000;
          "aspect_ratio" := Some (100 # 30);
          "center_x" := Some (300 # 2);
          "center_y" := Some (230 # 2) ]}.
Proof. vm_compute. reflexivity. Qed.

(** * Further properties *)

(** ** [ml_api_server.py]: the diff vector *)

Section DiffProperties.

Import MlApiServer.

Lemma diff_by_magnitude_nonneg (name : string) (r a : Q) :
  0 <= Spec.diff_by_magnitude name r a.
Proof.
  unfold Spec.diff_by_magnitude.
  destruct (bool_decide _); [apply Qabs_nonneg|].
  destruct (Py.ne r 0).
  - unfold Qdiv. apply Qmult_le_0_compat; [apply Qabs_nonneg|].
    apply Qinv_le_0_compat, Qabs_nonneg.
  - destruct (Py.ne a 0); lra.
Qed.

Lemma diff_by_magnitude_self (name : string) (r a : Q) :
  r == a -> Spec.diff_by_magnitude name r a == 0.
Proof.
  intros Hra. unfold Spec.diff_by_magnitude.
  assert (Qabs (a - r) == 0) as Habs.
  { assert (a - r == 0) as -> by lra. reflexivity. }
  destruct (bool_decide _); [exact Habs|].
  destruct (Py.ne r 0) eqn:Hr.
  - rewrite Habs. unfold Qdiv. apply Qmult_0_l.
  - apply ne_false in Hr.
    destruct (Py.ne a 0) eqn:Ha; [|reflexivity].
    apply ne_true in Ha. exfalso. apply Ha. lra.
Qed.

Lemma diff_features_Forall (P : string -> Q -> Prop) (names : list string)
    (stored current : gmap string Q) (fs : list Q) :
  (forall name d, diff_feature name stored current = Ok d -> P name d) ->
  diff_features names stored current = Ok fs ->
  Forall2 P names fs.
Proof.
  intros HP Hfs. apply mapM_Ok_inv in Hfs.
  eapply Forall2_impl; [exact Hfs|]. exact HP.
Qed.

(** X1.  The diff vector never has a negative entry, and comparing a
    feature dictionary with itself gives a vector of zeros. *)
Theorem diff_features_nonneg_zero_on_self (names : list string)
    (stored current : gmap string Q) :
  exists fs fs0,
    diff_features names stored current = Ok fs /\
    Forall (Qle 0) fs /\
    diff_features names stored stored = Ok fs0 /\
    Forall (fun d => d == 0) fs0.
Proof.
  destruct (diff_features_Ok names stored current) as (fs & Hfs & _).
  destruct (diff_features_Ok names stored stored) as (fs0 & Hfs0 & _).
  exists fs, fs0. split; [exact Hfs|]. split; [|split; [exact Hfs0|]].
  - eapply Forall2_Forall_r.
    + eapply (diff_features_Forall (fun _ d => 0 <= d)); [|exact Hfs].
      intros name d Hd.
      destruct (diff_feature_Ok name stored current) as (d' & Hd' & Heq).
      rewrite Hd' in Hd. injection Hd as <-. rewrite Heq.
      apply diff_by_magnitude_nonneg.
    + apply Forall_forall. auto.
  - eapply Forall2_Forall_r.
    + eapply (diff_features_Forall (fun _ d => d == 0)); [|exact Hfs0].
      intros name d Hd.
      destruct (diff_feature_Ok name stored stored) as (d' & Hd' & Heq).
      rewrite Hd' in Hd. injection Hd as <-. rewrite Heq.
      apply diff_by_magnitude_self. reflexivity.
    + apply Forall_forall. auto.
Qed.

End DiffProperties.

(** ** [ml_api_server.py]: the response of [predict] *)

Section PredictProperties.

Import MlApiServer.

(** X3.  When the two probabilities reported by the model lie in
    [0, 1], the confidence score of a successful prediction lies in
    [0, 100]. *)
Theorem confidence_in_range (g : option Loaded) (data : Request) (p : Prediction) :
  predict g data = Success p ->
  0 <= probabilities_forgery p <= 1 ->
  0 <= probabilities_genuine p <= 1 ->
  0 <= confidence_score p <= 100.
Proof.
  intros Hp.
  destruct (predict_Success_inv g data p Hp)
    as (ld & stored & current & fs & p0 & p1 & _ & _ & _ & _ & _ & _ & ->).
  cbn [probabilities_forgery probabilities_genuine confidence_score].
  intros [H0 H0'] [H1 H1'].
  destruct (_ =? 1)%Z; split; lra.
Qed.

(** X4.  [predict] fails with [KeyError('stored_features')] when the
    reference dictionary is missing from the request, with
    [KeyError('current_features')] when only the attempt is missing, and
    with [TypeError] when both are there but no model is loaded.  Once the
    diff vector has been computed, a classifier that returns fewer than
    two probabilities makes the request fail with [IndexError], whatever
    its label. *)
Theorem predict_failure_cases (g : option Loaded) (data : Request) :
  match stored_features data, current_features data, g with
  | None, _, _ => predict g data = Failure (KeyError "stored_features")
  | Some _, None, _ => predict g data = Failure (KeyError "current_features")
  | Some _, Some _, None => predict g data = Failure TypeError
  | Some stored, Some current, Some ld =>
      forall fs, diff_features (feature_names ld) stored current = Ok fs ->
        let proba :=
          model_predict_proba (model ld) (scaler_transform (scaler ld) fs) in
        (length proba < 2)%nat -> predict g data = Failure IndexError
  end.
Proof.
  unfold predict, predict_body.
  destruct (stored_features data) as [stored|]; [|reflexivity].
  destruct (current_features data) as [current|]; [|reflexivity].
  destruct g as [ld|]; [|reflexivity]. run.
  intros fs Hfs. rewrite Hfs. run. cbv zeta.
  unfold confidence_of, Py.index.
  destruct (model_predict_proba _ _) as [|p0 [|p1 rest]]; cbn [length lookup list_lookup].
  - intros _. destruct (_ =? 1)%Z; reflexivity.
  - intros _. destruct (_ =? 1)%Z; reflexivity.
  - lia.
Qed.

Lemma mapM_ext_in {A B} (f h : A -> result B) (l : list A) :
  (forall a, a ∈ l -> f a = h a) -> mapM f l = mapM h l.
Proof.
  induction l as [|a l IH]; intros Hfh; [reflexivity|].
  cbn [mapM]. rewrite (Hfh a) by (apply elem_of_cons; left; reflexivity).
  rewrite IH; [reflexivity|].
  intros b Hb. apply Hfh, elem_of_cons. right. exact Hb.
Qed.

(** X5.  The response depends on the two feature dictionaries only
    through the entries named in [feature_names]: entries under any
    other key are ignored. *)
Theorem predict_reads_named_features_only (ld : Loaded)
    (stored stored' current current' : gmap string Q) :
  (forall name, name ∈ feature_names ld -> stored !! name = stored' !! name) ->
  (forall name, name ∈ feature_names ld -> current !! name = current' !! name) ->
  predict (Some ld) {| stored_features := Some stored;
                       current_features := Some current |}
  = predict (Some ld) {| stored_features := Some stored';
                         current_features := Some current' |}.
Proof.
  intros Hs Hc. unfold predict, predict_body.
  cbn [stored_features current_features]. run.
  assert (diff_features (feature_names ld) stored current
          = diff_features (feature_names ld) stored' current') as ->.
  { apply mapM_ext_in. intros name Hname.
    unfold diff_feature, Py.get. rewrite (Hs name Hname), (Hc name Hname).
    reflexivity. }
  reflexivity.
Qed.

End PredictProperties.

Lemma confidence_in_range_witness :
  exists p, MlApiServer.predict (Some (Examples.constant_server 0 [0.7; 0.3]))
              Examples.forgery_request = MlApiServer.Success p /\
            0 <= MlApiServer.confidence_score p <= 100.
Proof.
  pose proof forgery_response_eq as Hrun. unfold Examples.forgery_response in Hrun.
  match type of Hrun with _ = MlApiServer.Success ?p =>
    exists p; split; [exact Hrun|];
    apply (confidence_in_range _ _ p Hrun)
  end.
  - split; discriminate.
  - split; discriminate.
Defined.

Lemma predict_reads_named_features_only_witness :
  MlApiServer.predict (Some (Examples.constant_server 0 [0.7; 0.3]))
    {| MlApiServer.stored_features := Some Examples.stored_metrics;
       MlApiServer.current_features := Some Examples.current_metrics |}
  = MlApiServer.predict (Some (Examples.constant_server 0 [0.7; 0.3]))
      {| MlApiServer.stored_features :=
           Some (<["pressure" := 7]> Examples.stored_metrics);
         MlApiServer.current_features :=
           Some (<["device" := 1]> Examples.current_metrics) |}.
Proof.
  apply predict_reads_named_features_only.
  - intros name Hname. symmetry. apply lookup_insert_ne.
    intros <-. revert Hname.
    apply (bool_decide_eq_false_1 ("pressure" ∈ TrainModelSklearn.FEATURE_NAMES)).
    vm_compute. reflexivity.
  - intros name Hname. symmetry. apply lookup_insert_ne.
    intros <-. revert Hname.
    apply (bool_decide_eq_false_1 ("device" ∈ TrainModelSklearn.FEATURE_NAMES)).
    vm_compute. reflexivity.
Defined.

(** ** [collect_signature_data.py]: shape and velocity features *)

Lemma fold_max_mem (l : list Q) (a b : Q) : b ∈ a :: l -> b <= fold_left Qmax l a.
Proof.
  revert a. induction l as [|c l IH]; intros a Hb.
  - apply list_elem_of_singleton in Hb as ->. cbn. lra.
  - cbn [fold_left]. apply elem_of_cons in Hb as [->|Hb].
    + pose proof (fold_max_ge l (Qmax a c)). pose proof (Q.le_max_l a c). lra.
    + apply elem_of_cons in Hb as [->|Hb].
      * pose proof (fold_max_ge l (Qmax a c)). pose proof (Q.le_max_r a c). lra.
      * apply IH. apply elem_of_cons. right. exact Hb.
Qed.

Lemma fold_min_mem (l : list Q) (a b : Q) : b ∈ a :: l -> fold_left Qmin l a <= b.
Proof.
  revert a. induction l as [|c l IH]; intros a Hb.
  - apply list_elem_of_singleton in Hb as ->. cbn. lra.
  - cbn [fold_left]. apply elem_of_cons in Hb as [->|Hb].
    + pose proof (fold_min_le l (Qmin a c)). pose proof (Q.le_min_l a c). lra.
    + apply elem_of_cons in Hb as [->|Hb].
      * pose proof (fold_min_le l (Qmin a c)). pose proof (Q.le_min_r a c). lra.
      * apply IH. apply elem_of_cons. right. exact Hb.
Qed.

Lemma fold_max_inject (l : list Z) (a : Z) (qa : Q) :
  qa == inject_Z a ->
  fold_left Qmax (map inject_Z l) qa == inject_Z (fold_left Z.max l a).
Proof.
  revert a qa. induction l as [|b l IH]; intros a qa Ha; cbn [map fold_left].
  - exact Ha.
  - apply IH. rewrite Ha.
    destruct (Z.max_spec a b) as [[Hlt ->]|[Hle ->]];
      [apply Q.max_r | apply Q.max_l]; rewrite <- Zle_Qle; lia.
Qed.

Lemma fold_min_inject (l : list Z) (a : Z) (qa : Q) :
  qa == inject_Z a ->
  fold_left Qmin (map inject_Z l) qa == inject_Z (fold_left Z.min l a).
Proof.
  revert a qa. induction l as [|b l IH]; intros a qa Ha; cbn [map fold_left].
  - exact Ha.
  - apply IH. rewrite Ha.
    destruct (Z.min_spec a b) as [[Hlt ->]|[Hle ->]];
      [apply Q.min_l | apply Q.min_r]; rewrite <- Zle_Qle; lia.
Qed.

Lemma fold_Zmax_bounds (lo hi : Z) (l : list Z) (a : Z) :
  Forall (fun z => lo <= z <= hi)%Z (a :: l) ->
  (a <= fold_left Z.max l a <= hi)%Z.
Proof.
  revert a. induction l as [|b l IH]; intros a Hall; cbn [fold_left].
  - apply Forall_cons in Hall as [Ha _]. lia.
  - apply Forall_cons in Hall as [Ha Hall]. apply Forall_cons in Hall as [Hb Hall].
    assert (a <= Z.max a b)%Z by lia.
    destruct (IH (Z.max a b)) as [H1 H2]; [constructor; [lia | exact Hall]|]. lia.
Qed.

Lemma fold_Zmin_bounds (lo hi : Z) (l : list Z) (a : Z) :
  Forall (fun z => lo <= z <= hi)%Z (a :: l) ->
  (lo <= fold_left Z.min l a <= a)%Z.
Proof.
  revert a. induction l as [|b l IH]; intros a Hall; cbn [fold_left].
  - apply Forall_cons in Hall as [Ha _]. lia.
  - apply Forall_cons in Hall as [Ha Hall]. apply Forall_cons in Hall as [Hb Hall].
    assert (Z.min a b <= a)%Z by lia.
    destruct (IH (Z.min a b)) as [H1 H2]; [constructor; [lia | exact Hall]|]. lia.
Qed.

Lemma wrap_small (z : Z) : (- 2 ^ 63 <= z < 2 ^ 63)%Z -> Int64.wrap z = z.
Proof.
  intros Hz. unfold Int64.wrap. rewrite Z.mod_small; lia.
Qed.

(** One axis of the point cloud, for small integer coordinates: the exact
    extremes are the integer ones, and they lie within the bound. *)
Lemma axis_extremes (l : list Q) (a : Q) :
  Forall Spec.small_int (a :: l) ->
  fold_left Qmax l a == inject_Z (fold_left Z.max (map Qfloor l) (Qfloor a)) /\
  fold_left Qmin l a == inject_Z (fold_left Z.min (map Qfloor l) (Qfloor a)) /\
  (- 2 ^ 25 <= fold_left Z.min (map Qfloor l) (Qfloor a))%Z /\
  (fold_left Z.min (map Qfloor l) (Qfloor a)
   <= fold_left Z.max (map Qfloor l) (Qfloor a))%Z /\
  (fold_left Z.max (map Qfloor l) (Qfloor a) <= 2 ^ 25)%Z.
Proof.
  intros Hall.
  assert (a :: l = map inject_Z (map Qfloor (a :: l)) /\
          Forall (fun z => - 2 ^ 25 <= z <= 2 ^ 25)%Z (map Qfloor (a :: l)))
    as [Hlist Hbounds].
  { induction Hall as [|v vs (z & -> & Hz) _ [IH1 IH2]]; [split; constructor|].
    cbn [map]. rewrite Qfloor_Z. split; [f_equal; exact IH1|].
    constructor; [lia | exact IH2]. }
  cbn [map] in Hlist, Hbounds. injection Hlist as Ha Hl.
  pose proof (fold_Zmax_bounds _ _ _ _ Hbounds) as Hmax.
  pose proof (fold_Zmin_bounds _ _ _ _ Hbounds) as Hmin.
  split; [|split; [|lia]].
  - rewrite Hl at 1. apply fold_max_inject. rewrite Ha at 1. reflexivity.
  - rewrite Hl at 1. apply fold_min_inject. rewrite Ha at 1. reflexivity.
Qed.

Section ShapeProperties.

Import Collector.

(** X6.  On a capture of points with integer coordinates of magnitude at
    most [2^25], of which there is at least one, the reported width,
    height and area are the ones numpy computes in int64, and nothing
    wraps: the box is the bounding box of the point cloud.  Width and
    height are not negative, the area is their product, every point lies
    within half the width of [center_x] and half the height of
    [center_y], and the aspect ratio is not negative, and 0 for a box of
    height 0. *)
Theorem bounding_box_contains_points (strokes : list Stroke) (p : Point) :
  Spec.integer_points strokes ->
  p ∈ concat (map points_get strokes) ->
  exists c box w h ar asp cx cy,
    _calculate_shape_features strokes = Ok c /\
    Int64.bounding_box strokes = Some box /\
    c !! "width" = Some (Some w) /\
    c !! "height" = Some (Some h) /\
    c !! "area" = Some (Some ar) /\
    c !! "aspect_ratio" = Some (Some asp) /\
    c !! "center_x" = Some (Some cx) /\
    c !! "center_y" = Some (Some cy) /\
    w == inject_Z (Int64.width box) /\
    h == inject_Z (Int64.height box) /\
    ar == inject_Z (Int64.area box) /\
    0 <= w /\ 0 <= h /\ ar == w * h /\
    cx - w / 2 <= x p <= cx + w / 2 /\
    cy - h / 2 <= y p <= cy + h / 2 /\
    0 <= asp /\
    (h == 0 -> asp == 0).
Proof.
  intros Hint Hp. unfold _calculate_shape_features, Int64.bounding_box, Int64.all_points.
  unfold Spec.integer_points in Hint.
  destruct (concat (map points_get strokes)) as [|q ps] eqn:Hcloud.
  { apply elem_of_nil in Hp. contradiction. }
  cbn [map Np.max Np.min fst snd]. run. rewrite !map_map. cbn [fst snd].
  assert (Forall Spec.small_int (x q :: map x ps) /\
          Forall Spec.small_int (y q :: map y ps)) as [Hxs Hys].
  { change (x q :: map x ps) with (map x (q :: ps)).
    change (y q :: map y ps) with (map y (q :: ps)).
    split; apply Forall_fmap; (eapply Forall_impl; [exact Hint|]);
      intros pt [Hx Hy]; assumption. }
  destruct (axis_extremes _ _ Hxs) as (Hmaxx & Hminx & Hx1 & Hx2 & Hx3).
  destruct (axis_extremes _ _ Hys) as (Hmaxy & Hminy & Hy1 & Hy2 & Hy3).
  rewrite map_map in Hmaxx, Hminx, Hx1, Hx2, Hx3, Hmaxy, Hminy, Hy1, Hy2, Hy3.
  assert (x p ∈ x q :: map x ps) as Hx.
  { change (x q :: map x ps) with (map x (q :: ps)). apply list_elem_of_fmap_2, Hp. }
  assert (y p ∈ y q :: map y ps) as Hy.
  { change (y q :: map y ps) with (map y (q :: ps)). apply list_elem_of_fmap_2, Hp. }
  pose proof (fold_max_mem _ _ _ Hx) as Hxmax.
  pose proof (fold_min_mem _ _ _ Hx) as Hxmin.
  pose proof (fold_max_mem _ _ _ Hy) as Hymax.
  pose proof (fold_min_mem _ _ _ Hy) as Hymin.
  set (max_x := fold_left Qmax (map x ps) (x q)) in *.
  set (min_x := fold_left Qmin (map x ps) (x q)) in *.
  set (max_y := fold_left Qmax (map y ps) (y q)) in *.
  set (min_y := fold_left Qmin (map y ps) (y q)) in *.
  set (zmax_x := fold_left Z.max (map (fun pt => Qfloor (x pt)) ps) (Qfloor (x q))) in *.
  set (zmin_x := fold_left Z.min (map (fun pt => Qfloor (x pt)) ps) (Qfloor (x q))) in *.
  set (zmax_y := fold_left Z.max (map (fun pt => Qfloor (y pt)) ps) (Qfloor (y q))) in *.
  set (zmin_y := fold_left Z.min (map (fun pt => Qfloor (y pt)) ps) (Qfloor (y q))) in *.
  assert (Int64.wrap (zmax_x - zmin_x) = (zmax_x - zmin_x)%Z) as Ewx
    by (apply wrap_small; lia).
  assert (Int64.wrap (zmax_y - zmin_y) = (zmax_y - zmin_y)%Z) as Ewy
    by (apply wrap_small; lia).
  rewrite Ewx, Ewy.
  assert (Int64.wrap ((zmax_x - zmin_x) * (zmax_y - zmin_y))
          = ((zmax_x - zmin_x) * (zmax_y - zmin_y))%Z) as Ear.
  { apply wrap_small. nia. }
  rewrite Ear.
  assert (max_x - min_x == inject_Z (zmax_x - zmin_x)) as Hwz.
  { rewrite Hmaxx, Hminx. unfold Z.sub, Qminus.
    rewrite inject_Z_plus, inject_Z_opp. reflexivity. }
  assert (max_y - min_y == inject_Z (zmax_y - zmin_y)) as Hhz.
  { rewrite Hmaxy, Hminy. unfold Z.sub, Qminus.
    rewrite inject_Z_plus, inject_Z_opp. reflexivity. }
  assert (0 <= max_x - min_x) as Hw by lra.
  assert (0 <= max_y - min_y) as Hh by lra.
  assert ((min_x + max_x) / 2 - (max_x - min_x) / 2 == min_x) as Hlx by field.
  assert ((min_x + max_x) / 2 + (max_x - min_x) / 2 == max_x) as Hrx by field.
  assert ((min_y + max_y) / 2 - (max_y - min_y) / 2 == min_y) as Hly by field.
  assert ((min_y + max_y) / 2 + (max_y - min_y) / 2 == max_y) as Hry by field.
  destruct (Py.gt (max_y - min_y) 0) eqn:Hgt.
  - apply gt_true in Hgt. rewrite div_Ok by lra. run.
    eexists _, _, _, _, _, _, _, _. split; [reflexivity|]. split; [reflexivity|].
    do 6 (split; [reflexivity|]). cbn [Int64.width Int64.height Int64.area].
    split; [exact Hwz|]. split; [exact Hhz|].
    split; [rewrite inject_Z_mult, Hwz, Hhz; reflexivity|].
    split; [exact Hw|]. split; [exact Hh|]. split; [reflexivity|].
    split; [rewrite Hlx, Hrx; split; assumption|].
    split; [rewrite Hly, Hry; split; assumption|].
    split; [apply Qle_shift_div_l; lra | intros H0; lra].
  - apply gt_false in Hgt. run.
    eexists _, _, _, _, _, _, _, _. split; [reflexivity|]. split; [reflexivity|].
    do 6 (split; [reflexivity|]). cbn [Int64.width Int64.height Int64.area].
    split; [exact Hwz|]. split; [exact Hhz|].
    split; [rewrite inject_Z_mult, Hwz, Hhz; reflexivity|].
    split; [exact Hw|]. split; [exact Hh|]. split; [reflexivity|].
    split; [rewrite Hlx, Hrx; split; assumption|].
    split; [rewrite Hly, Hry; split; assumption|].
    split; [lra | intros _; reflexivity].
Qed.

End ShapeProperties.

Lemma fold_min_glb (m : Q) (l : list Q) (a : Q) :
  Forall (Qle m) (a :: l) -> m <= fold_left Qmin l a.
Proof.
  revert a. induction l as [|b l IH]; intros a Hall.
  - apply Forall_cons in Hall as [Ha _]. exact Ha.
  - apply Forall_cons in Hall as [Ha Hall]. apply Forall_cons in Hall as [Hb Hall].
    cbn [fold_left]. apply IH. constructor; [|exact Hall].
    apply Q.min_glb; assumption.
Qed.

(** The mean of a non-empty list lies between its minimum and maximum. *)
Lemma std_nonneg (sqrt : Q -> Q) (a : Q) (l : list Q) (sd : Q) :
  (forall q, 0 <= q -> 0 <= sqrt q) ->
  Np.std sqrt (a :: l) = Ok sd -> 0 <= sd.
Proof.
  intros Hsqrt. unfold Np.std. rewrite mean_cons. run. cbn [map].
  rewrite mean_cons. run. intros [= <-]. apply Hsqrt.
  apply (mean_nonneg _ (map _ l)).
  constructor; [apply Qsqr_nonneg|].
  apply Forall_fmap, Forall_forall. intros v _. apply Qsqr_nonneg.
Qed.

Section VelocityOrder.

Import Collector.

Variable sqrt : Q -> Q.
Hypothesis sqrt_nonneg : forall q, 0 <= q -> 0 <= sqrt q.

(** X7.  On a capture whose coordinates have magnitude at most [2^25] and
    whose timestamps have magnitude at most [2^52], the four velocity
    features are present and not negative, and
    [min_velocity <= max_velocity]. *)
Theorem velocity_features_nonneg (strokes : list Stroke) :
  Spec.points_in_range strokes ->
  exists c lo avg hi sd,
    _calculate_velocity_features sqrt strokes = Ok c /\
    c !! "min_velocity" = Some (Some lo) /\
    c !! "average_velocity" = Some (Some avg) /\
    c !! "max_velocity" = Some (Some hi) /\
    c !! "velocity_std" = Some (Some sd) /\
    0 <= lo /\ lo <= hi /\ 0 <= avg /\ 0 <= sd.
Proof.
  intros _. unfold _calculate_velocity_features.
  pose proof (stroke_velocities_nonneg sqrt strokes) as Hnonneg.
  rewrite stroke_velocities_eq in *. run.
  destruct (concat _) as [|v vs].
  - run. eexists _, _, _, _, _. split; [reflexivity|].
    do 4 (split; [reflexivity|]). repeat split; lra.
  - specialize (Hnonneg _ sqrt_nonneg eq_refl).
    rewrite mean_cons. run. cbn [Np.max Np.min]. run.
    destruct (std_cons sqrt v vs) as [sd Hsd]. rewrite Hsd. run.
    eexists _, _, _, _, _. split; [reflexivity|].
    do 4 (split; [reflexivity|]).
    split; [apply fold_min_glb, Hnonneg|]. split; [apply fold_min_le_max|].
    split; [apply mean_nonneg, Hnonneg|]. eapply std_nonneg; eassumption.
Qed.

End VelocityOrder.

(** ** [collect_signature_data.py]: optional fields and errors *)

Section ExtractionErrors.

Import Collector.

Variable sqrt : Q -> Q.



Lemma omap_duration_nil (strokes : list Stroke) :
  omap stroke_duration strokes = [] <->
  Forall (fun s => startTime s = None \/ endTime s = None) strokes.
Proof.
  induction strokes as [|s strokes IH].
  - split; [constructor | reflexivity].
  - cbn [omap list_omap]. unfold stroke_duration at 1.
    destruct (startTime s) as [st|] eqn:Hst, (endTime s) as [en|] eqn:Hen.
    + split; [discriminate|]. intros H. apply Forall_cons in H as [[?|?] _]; congruence.
    + rewrite IH. split; intros H.
      * constructor; [right; exact Hen | exact H].
      * apply Forall_cons in H as [_ H]. exact H.
    + rewrite IH. split; intros H.
      * constructor; [left; exact Hst | exact H].
      * apply Forall_cons in H as [_ H]. exact H.
    + rewrite IH. split; intros H.
      * constructor; [left; exact Hst | exact H].
      * apply Forall_cons in H as [_ H]. exact H.
Qed.

(** X9.  The optional fields are absent exactly when there is nothing
    to compute them from: [center_x] and [center_y] are missing from the
    shape features when the capture has no point at all, and
    [average_stroke_duration] and [duration_variation] are missing from
    the stroke features when no stroke has both [startTime] and
    [endTime]. *)
Theorem optional_fields_absent (strokes : list Stroke) :
  exists shape stroke,
    _calculate_shape_features strokes = Ok shape /\
    _calculate_stroke_features sqrt strokes = Ok stroke /\
    (shape !! "center_x" = None <-> concat (map points_get strokes) = []) /\
    (shape !! "center_y" = None <-> concat (map points_get strokes) = []) /\
    (stroke !! "average_stroke_duration" = None <->
       Forall (fun s => startTime s = None \/ endTime s = None) strokes) /\
    (stroke !! "duration_variation" = None <->
       Forall (fun s => startTime s = None \/ endTime s = None) strokes).
Proof.
  assert (exists shape, _calculate_shape_features strokes = Ok shape /\
            (shape !! "center_x" = None <-> concat (map points_get strokes) = []) /\
            (shape !! "center_y" = None <-> concat (map points_get strokes) = []))
    as (shape & Hshape & Hcx & Hcy).
  { unfold _calculate_shape_features.
    destruct (concat (map points_get strokes)) as [|p ps].
    - run. eexists. split; [reflexivity|]. split; split; reflexivity.
    - cbn [map Np.max Np.min]. run.
      destruct (Py.gt _ 0) eqn:Hgt.
      + apply gt_true in Hgt. rewrite div_Ok by lra. run.
        eexists. split; [reflexivity|]. split; split; discriminate.
      + run. eexists. split; [reflexivity|]. split; split; discriminate. }
  assert (exists stroke, _calculate_stroke_features sqrt strokes = Ok stroke /\
            (stroke !! "average_stroke_duration" = None <->
               omap stroke_duration strokes = []) /\
            (stroke !! "duration_variation" = None <->
               omap stroke_duration strokes = []))
    as (stroke & Hstroke & Hda & Hdv).
  { unfold _calculate_stroke_features.
    set (lengths := map _ strokes).
    assert (exists avg var,
      match lengths with [] => mret 0 | _ :: _ => Np.mean lengths end = Ok avg /\
      match lengths with [] => mret 0 | _ :: _ => Np.std sqrt lengths end = Ok var)
      as (avg & var & -> & ->).
    { destruct lengths as [|a l]; [by do 2 eexists|].
      destruct (std_cons sqrt a l) as [sd ->]. rewrite mean_cons. eauto. }
    run. destruct (omap stroke_duration strokes) as [|d ds].
    - run. eexists. split; [reflexivity|]. split; split; reflexivity.
    - rewrite mean_cons. run. destruct (std_cons sqrt d ds) as [sd ->]. run.
      eexists. split; [reflexivity|]. split; split; discriminate. }
  exists shape, stroke. split; [exact Hshape|]. split; [exact Hstroke|].
  split; [exact Hcx|]. split; [exact Hcy|].
  rewrite <- omap_duration_nil. split; assumption.
Qed.

End ExtractionErrors.

(** ** [collect_signature_data.py]: the collector's history *)

Section History.

Import Collector.

Variable sqrt : Q -> Q.

(** X11.  [save_signature] appends one record and keeps the earlier ones.
    A record saved for another user, or with a type other than
    ['genuine'], leaves the consistency analysis of a user unchanged; a
    genuine record of that user extends the analysed history by exactly
    this record. *)
Theorem save_signature_frame (collector collector' : list SignatureRecord)
    (signature_data : SignatureData) (uid ty : string) (f : Features)
    (uid0 : string) :
  save_signature sqrt collector signature_data uid ty = Ok (collector', f) ->
  let record := {| user_id := uid; type := ty;
                   raw_data := signature_data; features := f |} in
  let history (c : list SignatureRecord) :=
    filter (fun s => user_id s = uid0 /\ type s = "genuine") c in
  collector' = collector ++ [record] /\
  process_signature sqrt signature_data = Ok f /\
  (uid <> uid0 \/ ty <> "genuine" ->
     history collector' = history collector /\
     analyze_consistency sqrt collector' uid0
     = analyze_consistency sqrt collector uid0) /\
  (uid = uid0 /\ ty = "genuine" ->
     history collector' = history collector ++ [record]).
Proof.
  intros Hsave record history. unfold save_signature in Hsave.
  apply bind_Ok_inv in Hsave as (f' & Hf' & Hret). injection Hret as <- <-.
  fold record. split; [reflexivity|]. split; [exact Hf'|].
  assert (history (collector ++ [record])
          = history collector ++ history [record]) as Happ.
  { unfold history. apply filter_app. }
  split.
  - intros Hother.
    assert (history (collector ++ [record]) = history collector) as Hsame.
    { rewrite Happ. unfold history at 2. rewrite filter_cons_False.
      - rewrite filter_nil. apply app_nil_r.
      - cbn [user_id type record]. intros [-> ->]. destruct Hother; congruence. }
    split; [exact Hsame|].
    unfold analyze_consistency. fold (history (collector ++ [record])).
    fold (history collector). rewrite Hsame. reflexivity.
  - intros [-> ->]. rewrite Happ. unfold history at 2.
    rewrite filter_cons_True by (cbn [user_id type record]; split; reflexivity).
    rewrite filter_nil. reflexivity.
Qed.

End History.

Section ScoreBound.

Import Collector.

Variable sqrt : Q -> Q.
Hypothesis sqrt_nonneg : forall q, 0 <= q -> 0 <= sqrt q.

Lemma consistency_le_1 (values : list Q) (c : Q) :
  consistency sqrt values = Ok c -> c <= 1.
Proof.
  unfold consistency. destruct values as [|v values]; [discriminate|].
  rewrite mean_cons. run.
  destruct (Py.gt _ 0) eqn:Hm; run.
  - apply gt_true in Hm.
    destruct (std_cons sqrt v values) as [sd Hsd]. rewrite Hsd. run.
    rewrite div_Ok by lra. run. intros [= <-].
    pose proof (std_nonneg sqrt v values sd sqrt_nonneg Hsd) as Hsd0.
    assert (0 <= sd / (Py.sum (v :: values) / Py.len (v :: values))).
    { apply Qle_shift_div_l; [exact Hm|]. lra. }
    lra.
  - intros [= <-]. lra.
Qed.

(** X12.  Whatever the history holds, none of the three consistency
    scores of a report exceeds 1. *)
Theorem consistency_scores_at_most_one (signatures : list SignatureRecord)
    (uid : string) (r : ConsistencyReport) :
  analyze_consistency sqrt signatures uid = Ok (Report r) ->
  velocity_consistency r <= 1 /\
  stroke_count_consistency r <= 1 /\
  area_consistency r <= 1.
Proof.
  unfold analyze_consistency. destruct (bool_decide _); [discriminate|].
  intros H.
  apply bind_Ok_inv in H as (vs & _ & H).
  apply bind_Ok_inv in H as (ns & _ & H).
  apply bind_Ok_inv in H as (ars & _ & H).
  apply bind_Ok_inv in H as (vc & Hvc & H).
  apply bind_Ok_inv in H as (nc & Hnc & H).
  apply bind_Ok_inv in H as (ac & Hac & H).
  injection H as <-.
  cbn [velocity_consistency stroke_count_consistency area_consistency].
  repeat split; eapply consistency_le_1; eassumption.
Qed.

End ScoreBound.


Section SinglePoint.

Import Collector.

Variable sqrt : Q -> Q.
Hypothesis sqrt_0 : forall q, q == 0 -> sqrt q == 0.





End SinglePoint.

(** ** [api_server.py]: collecting and analysing *)

Section ApiServerProofs.

Import ApiServer.

Variable sqrt : Q -> Q.

Lemma convert_well_formed (data : CollectRequest) : Spec.well_formed (convert data).
Proof.
  unfold Spec.well_formed, convert. cbn [Collector.strokes default from_option id].
  destruct (signaturePadData data) as [pad|]; [|constructor].
  apply Forall_fmap, Forall_forall. intros stroke _. cbn. eauto.
Qed.

(** X14.  Whatever the request body lacks, the capture built from it has
    a point list, a [startTime] and an [endTime] in every stroke and a
    [time] in every point.  When the features have been extracted, exactly
    one record has been appended to the collector: these features with the
    capture, under the posted user and type, or under ['unknown'] and
    ['genuine'] when they are missing. *)
Theorem collect_signature_saves_with_defaults
    (collector : list Collector.SignatureRecord) (data : CollectRequest) :
  Forall (fun stroke =>
            is_Some (Collector.startTime stroke) /\
            is_Some (Collector.endTime stroke) /\
            exists pts, Collector.points stroke = Some pts /\
                        Forall (fun pt => is_Some (Collector.time pt)) pts)
         (default [] (Collector.strokes (convert data))) /\
  forall collector' f,
    collect_signature sqrt collector data = Ok (collector', f) ->
    Collector.process_signature sqrt (convert data) = Ok f /\
    collector'
    = collector ++ [ {| Collector.user_id := default "unknown" (userId data);
                        Collector.type := default "genuine" (type data);
                        Collector.raw_data := convert data;
                        Collector.features := f |} ].
Proof.
  split.
  - unfold convert. cbn [Collector.strokes default from_option id].
    destruct (signaturePadData data) as [pad|]; [|constructor].
    apply Forall_fmap, Forall_forall. intros stroke _. cbn.
    split; [eauto|]. split; [eauto|]. eexists. split; [reflexivity|].
    apply Forall_forall. intros pt Hpt.
    apply elem_of_lookup_imap_1 in Hpt as (i & pad_pt & -> & _). cbn. eauto.
  - intros collector' f Hsave.
    unfold collect_signature, Collector.save_signature in Hsave.
    apply bind_Ok_inv in Hsave as (f' & Hf' & Hret).
    injection Hret as <- <-. split; [exact Hf' | reflexivity].
Qed.

Lemma estimated_step (k : nat) :
  Py.max (inject_Z (Z.of_nat (S k)) * 10 - inject_Z (Z.of_nat k) * 10) 1 == 10.
Proof.
  rewrite max_Qmax, Nat2Z.inj_succ, <- Z.add_1_r, inject_Z_plus.
  change (inject_Z 1) with 1.
  assert ((inject_Z (Z.of_nat k) + 1) * 10 - inject_Z (Z.of_nat k) * 10 == 10) as ->
    by ring.
  apply Q.max_l. discriminate.
Qed.

Lemma consecutive_lookup {A} (l : list A) (pp : A * A) :
  pp ∈ Collector.consecutive l ->
  exists i, l !! i = Some pp.1 /\ l !! S i = Some pp.2.
Proof.
  induction l as [|a l IH]; [intros H; apply elem_of_nil in H; contradiction|].
  destruct l as [|b l]; [intros H; apply elem_of_nil in H; contradiction|].
  change (Collector.consecutive (a :: b :: l))
    with ((a, b) :: Collector.consecutive (b :: l)).
  intros H. apply elem_of_cons in H as [->|H].
  - exists 0%nat. split; reflexivity.
  - destruct (IH H) as (i & H1 & H2). exists (S i). split; assumption.
Qed.

Lemma estimated_time_diffs (pts : list PadPoint) :
  Forall (fun pt => time pt = None) pts ->
  Forall (fun pp => Collector.time_diff pp.1 pp.2 == 10)
         (Collector.consecutive (imap convert_point pts)).
Proof.
  intros Hpts. apply Forall_forall. intros [p1 p2] Hpp.
  apply consecutive_lookup in Hpp as (i & H1 & H2). cbn [fst snd] in *.
  rewrite list_lookup_imap in H1, H2.
  destruct (pts !! i) as [a|] eqn:Ha; [|discriminate].
  destruct (pts !! S i) as [b|] eqn:Hb; [|discriminate].
  injection H1 as <-. injection H2 as <-.
  rewrite Forall_forall in Hpts.
  pose proof (Hpts a (list_elem_of_lookup_2 _ _ _ Ha)) as Hta.
  pose proof (Hpts b (list_elem_of_lookup_2 _ _ _ Hb)) as Htb.
  unfold Collector.time_diff, convert_point. cbn [Collector.time].
  rewrite Hta, Htb. cbn [default from_option id]. apply estimated_step.
Qed.

(** X15.  Points posted without a [time] are stamped [index * 10]; in a
    stroke where no point has a time, every velocity is therefore the
    distance between the two points divided by 10. *)
Theorem estimated_times_velocity (stroke : PadStroke) :
  Forall (fun pt => time pt = None) (default [] (points stroke)) ->
  exists vs,
    Collector.stroke_velocities sqrt [convert_stroke stroke] = Ok vs /\
    Forall2 (fun v pp => v == Collector.distance sqrt pp.1 pp.2 / 10) vs
      (Collector.consecutive (imap convert_point (default [] (points stroke)))).
Proof.
  intros Hpts. rewrite stroke_velocities_eq. eexists. split; [reflexivity|].
  cbn [map concat]. rewrite app_nil_r.
  change (Collector.points_get (convert_stroke stroke))
    with (imap convert_point (default [] (points stroke))).
  pose proof (estimated_time_diffs _ Hpts) as Hdiffs.
  apply Forall2_fmap_l, Forall_Forall2_diag.
  eapply Forall_impl; [exact Hdiffs|].
  intros [p1 p2] Hpp. unfold compose. cbn beta in *. cbn [fst snd] in *.
  rewrite Hpp. reflexivity.
Qed.

Lemma served_reachable (collector : list Collector.SignatureRecord) :
  served sqrt collector -> Collector.reachable sqrt collector.
Proof.
  induction 1 as [|collector data collector' f _ IH Hcollect].
  - apply Collector.reachable_init.
  - eapply Collector.reachable_save; [exact IH | exact Hcollect].
Qed.

(** In a reachable state the analysis returns: the message below two
    genuine records, a report on them otherwise. *)
Lemma analyze_consistency_returns (signatures : list Collector.SignatureRecord)
    (uid : string) :
  Collector.reachable sqrt signatures ->
  let history :=
    filter (fun s => Collector.user_id s = uid /\ Collector.type s = "genuine")
           signatures in
  exists a, Collector.analyze_consistency sqrt signatures uid = Ok a /\
    ((length history < 2)%nat ->
       a = Collector.Message "Need at least 2 signatures to analyze consistency") /\
    ((2 <= length history)%nat ->
       exists r, a = Collector.Report r /\ Collector.sample_count r = length history).
Proof.
  intros Hreach history. unfold Collector.analyze_consistency. fold history.
  destruct (decide (length history < 2)%nat) as [Hlt|Hge].
  - rewrite bool_decide_eq_true_2 by exact Hlt. eexists. split; [reflexivity|].
    split; [reflexivity | lia].
  - rewrite bool_decide_eq_false_2 by exact Hge.
    assert (Forall Collector.has_metrics history) as Hmetrics.
    { apply Forall_forall. intros s Hs. apply list_elem_of_filter in Hs as [_ Hs].
      pose proof (reachable_has_metrics _ _ Hreach) as Hall.
      rewrite Forall_forall in Hall. apply Hall, Hs. }
    destruct (metrics_total history "velocity_features" "average_velocity")
      as (vs & -> & Hvs).
    { eapply Forall_impl; [exact Hmetrics|]. intros s (H & _ & _). exact H. }
    destruct (metrics_total history "basic_stats" "stroke_count")
      as (ns & -> & Hns).
    { eapply Forall_impl; [exact Hmetrics|]. intros s (_ & H & _). exact H. }
    destruct (metrics_total history "shape_features" "area") as (ars & -> & Hars).
    { eapply Forall_impl; [exact Hmetrics|]. intros s (_ & _ & H). exact H. }
    run.
    destruct vs as [|v vs]; [cbn in Hvs; lia|].
    destruct ns as [|n ns]; [cbn in Hns; lia|].
    destruct ars as [|a ars]; [cbn in Hars; lia|].
    destruct (consistency_Ok sqrt v vs) as [vc ->].
    destruct (consistency_Ok sqrt n ns) as [nc ->].
    destruct (consistency_Ok sqrt a ars) as [ac ->]. run.
    eexists. split; [reflexivity|]. split; [lia|]. intros _.
    eexists. split; reflexivity.
Qed.

(** X16.  While the server runs (the collector is changed by
    [collect_signature] only), [analyze_user] never raises: it answers
    the 400 body exactly when [userId] is missing or empty, and otherwise
    the collector's analysis for that user. *)
Theorem analyze_user_never_raises (collector : list Collector.SignatureRecord)
    (user_id : option string) :
  served sqrt collector ->
  exists response,
    analyze_user sqrt collector user_id = Ok response /\
    (response = BadRequest <-> user_id = None \/ user_id = Some "") /\
    (forall uid, user_id = Some uid -> uid <> "" ->
       exists analysis,
         response = Analysis analysis /\
         Collector.analyze_consistency sqrt collector uid = Ok analysis).
Proof.
  intros Hserved. apply served_reachable in Hserved.
  destruct user_id as [uid|].
  - destruct (decide (uid = "")) as [->|Hne].
    + exists BadRequest. split; [reflexivity|]. split.
      * split; [intros _; right; reflexivity | reflexivity].
      * intros uid [= <-] Hne. contradiction.
    + destruct (analyze_consistency_returns collector uid Hserved) as (a & Ha & _).
      exists (Analysis a). split.
      * unfold analyze_user. destruct uid as [|c uid]; [contradiction|].
        rewrite Ha. reflexivity.
      * split.
        -- split; [discriminate|]. intros [?|[= ->]]; [discriminate | contradiction].
        -- intros uid' [= <-] _. exists a. split; [reflexivity | exact Ha].
  - exists BadRequest. split; [reflexivity|]. split.
    + split; [intros _; left; reflexivity | reflexivity].
    + intros uid [=].
Qed.

End ApiServerProofs.

(** ** [Redundant/ml-model/api_server.py]: [get_user_metrics] *)

Section UserMetrics.

Import RedundantApiServer.

Variable sqrt : Q -> Q.

(** X17.  In a reachable collector state, [get_user_metrics] answers
    with the error body for a user with fewer than two genuine records
    (the analysis is then a string, which has no [.get]).  With two or
    more it reports their number as [sampleCount] and the status
    ['active'] from three records on, ['needs_training'] at two; the
    report has none of the other keys it reads, so [consistency],
    [avgDuration], [avgStrokes] and the three variability figures are
    always 0. *)
Theorem get_user_metrics_reports (collector : list Collector.SignatureRecord)
    (uid : string) :
  Collector.reachable sqrt collector ->
  let n :=
    length (filter (fun s => Collector.user_id s = uid /\
                             Collector.type s = "genuine") collector) in
  ((n < 2)%nat ->
     get_user_metrics sqrt collector uid = MetricsError AttributeError uid) /\
  ((2 <= n)%nat ->
     exists m, get_user_metrics sqrt collector uid = Metrics m /\
       userId m = uid /\
       sampleCount m = inject_Z (Z.of_nat n) /\
       consistency m = 0 /\ avgDuration m = 0 /\ avgStrokes m = 0 /\
       variability_duration m = 0 /\ variability_strokes m = 0 /\
       variability_velocity m = 0 /\
       (status m = "active" <-> (3 <= n)%nat) /\
       (status m = "needs_training" <-> n = 2%nat)).
Proof.
  intros Hreach n.
  destruct (analyze_consistency_returns sqrt collector uid Hreach)
    as (a & Ha & Hlt & Hge).
  fold n in Hlt, Hge. unfold get_user_metrics. rewrite Ha. split.
  - intros Hn. rewrite (Hlt Hn). reflexivity.
  - intros Hn. destruct (Hge Hn) as (r & -> & Hcount).
    eexists. split; [reflexivity|].
    cbn [userId sampleCount consistency avgDuration avgStrokes
         variability_duration variability_strokes variability_velocity status].
    assert (Py.get (report_dict r) "sample_count" 0 = inject_Z (Z.of_nat n)) as ->.
    { rewrite <- Hcount. reflexivity. }
    split; [reflexivity|]. split; [reflexivity|].
    do 6 (split; [reflexivity|]).
    destruct (Qle_bool 3 (inject_Z (Z.of_nat n))) eqn:Hle.
    + apply Qle_bool_iff in Hle. change 3 with (inject_Z 3) in Hle.
      rewrite <- Zle_Qle in Hle. split; split; intros; (reflexivity || lia || discriminate).
    + assert (~ 3 <= inject_Z (Z.of_nat n)) as Hnle.
      { intros H. apply Qle_bool_iff in H. congruence. }
      change 3 with (inject_Z 3) in Hnle. rewrite <- Zle_Qle in Hnle.
      split; split; intros; (reflexivity || lia || discriminate).
Qed.

End UserMetrics.

(** ** Model artifacts: [save_model] and [load_latest_model] *)

Section ArtifactPaths.

Import Artifacts.

Lemma append_cons (ch : Ascii.ascii) (a b : string) :
  String ch a +:+ b = String ch (a +:+ b).
Proof. reflexivity. Qed.

Lemma append_nil (b : string) : EmptyString +:+ b = b.
Proof. reflexivity. Qed.

Lemma append_assoc (a b c : string) : (a +:+ b) +:+ c = a +:+ (b +:+ c).
Proof.
  induction a as [|ch a IH]; [reflexivity|]. rewrite !append_cons, IH. reflexivity.
Qed.

Lemma length_append (a b : string) :
  String.length (a +:+ b) = (String.length a + String.length b)%nat.
Proof.
  induction a as [|ch a IH]; [reflexivity|].
  rewrite append_cons. cbn [String.length]. rewrite IH. reflexivity.
Qed.

Lemma substring_prefix (a b : string) :
  String.substring 0 (String.length a) (a +:+ b) = a.
Proof.
  induction a as [|ch a IH]; [destruct b; reflexivity|].
  rewrite append_cons. cbn [String.length String.substring]. rewrite IH. reflexivity.
Qed.

Lemma contains_append (c : Ascii.ascii) (a b : string) :
  PyStr.contains c (a +:+ b) = PyStr.contains c a || PyStr.contains c b.
Proof.
  induction a as [|ch a IH]; [reflexivity|].
  rewrite append_cons. cbn [PyStr.contains]. rewrite IH. apply orb_assoc.
Qed.

Lemma split_cons (sep : Ascii.ascii) (s : string) :
  exists piece pieces, PyStr.split sep s = piece :: pieces.
Proof.
  induction s as [|ch s (piece & pieces & IH)]; cbn [PyStr.split]; [eauto|].
  destruct (Ascii.eqb ch sep); [eauto|]. rewrite IH. eauto.
Qed.

Lemma split_no_sep (sep : Ascii.ascii) (s : string) :
  PyStr.contains sep s = false -> PyStr.split sep s = [s].
Proof.
  induction s as [|ch s IH]; [reflexivity|]. cbn [PyStr.contains PyStr.split].
  intros H. apply orb_false_iff in H as [Hch Hs].
  rewrite Hch, (IH Hs). reflexivity.
Qed.

(** Splitting at a separator splits the two sides independently. *)
Lemma split_at_sep (sep : Ascii.ascii) (p rest : string) :
  PyStr.split sep (p +:+ String sep rest) = PyStr.split sep p ++ PyStr.split sep rest.
Proof.
  induction p as [|ch p IH].
  - rewrite append_nil. cbn [PyStr.split]. rewrite Ascii.eqb_refl. reflexivity.
  - rewrite append_cons. cbn [PyStr.split].
    destruct (Ascii.eqb ch sep); rewrite IH; [reflexivity|].
    destruct (split_cons sep p) as (piece & pieces & ->). reflexivity.
Qed.

(** X18.  [load_latest_model] recovers the timestamp from the model path
    that [save_model] wrote: for a timestamp [date_time] whose two parts
    contain no underscore (as [strftime('%Y%m%d_%H%M%S')] produces), the
    parsed timestamp is the one saved, so the scaler and feature-name
    files it opens are exactly the ones [save_model] wrote beside the
    model. *)
Theorem timestamp_round_trip (date time : string) :
  PyStr.contains underscore date = false ->
  PyStr.contains underscore time = false ->
  let timestamp := date +:+ "_" +:+ time in
  timestamp_of (model_path timestamp) = timestamp /\
  loaded_scaler_path (model_path timestamp) = scaler_path timestamp /\
  loaded_features_path (model_path timestamp) = feature_path timestamp.
Proof.
  intros Hdate Htime timestamp.
  assert (timestamp_of (model_path timestamp) = timestamp) as Hts.
  { unfold timestamp_of, model_path, timestamp.
    assert ("models/signature_model_" +:+ (date +:+ "_" +:+ time) +:+ ".h5"
            = "models/signature_model"
              +:+ String underscore (date +:+ String underscore (time +:+ ".h5")))
      as ->.
    { change ("models/signature_model_" +:+ ?s)
        with ("models/signature_model" +:+ String underscore s).
      do 2 f_equal. rewrite append_assoc. f_equal. }
    rewrite !split_at_sep.
    rewrite (split_no_sep _ date Hdate).
    rewrite (split_no_sep _ (time +:+ ".h5"))
      by (rewrite contains_append, Htime; reflexivity).
    change (PyStr.split underscore "models/signature_model")
      with ["models/signature"; "model"].
    change (PyStr.last_n 2 (["models/signature"; "model"] ++ [date] ++ [time +:+ ".h5"]))
      with [date; time +:+ ".h5"].
    change (PyStr.join "_" [date; time +:+ ".h5"])
      with (date +:+ "_" +:+ time +:+ ".h5").
    unfold PyStr.drop_last.
    rewrite <- (append_assoc date "_" (time +:+ ".h5")).
    rewrite <- (append_assoc (date +:+ "_") time ".h5").
    rewrite length_append. change (String.length ".h5") with 3%nat.
    rewrite Nat.add_sub, substring_prefix. apply append_assoc. }
  split; [exact Hts|].
  unfold loaded_scaler_path, loaded_features_path. rewrite Hts. split; reflexivity.
Qed.

End ArtifactPaths.

(** ** [train_model_sklearn.py]: [load_training_data] *)

Section TrainingData.

Import Training.

(** One iteration appends one row, one label and one user, and leaves a
    non-empty list of feature names. *)
Lemma load_file_Ok (acc acc' : Loaded) (data : DataFile) :
  load_file acc data = Ok acc' ->
  exists fd ty user,
    features data = Some fd /\ type data = Some ty /\ user_id data = Some user /\
    all_features acc' = all_features acc ++ [VerifySignature._flatten_features fd] /\
    all_labels acc' = all_labels acc ++ [if String.eqb ty "genuine" then 1%Z else 0%Z] /\
    all_users acc' = all_users acc ++ [user] /\
    feature_names acc'
    = match feature_names acc with
      | None | Some [] => Some TrainModelSklearn.FEATURE_NAMES
      | Some (_ :: _) => feature_names acc
      end.
Proof.
  unfold load_file. intros H.
  destruct (features data) as [fd|]; [|discriminate].
  destruct (type data) as [ty|]; [|discriminate].
  destruct (user_id data) as [user|]; [|discriminate].
  run_in H. injection H as <-. exists fd, ty, user.
  do 3 (split; [reflexivity|]). cbn [all_features all_labels all_users feature_names].
  repeat split; reflexivity.
Qed.

Lemma load_files_Ok (files : list DataFile) (acc ld : Loaded) :
  load_files acc files = Ok ld ->
  exists rows labels users,
    all_features ld = all_features acc ++ rows /\
    all_labels ld = all_labels acc ++ labels /\
    all_users ld = all_users acc ++ users /\
    Forall2 (fun data row =>
               exists fd, features data = Some fd /\
                          row = VerifySignature._flatten_features fd) files rows /\
    Forall2 (fun data label =>
               exists ty, type data = Some ty /\
                          label = if String.eqb ty "genuine" then 1%Z else 0%Z)
            files labels /\
    Forall2 (fun data user => user_id data = Some user) files users /\
    feature_names ld
    = match files, feature_names acc with
      | [], names => names
      | _ :: _, (None | Some []) => Some TrainModelSklearn.FEATURE_NAMES
      | _ :: _, Some (n :: ns) => Some (n :: ns)
      end.
Proof.
  revert acc. induction files as [|data files IH]; intros acc H; cbn [load_files] in H.
  - injection H as <-. exists [], [], []. rewrite !app_nil_r.
    repeat split; constructor.
  - apply bind_Ok_inv in H as (acc' & Hfile & Hrest).
    destruct (load_file_Ok _ _ _ Hfile)
      as (fd & ty & user & Hfd & Hty & Huser & Ef & El & Eu & En).
    destruct (IH _ Hrest)
      as (rows & labels & users & Ef' & El' & Eu' & Hrows & Hlabels & Husers & En').
    exists (VerifySignature._flatten_features fd :: rows),
           ((if String.eqb ty "genuine" then 1%Z else 0%Z) :: labels),
           (user :: users).
    rewrite Ef', El', Eu', Ef, El, Eu, <- !app_assoc.
    do 3 (split; [reflexivity|]).
    split; [constructor; eauto|]. split; [constructor; eauto|].
    split; [constructor; eauto|].
    rewrite En', En.
    destruct files; destruct (feature_names acc) as [[|n ns]|]; reflexivity.
Qed.

(** X19.  When [load_training_data] returns, it has one row, one label
    and one user per file, in file order.  Every row is the flattened
    feature vector of its file, as [verify_signature] flattens it, and
    has 19 entries; the label is 1 when the file's type is ['genuine']
    and 0 otherwise; and after at least one file the stored feature
    names are the 19 training names, so rows and names have the same
    length. *)
Theorem load_training_data_shape (files : list DataFile) (ld : Loaded) :
  load_training_data files = Ok ld ->
  Forall2 (fun data row =>
             exists fd, features data = Some fd /\
                        row = VerifySignature._flatten_features fd /\
                        length row = 19%nat)
          files (all_features ld) /\
  Forall2 (fun data label =>
             exists ty, type data = Some ty /\
                        (ty = "genuine" -> label = 1%Z) /\
                        (ty <> "genuine" -> label = 0%Z))
          files (all_labels ld) /\
  Forall2 (fun data user => user_id data = Some user) files (all_users ld) /\
  (files <> [] ->
     feature_names ld = Some TrainModelSklearn.FEATURE_NAMES /\
     Forall (fun row => length row = length TrainModelSklearn.FEATURE_NAMES)
            (all_features ld)).
Proof.
  unfold load_training_data. intros H.
  destruct (load_files_Ok _ _ _ H)
    as (rows & labels & users & Ef & El & Eu & Hrows & Hlabels & Husers & En).
  cbn [all_features all_labels all_users feature_names app] in Ef, El, Eu, En.
  rewrite Ef, El, Eu.
  assert (Forall2 (fun data row =>
             exists fd, features data = Some fd /\
                        row = VerifySignature._flatten_features fd /\
                        length row = 19%nat) files rows) as Hrows'.
  { eapply Forall2_impl; [exact Hrows|]. intros data row (fd & Hfd & ->).
    exists fd. split; [exact Hfd|]. split; [reflexivity|].
    rewrite flatten_as_fields, length_map. reflexivity. }
  split; [exact Hrows'|]. split; [|split; [exact Husers|]].
  - eapply Forall2_impl; [exact Hlabels|]. intros data label (ty & Hty & ->).
    exists ty. split; [exact Hty|]. split.
    + intros ->. reflexivity.
    + intros Hne. apply String.eqb_neq in Hne. rewrite Hne. reflexivity.
  - intros Hfiles. split.
    + rewrite En. destruct files; [contradiction | reflexivity].
    + eapply Forall2_Forall_r; [exact Hrows'|].
      apply Forall_forall. intros data _ row (fd & _ & _ & Hlen). exact Hlen.
Qed.

End TrainingData.

Section RawTrainingData.

Import Raw.TrainModelSklearn.

Lemma load_file_error (acc : Loaded) (file : option Raw.json) :
  match Spec.file_error file with
  | None =>
      exists acc' flat,
        load_file acc file = Ok acc' /\
        all_features acc' = all_features acc ++ [flat] /\
        length flat = 19%nat
  | Some e => load_file acc file = Raise e
  end.
Proof.
  destruct file as [[| | | | |data]|]; try reflexivity.
  unfold Spec.file_error, load_file. cbn [from_option mbind result_bind Raw.getitem].
  destruct (data !! "features") as [features_dict|]; [|reflexivity]. run.
  destruct (Spec.categories_are_dicts features_dict) eqn:Hdicts; cbn [negb].
  - destruct (flatten_dictionaries _ Hdicts) as [_ Hflat].
    destruct (Hflat (feature_names acc)) as [names' ->]. run.
    destruct (data !! "type") as [ty|]; [|reflexivity]. run.
    destruct (data !! "user_id") as [user|]; [|reflexivity]. run.
    cbn [fst snd]. eexists _, _. split; [reflexivity|].
    split; reflexivity.
  - destruct (flatten_raises _ Hdicts) as [_ Hraise].
    rewrite (Hraise (feature_names acc)). reflexivity.
Qed.

Lemma load_files_accepted (files : list (option Raw.json)) (acc : Loaded) :
  Forall (fun file => Spec.file_error file = None) files ->
  exists ld, load_files acc files = Ok ld /\
    length (all_features ld) = (length (all_features acc) + length files)%nat /\
    (Forall (fun row => length row = 19%nat) (all_features acc) ->
     Forall (fun row => length row = 19%nat) (all_features ld)).
Proof.
  intros Hall. revert acc.
  induction Hall as [|file files Hfile _ IH]; intros acc; cbn [load_files length].
  - exists acc. split; [reflexivity|]. split; [lia | auto].
  - pose proof (load_file_error acc file) as Hload. rewrite Hfile in Hload.
    destruct Hload as (acc' & flat & -> & Hrows & Hflat). run.
    destruct (IH acc') as (ld & Hld & Hlen & H19).
    exists ld. split; [exact Hld|]. split.
    + rewrite Hlen, Hrows, length_app. cbn [length]. lia.
    + intros Hacc. apply H19. rewrite Hrows. apply Forall_app.
      split; [exact Hacc|]. constructor; [exact Hflat | constructor].
Qed.

Lemma load_files_rejected (good : list (option Raw.json)) (bad : option Raw.json)
    (rest : list (option Raw.json)) (e : exn) (acc : Loaded) :
  Forall (fun file => Spec.file_error file = None) good ->
  Spec.file_error bad = Some e ->
  load_files acc (good ++ bad :: rest) = Raise e.
Proof.
  intros Hgood Hbad. revert acc.
  induction Hgood as [|file good Hfile _ IH]; intros acc; cbn [app load_files].
  - pose proof (load_file_error acc bad) as Hload. rewrite Hbad in Hload.
    rewrite Hload. reflexivity.
  - pose proof (load_file_error acc file) as Hload. rewrite Hfile in Hload.
    destruct Hload as (acc' & flat & -> & _). run. apply IH.
Qed.

Lemma first_rejected (files : list (option Raw.json)) :
  Forall (fun file => Spec.file_error file = None) files \/
  exists good bad rest e,
    files = good ++ bad :: rest /\
    Forall (fun file => Spec.file_error file = None) good /\
    Spec.file_error bad = Some e.
Proof.
  induction files as [|file files IH]; [left; constructor|].
  destruct (Spec.file_error file) as [e|] eqn:Hfile.
  - right. exists [], file, files, e. split; [reflexivity|].
    split; [constructor | exact Hfile].
  - destruct IH as [Hall|(good & bad & rest & e & -> & Hgood & Hbad)].
    + left. constructor; assumption.
    + right. exists (file :: good), bad, rest, e. split; [reflexivity|].
      split; [constructor; assumption | exact Hbad].
Qed.

(** X20.  The loop of [load_training_data] completes exactly when every
    file parses to a dictionary that has the keys ['features'], ['type']
    and ['user_id'] and whose feature dictionary has dictionaries for
    categories; it has then collected one row of 19 entries per file.
    Otherwise the first file that is not so decides the exception:
    [ValueError] when it does not parse, [TypeError] when it is not a
    dictionary, [KeyError] naming the first missing key, and
    [AttributeError] when its feature dictionary, or one of the
    categories, is not a dictionary. *)
Theorem load_loop_first_bad_file (files : list (option Raw.json)) :
  ((exists ld, load_loop files = Ok ld) <->
   Forall (fun file => Spec.file_error file = None) files) /\
  (forall ld, load_loop files = Ok ld ->
     length (all_features ld) = length files /\
     Forall (fun row => length row = 19%nat) (all_features ld)) /\
  (forall good bad rest e,
     files = good ++ bad :: rest ->
     Forall (fun file => Spec.file_error file = None) good ->
     Spec.file_error bad = Some e ->
     load_loop files = Raise e).
Proof.
  assert (forall good bad rest e,
            files = good ++ bad :: rest ->
            Forall (fun file => Spec.file_error file = None) good ->
            Spec.file_error bad = Some e ->
            load_loop files = Raise e) as Hrejected.
  { intros good bad rest e -> Hgood Hbad.
    apply load_files_rejected; assumption. }
  assert (Forall (fun file => Spec.file_error file = None) files ->
          exists ld, load_loop files = Ok ld /\
            length (all_features ld) = length files /\
            Forall (fun row => length row = 19%nat) (all_features ld))
    as Haccepted.
  { intros Hall. unfold load_loop.
    destruct (load_files_accepted files
                {| all_features := []; all_labels := []; all_users := [];
                   feature_names := Some [] |} Hall) as (ld & Hld & Hlen & H19).
    exists ld. split; [exact Hld|]. split; [exact Hlen|]. apply H19. constructor. }
  split; [|split].
  - split.
    + intros [ld Hld].
      destruct (first_rejected files)
        as [Hall|(good & bad & rest & e & Hfiles & Hgood & Hbad)]; [exact Hall|].
      rewrite (Hrejected _ _ _ _ Hfiles Hgood Hbad) in Hld. discriminate.
    + intros Hall. destruct (Haccepted Hall) as (ld & Hld & _). eauto.
  - intros ld Hld.
    destruct (first_rejected files)
      as [Hall|(good & bad & rest & e & Hfiles & Hgood & Hbad)].
    + destruct (Haccepted Hall) as (ld' & Hld' & Hlen & H19).
      rewrite Hld in Hld'. injection Hld' as <-. split; assumption.
    + rewrite (Hrejected _ _ _ _ Hfiles Hgood Hbad) in Hld. discriminate.
  - exact Hrejected.
Qed.

End RawTrainingData.

Lemma flatten_features_of_dictionaries_witness :
  exists flat,
    Raw.VerifySignature._flatten_features MoreExamples.string_area = Ok flat /\
    length flat = 19%nat /\
    flat !! 0%nat = Some (Raw.JNum 0) /\
    flat !! 10%nat = Some (Raw.JStr "3000").
Proof.
  destruct (proj1 (flatten_features_of_dictionaries MoreExamples.string_area) eq_refl)
    as (Hflat & _ & Hlen & _).
  eexists. split; [exact Hflat|]. split; [exact Hlen|]. split; reflexivity.
Defined.

Lemma predict_failure_cases_witness :
  MlApiServer.predict (Some (Examples.constant_server 1 [0.9]))
    Examples.forgery_request
  = MlApiServer.Failure IndexError.
Proof.
  pose proof (predict_failure_cases (Some (Examples.constant_server 1 [0.9]))
                Examples.forgery_request) as H.
  cbn [MlApiServer.stored_features MlApiServer.current_features
       Examples.forgery_request] in H.
  destruct (diff_features_Ok TrainModelSklearn.FEATURE_NAMES
              Examples.stored_metrics Examples.current_metrics) as (fs & Hfs & _).
  apply (H fs Hfs). cbn. lia.
Defined.


Lemma collect_signature_saves_with_defaults_witness :
  exists collector' f,
    ApiServer.collect_signature Examples.sqrt6 []
      {| ApiServer.userId := None; ApiServer.type := None;
         ApiServer.signaturePadData := Some [MoreExamples.untimed_stroke] |}
    = Ok (collector', f) /\
    Collector.user_id <$> collector' = ["unknown"] /\
    Collector.type <$> collector' = ["genuine"].
Proof.
  set (data := {| ApiServer.userId := None; ApiServer.type := None;
                  ApiServer.signaturePadData := Some [MoreExamples.untimed_stroke] |}).
  destruct (process_signature_Ok Examples.sqrt6 (ApiServer.convert data)
              (convert_well_formed data)) as (f & Hf & _).
  assert (ApiServer.collect_signature Examples.sqrt6 [] data
          = Ok ([ {| Collector.user_id := "unknown"; Collector.type := "genuine";
                     Collector.raw_data := ApiServer.convert data;
                     Collector.features := f |} ], f)) as Hsave.
  { unfold ApiServer.collect_signature, Collector.save_signature.
    rewrite Hf. reflexivity. }
  destruct (proj2 (collect_signature_saves_with_defaults Examples.sqrt6 [] data)
              _ f Hsave) as [_ Hrecord].
  eexists _, f. split; [exact Hsave|]. rewrite Hrecord. split; reflexivity.
Defined.

Lemma load_loop_first_bad_file_witness :
  Raw.TrainModelSklearn.load_loop
    [Some MoreExamples.string_area_file; Some MoreExamples.none_category_file; None]
  = Raise AttributeError.
Proof.
  apply (proj2 (proj2 (load_loop_first_bad_file _))
           [Some MoreExamples.string_area_file]
           (Some MoreExamples.none_category_file) [None] AttributeError).
  - reflexivity.
  - repeat constructor.
  - reflexivity.
Defined.

(** ** The further properties on concrete inputs *)

Lemma example_integer_points :
  Spec.integer_points (default [] (Collector.strokes Examples.example_signature)).
Proof.
  repeat constructor; eexists; (split; [reflexivity | vm_compute; discriminate]).
Qed.

Lemma bounding_box_contains_points_witness :
  exists c w cx,
    Collector._calculate_shape_features
      (default [] (Collector.strokes Examples.example_signature)) = Ok c /\
    c !! "width" = Some (Some w) /\
    c !! "center_x" = Some (Some cx) /\
    cx - w / 2 <= 150 <= cx + w / 2.
Proof.
  destruct (bounding_box_contains_points
              (default [] (Collector.strokes Examples.example_signature))
              MoreExamples.middle_point)
    as (c & box & w & h & ar & asp & cx & cy & Hc & _ & Hw & _ & _ & _ & Hcx & _
        & _ & _ & _ & _ & _ & _ & Hx & _).
  - exact example_integer_points.
  - apply list_elem_of_In. cbn. right. left. reflexivity.
  - exists c, w, cx. split; [exact Hc|]. split; [exact Hw|]. split; [exact Hcx|].
    exact Hx.
Defined.

Lemma example_points_in_range :
  Spec.points_in_range (default [] (Collector.strokes Examples.example_signature)).
Proof.
  repeat constructor; vm_compute; discriminate.
Qed.

Lemma velocity_features_nonneg_witness :
  exists c lo hi,
    Collector._calculate_velocity_features Examples.sqrt6
      (default [] (Collector.strokes Examples.example_signature)) = Ok c /\
    c !! "min_velocity" = Some (Some lo) /\
    c !! "max_velocity" = Some (Some hi) /\
    0 <= lo /\ lo <= hi.
Proof.
  destruct (velocity_features_nonneg Examples.sqrt6 sqrt6_nonneg
              (default [] (Collector.strokes Examples.example_signature))
              example_points_in_range)
    as (c & lo & avg & hi & sd & Hc & Hlo & _ & Hhi & _ & H0 & H1 & _).
  exists c, lo, hi. repeat (split; [assumption|]). assumption.
Defined.

Lemma save_signature_frame_witness :
  exists collector',
    Collector.reachable Examples.sqrt6 collector' /\
    Collector.analyze_consistency Examples.sqrt6 collector' "bob"
    = Collector.analyze_consistency Examples.sqrt6 [] "bob".
Proof.
  destruct example_saves as (f & Hsave & _ & Hr1 & _). cbv zeta in Hsave.
  destruct (save_signature_frame Examples.sqrt6 _ _ _ _ _ _ "bob" Hsave)
    as (_ & _ & Hother & _).
  eexists. split; [exact Hr1|]. apply Hother. left. discriminate.
Defined.

Lemma consistency_scores_at_most_one_witness :
  exists st r,
    Collector.analyze_consistency Examples.sqrt6 st "user123"
    = Ok (Collector.Report r) /\
    Collector.velocity_consistency r <= 1 /\
    Collector.stroke_count_consistency r <= 1 /\
    Collector.area_consistency r <= 1.
Proof.
  destruct example_saves as (f & _ & _ & _ & Hr2).
  destruct (analyze_consistency_returns Examples.sqrt6 _ "user123" Hr2)
    as (a & Ha & _ & Hge).
  destruct Hge as (r & -> & _); [vm_compute; lia|].
  eexists _, r. split; [exact Ha|].
  exact (consistency_scores_at_most_one Examples.sqrt6 sqrt6_nonneg _ _ _ Ha).
Defined.


Lemma estimated_times_velocity_witness :
  exists vs,
    Collector.stroke_velocities Examples.sqrt6
      [ApiServer.convert_stroke MoreExamples.untimed_stroke] = Ok vs /\
    length vs = 2%nat.
Proof.
  destruct (estimated_times_velocity Examples.sqrt6 MoreExamples.untimed_stroke)
    as (vs & Hvs & Hall).
  - repeat constructor.
  - exists vs. split; [exact Hvs|].
    apply Forall2_length in Hall. rewrite Hall. reflexivity.
Defined.

Lemma analyze_user_never_raises_witness :
  ApiServer.analyze_user Examples.sqrt6 [] (Some "alice")
  = Ok (ApiServer.Analysis
          (Collector.Message "Need at least 2 signatures to analyze consistency")).
Proof.
  destruct (analyze_user_never_raises Examples.sqrt6 [] (Some "alice")
              (ApiServer.served_start Examples.sqrt6))
    as (response & Hresponse & _ & Hanalysis).
  destruct (Hanalysis "alice" eq_refl) as (analysis & -> & Ha); [discriminate|].
  rewrite Hresponse. injection Ha as <-. reflexivity.
Defined.

Lemma get_user_metrics_reports_witness :
  exists st m,
    Collector.reachable Examples.sqrt6 st /\
    RedundantApiServer.get_user_metrics Examples.sqrt6 st "user123"
    = RedundantApiServer.Metrics m /\
    RedundantApiServer.sampleCount m = 2 /\
    RedundantApiServer.consistency m = 0.
Proof.
  destruct example_saves as (f & _ & _ & _ & Hr2).
  destruct (get_user_metrics_reports Examples.sqrt6 _ "user123" Hr2) as [_ Hge].
  destruct Hge as (m & Hm & _ & Hcount & Hcons & _); [vm_compute; lia|].
  eexists _, m. split; [exact Hr2|]. split; [exact Hm|]. split; [exact Hcount|].
  exact Hcons.
Defined.

Lemma timestamp_round_trip_witness :
  Artifacts.timestamp_of "models/signature_model_20250718_201827.h5"
  = "20250718_201827" /\
  Artifacts.loaded_scaler_path "models/signature_model_20250718_201827.h5"
  = "models/scaler_20250718_201827.pkl".
Proof.
  destruct (timestamp_round_trip "20250718" "201827" eq_refl eq_refl)
    as (Hts & Hscaler & _).
  split; [exact Hts | exact Hscaler].
Defined.

Lemma load_training_data_shape_witness :
  exists ld,
    Training.load_training_data MoreExamples.data_files = Ok ld /\
    Training.feature_names ld = Some TrainModelSklearn.FEATURE_NAMES /\
    Forall (fun row => length row = 19%nat) (Training.all_features ld).
Proof.
  destruct (Training.load_training_data MoreExamples.data_files) as [ld|e] eqn:Hld;
    [|vm_compute in Hld; discriminate].
  destruct (load_training_data_shape _ _ Hld) as (_ & _ & _ & Hnames).
  destruct Hnames as [Hnames Hrows]; [discriminate|].
  exists ld. split; [reflexivity|]. split; [exact Hnames | exact Hrows].
Defined.

(** ** [test_all_signatures]: the counters and the accuracy *)

Section Accuracy.

Import TestAll.

Variable sqrt : Q -> Q.

Lemma count_file_step (verifier : VerifySignature.Verifier)
    (counts : nat * nat) (file : option SavedFile) :
  let counts' := count_file sqrt verifier counts file in
  (counts.1 <= counts.2 -> counts'.1 <= counts'.2)%nat /\
  (counts'.2 = counts.2 \/ counts'.2 = S counts.2) /\
  (check_file sqrt verifier file = Ok true -> counts'.1 = S counts.1) /\
  (check_file sqrt verifier file <> Ok true -> counts'.1 = counts.1).
Proof.
  unfold count_file.
  destruct (check_file sqrt verifier file) as [[|]|e]; cbn [fst snd];
    repeat split; intros; try congruence; try lia; auto.
Qed.

Lemma count_files_bounds (verifier : VerifySignature.Verifier)
    (files : list (option SavedFile)) (counts : nat * nat) :
  (counts.1 <= counts.2)%nat ->
  let counts' := fold_left (count_file sqrt verifier) files counts in
  (counts'.1 <= counts'.2 <= counts.2 + length files)%nat.
Proof.
  revert counts. induction files as [|file files IH]; intros counts H;
    cbn [fold_left length]; cbn zeta.
  - lia.
  - destruct (count_file_step verifier counts file) as (Hle & Htotal & _).
    cbn zeta in Hle, Htotal.
    specialize (IH (count_file sqrt verifier counts file) (Hle H)).
    cbn zeta in IH. lia.
Qed.

Lemma count_files_all_correct (verifier : VerifySignature.Verifier)
    (files : list (option SavedFile)) (counts : nat * nat) :
  Forall (fun file => check_file sqrt verifier file = Ok true) files ->
  fold_left (count_file sqrt verifier) files counts
  = ((counts.1 + length files)%nat, (counts.2 + length files)%nat).
Proof.
  intros Hall. revert counts.
  induction Hall as [|file files Hfile _ IH]; intros counts; cbn [fold_left length].
  - rewrite !Nat.add_0_r. destruct counts; reflexivity.
  - rewrite IH. unfold count_file. rewrite Hfile. cbn [fst snd].
    f_equal; lia.
Qed.

(** X21.  [test_all_signatures] never counts more correct answers than
    verified files, nor more verified files than there are files.  The
    accuracy lies between 0 and 100, it is 0
    when no file could be verified (there is no division by zero), and it
    is exactly 100 when every file is verified and labelled as the
    classifier answers, provided there is at least one file. *)
Theorem test_all_signatures_accuracy (verifier : VerifySignature.Verifier)
    (files : list (option SavedFile)) :
  let outcome := test_all_signatures sqrt verifier files in
  let correct := outcome.1.1 in
  let total := outcome.1.2 in
  let accuracy := outcome.2 in
  (correct <= total <= length files)%nat /\
  0 <= accuracy <= 100 /\
  (total = 0%nat -> accuracy = 0) /\
  (files <> [] ->
   Forall (fun file => check_file sqrt verifier file = Ok true) files ->
   correct = length files /\ total = length files /\ accuracy == 100).
Proof.
  cbn zeta. unfold test_all_signatures. cbn zeta. cbn [fst snd].
  pose proof (count_files_bounds verifier files (0%nat, 0%nat) (Nat.le_refl _)) as Hb.
  cbn zeta in Hb. cbn [fst snd] in Hb.
  set (counts := fold_left (count_file sqrt verifier) files (0%nat, 0%nat)) in *.
  assert (inject_Z (Z.of_nat counts.1) <= inject_Z (Z.of_nat counts.2)) as Hq.
  { rewrite <- Zle_Qle. lia. }
  assert (0 <= inject_Z (Z.of_nat counts.1)) as Hc0.
  { change 0 with (inject_Z 0). rewrite <- Zle_Qle. lia. }
  split; [lia|]. split; [|split].
  - destruct (Py.gt (inject_Z (Z.of_nat counts.2)) 0) eqn:Hgt; [|lra].
    apply gt_true in Hgt.
    set (c := inject_Z (Z.of_nat counts.1)) in *.
    set (t := inject_Z (Z.of_nat counts.2)) in *.
    assert (0 <= c / t) as H0 by (apply Qle_shift_div_l; lra).
    assert (c / t <= 1) as H1 by (apply Qle_shift_div_r; lra).
    lra.
  - intros Ht. rewrite Ht. reflexivity.
  - intros Hne Hall.
    pose proof (count_files_all_correct verifier files (0%nat, 0%nat) Hall) as Heq.
    cbn [fst snd] in Heq. change (0 + length files)%nat with (length files) in Heq.
    subst counts. rewrite Heq. cbn [fst snd].
    split; [reflexivity|]. split; [reflexivity|].
    assert (0 < inject_Z (Z.of_nat (length files))) as Hpos.
    { change 0 with (inject_Z 0). rewrite <- Zlt_Qlt.
      destruct files; [congruence|cbn [length]; lia]. }
    rewrite (proj2 (gt_true _ _) Hpos). field. lra.
Qed.

End Accuracy.

Lemma saved_forgery_checked :
  TestAll.check_file Examples.sqrt6 Examples.forgery_verifier
    (Some MoreExamples.saved_forgery) = Ok true.
Proof. vm_compute. reflexivity. Qed.

Lemma test_all_signatures_accuracy_witness :
  let outcome :=
    TestAll.test_all_signatures Examples.sqrt6 Examples.forgery_verifier
      [Some MoreExamples.saved_forgery] in
  outcome.1 = (1%nat, 1%nat) /\ outcome.2 == 100.
Proof.
  destruct (test_all_signatures_accuracy Examples.sqrt6 Examples.forgery_verifier
              [Some MoreExamples.saved_forgery]) as (_ & _ & _ & Hall).
  destruct Hall as (Hcorrect & Htotal & Hacc).
  - discriminate.
  - constructor; [exact saved_forgery_checked | constructor].
  - cbn zeta. split; [|exact Hacc].
    rewrite (surjective_pairing (_ .1)), Hcorrect, Htotal. reflexivity.
Defined.

(** ** Moving a capture on the canvas *)

Section Translation.

Import Collector Geometry.

Lemma translate_cloud (dx dy : Q) (strokes : list Stroke) :
  concat (map points_get (map (translate_stroke dx dy) strokes))
  = map (translate_point dx dy) (concat (map points_get strokes)).
Proof.
  induction strokes as [|stroke strokes IH]; [reflexivity|].
  cbn [map concat]. rewrite map_app, IH. f_equal.
  destruct stroke as [[pts|] st en]; reflexivity.
Qed.

Lemma fold_max_shift (d : Q) (l : list Q) (a a' : Q) :
  a' == a + d ->
  fold_left Qmax (map (fun v => v + d) l) a' == fold_left Qmax l a + d.
Proof.
  revert a a'. induction l as [|b l IH]; intros a a' Ha; cbn [map fold_left].
  - exact Ha.
  - apply IH.
    destruct (Q.max_spec a' (b + d)) as [[? ->]|[? ->]];
      destruct (Q.max_spec a b) as [[? ->]|[? ->]]; lra.
Qed.

Lemma fold_min_shift (d : Q) (l : list Q) (a a' : Q) :
  a' == a + d ->
  fold_left Qmin (map (fun v => v + d) l) a' == fold_left Qmin l a + d.
Proof.
  revert a a'. induction l as [|b l IH]; intros a a' Ha; cbn [map fold_left].
  - exact Ha.
  - apply IH.
    destruct (Q.min_spec a' (b + d)) as [[? ->]|[? ->]];
      destruct (Q.min_spec a b) as [[? ->]|[? ->]]; lra.
Qed.

Lemma translate_xs (dx dy : Q) (ps : list Point) :
  map x (map (translate_point dx dy) ps) = map (fun v => v + dx) (map x ps).
Proof. rewrite !map_map. reflexivity. Qed.

Lemma translate_ys (dx dy : Q) (ps : list Point) :
  map y (map (translate_point dx dy) ps) = map (fun v => v + dy) (map y ps).
Proof. rewrite !map_map. reflexivity. Qed.

(** In exact arithmetic a shift leaves the width, the height, the area
    and the aspect ratio unchanged and moves the center. *)
Lemma shape_features_shift (strokes : list Stroke) (dx dy : Q) :
  exists c c',
    _calculate_shape_features strokes = Ok c /\
    _calculate_shape_features (map (translate_stroke dx dy) strokes) = Ok c' /\
    (forall k, k ∈ ["width"; "height"; "area"; "aspect_ratio"] ->
       exists v v', c !! k = Some (Some v) /\ c' !! k = Some (Some v') /\ v' == v) /\
    (forall k d, (k, d) ∈ [("center_x", dx); ("center_y", dy)] ->
       (c !! k = None /\ c' !! k = None) \/
       exists v v',
         c !! k = Some (Some v) /\ c' !! k = Some (Some v') /\ v' == v + d).
Proof.
  unfold _calculate_shape_features. rewrite translate_cloud.
  destruct (concat (map points_get strokes)) as [|q ps].
  - cbn [map]. run. eexists _, _. split; [reflexivity|]. split; [reflexivity|].
    split.
    + intros k Hk. repeat (apply elem_of_cons in Hk as [->|Hk]);
        [..|apply elem_of_nil in Hk; contradiction];
        (eexists _, _; split; [reflexivity|]; split; [reflexivity|]; reflexivity).
    + intros k d Hk. left.
      repeat (apply elem_of_cons in Hk as [[= -> ->]|Hk]);
        [..|apply elem_of_nil in Hk; contradiction]; split; reflexivity.
  - cbn [map Np.max Np.min]. rewrite !translate_xs, !translate_ys. run.
    pose proof (fold_max_shift dx (map x ps) (x q) (x (translate_point dx dy q))
                  (Qeq_refl _)) as Hmaxx.
    pose proof (fold_min_shift dx (map x ps) (x q) (x (translate_point dx dy q))
                  (Qeq_refl _)) as Hminx.
    pose proof (fold_max_shift dy (map y ps) (y q) (y (translate_point dx dy q))
                  (Qeq_refl _)) as Hmaxy.
    pose proof (fold_min_shift dy (map y ps) (y q) (y (translate_point dx dy q))
                  (Qeq_refl _)) as Hminy.
    set (max_x' := fold_left Qmax (map (fun v => v + dx) (map x ps)) _) in *.
    set (min_x' := fold_left Qmin (map (fun v => v + dx) (map x ps)) _) in *.
    set (max_y' := fold_left Qmax (map (fun v => v + dy) (map y ps)) _) in *.
    set (min_y' := fold_left Qmin (map (fun v => v + dy) (map y ps)) _) in *.
    set (max_x := fold_left Qmax (map x ps) (x q)) in *.
    set (min_x := fold_left Qmin (map x ps) (x q)) in *.
    set (max_y := fold_left Qmax (map y ps) (y q)) in *.
    set (min_y := fold_left Qmin (map y ps) (y q)) in *.
    assert (max_x' - min_x' == max_x - min_x) as Hw by lra.
    assert (max_y' - min_y' == max_y - min_y) as Hh by lra.
    assert (exists asp asp',
              (if Py.gt (max_y - min_y) 0
               then Py.div (max_x - min_x) (max_y - min_y) else mret 0) = Ok asp /\
              (if Py.gt (max_y' - min_y') 0
               then Py.div (max_x' - min_x') (max_y' - min_y') else mret 0) = Ok asp' /\
              asp' == asp) as (asp & asp' & -> & -> & Hasp).
    { destruct (Py.gt (max_y - min_y) 0) eqn:Hgt.
      - apply gt_true in Hgt.
        rewrite (proj2 (gt_true (max_y' - min_y') 0)) by lra.
        rewrite !div_Ok by lra. eexists _, _. split; [reflexivity|].
        split; [reflexivity|]. rewrite Hw, Hh. reflexivity.
      - apply gt_false in Hgt.
        rewrite (proj2 (gt_false (max_y' - min_y') 0)) by lra.
        eexists _, _. split; [reflexivity|]. split; reflexivity. }
    run. eexists _, _. split; [reflexivity|]. split; [reflexivity|]. split.
    + intros k Hk. repeat (apply elem_of_cons in Hk as [->|Hk]);
        [..|apply elem_of_nil in Hk; contradiction];
        (eexists _, _; split; [reflexivity|]; split; [reflexivity|]).
      * exact Hw.
      * exact Hh.
      * rewrite Hw, Hh. reflexivity.
      * exact Hasp.
    + intros k d Hk. right.
      repeat (apply elem_of_cons in Hk as [[= -> ->]|Hk]);
        [..|apply elem_of_nil in Hk; contradiction];
        (eexists _, _; split; [reflexivity|]; split; [reflexivity|]).
      * rewrite Hminx, Hmaxx. field.
      * rewrite Hminy, Hmaxy. field.
Qed.

Lemma fold_Zmax_shift (d : Z) (l : list Z) (a : Z) :
  fold_left Z.max (map (fun z => z + d)%Z l) (a + d)%Z
  = (fold_left Z.max l a + d)%Z.
Proof.
  revert a. induction l as [|b l IH]; intros a; cbn [map fold_left]; [reflexivity|].
  rewrite Z.add_max_distr_r. apply IH.
Qed.

Lemma fold_Zmin_shift (d : Z) (l : list Z) (a : Z) :
  fold_left Z.min (map (fun z => z + d)%Z l) (a + d)%Z
  = (fold_left Z.min l a + d)%Z.
Proof.
  revert a. induction l as [|b l IH]; intros a; cbn [map fold_left]; [reflexivity|].
  rewrite Z.add_min_distr_r. apply IH.
Qed.

Lemma all_points_translate (strokes : list Stroke) (dx dy : Z) :
  Spec.integer_points strokes ->
  Int64.all_points (map (translate_stroke (inject_Z dx) (inject_Z dy)) strokes)
  = map (fun p => (p.1 + dx, p.2 + dy)%Z) (Int64.all_points strokes).
Proof.
  intros Hint. unfold Int64.all_points. rewrite translate_cloud, !map_map.
  apply map_ext_in. intros pt Hpt. apply list_elem_of_In in Hpt.
  unfold Spec.integer_points in Hint. rewrite Forall_forall in Hint.
  destruct (Hint pt Hpt) as [(zx & Hx & _) (zy & Hy & _)].
  cbn [fst snd translate_point x y].
  rewrite Hx, Hy, <- !inject_Z_plus, !Qfloor_Z. reflexivity.
Qed.

(** X22.  On points with integer coordinates of magnitude at most [2^25]
    the shape features do not depend on where the capture lies on the
    canvas: shifting every point by the integers [(dx, dy)], to such
    coordinates again, leaves the width, the height, the area and the
    aspect ratio unchanged, and moves the center, when it is reported, by
    [(dx, dy)].  The width, the height and the area that numpy computes
    in int64 are the same before and after the shift. *)
Theorem shape_features_translation (strokes : list Stroke) (dx dy : Z) :
  Spec.integer_points strokes ->
  Spec.integer_points (map (translate_stroke (inject_Z dx) (inject_Z dy)) strokes) ->
  let shifted := map (translate_stroke (inject_Z dx) (inject_Z dy)) strokes in
  (exists c c',
     _calculate_shape_features strokes = Ok c /\
     _calculate_shape_features shifted = Ok c' /\
     (forall k, k ∈ ["width"; "height"; "area"; "aspect_ratio"] ->
        exists v v', c !! k = Some (Some v) /\ c' !! k = Some (Some v') /\ v' == v) /\
     (forall k d, (k, d) ∈ [("center_x", inject_Z dx); ("center_y", inject_Z dy)] ->
        (c !! k = None /\ c' !! k = None) \/
        exists v v',
          c !! k = Some (Some v) /\ c' !! k = Some (Some v') /\ v' == v + d)) /\
  match Int64.bounding_box strokes, Int64.bounding_box shifted with
  | Some box, Some box' =>
      Int64.width box' = Int64.width box /\
      Int64.height box' = Int64.height box /\
      Int64.area box' = Int64.area box /\
      Int64.min_x box' = (Int64.min_x box + dx)%Z /\
      Int64.min_y box' = (Int64.min_y box + dy)%Z
  | None, None => True
  | _, _ => False
  end.
Proof.
  intros Hint _ shifted. split; [apply shape_features_shift|].
  unfold shifted, Int64.bounding_box. rewrite (all_points_translate _ _ _ Hint).
  destruct (Int64.all_points strokes) as [|[px py] ps]; [exact I|].
  cbn [map fst snd].
  assert (map fst (map (fun p : Z * Z => (p.1 + dx, p.2 + dy)%Z) ps)
          = map (fun z => z + dx)%Z (map fst ps)) as -> by (rewrite !map_map; reflexivity).
  assert (map snd (map (fun p : Z * Z => (p.1 + dx, p.2 + dy)%Z) ps)
          = map (fun z => z + dy)%Z (map snd ps)) as -> by (rewrite !map_map; reflexivity).
  rewrite !fold_Zmax_shift, !fold_Zmin_shift.
  cbn [Int64.width Int64.height Int64.area Int64.min_x Int64.min_y].
  set (max_x := fold_left Z.max (map fst ps) px).
  set (min_x := fold_left Z.min (map fst ps) px).
  set (max_y := fold_left Z.max (map snd ps) py).
  set (min_y := fold_left Z.min (map snd ps) py).
  replace (max_x + dx - (min_x + dx))%Z with (max_x - min_x)%Z by lia.
  replace (max_y + dy - (min_y + dy))%Z with (max_y - min_y)%Z by lia.
  repeat split.
Qed.

End Translation.

Lemma shape_features_translation_witness :
  exists c c' w w',
    Collector._calculate_shape_features
      (default [] (Collector.strokes Examples.example_signature)) = Ok c /\
    Collector._calculate_shape_features
      (map (Geometry.translate_stroke (inject_Z 5) (inject_Z (-7)))
           (default [] (Collector.strokes Examples.example_signature))) = Ok c' /\
    c !! "width" = Some (Some w) /\
    c' !! "width" = Some (Some w') /\
    w' == w.
Proof.
  destruct (shape_features_translation
              (default [] (Collector.strokes Examples.example_signature)) 5 (-7))
    as [(c & c' & Hc & Hc' & Hsame & _) _].
  - exact example_integer_points.
  - repeat constructor; eexists; (split; [reflexivity | vm_compute; discriminate]).
  - destruct (Hsame "width") as (w & w' & Hw & Hw' & Heq).
    { apply elem_of_cons. left. reflexivity. }
    exists c, c', w, w'. repeat (split; [assumption|]). exact Heq.
Defined.
